(** * file-manager: renaming and sorting media files by date

    A shallow embedding of [src/utils.py] and [src/pictures.py].

    Python strings are modelled as [string] (sequences of 8-bit characters,
    compared by character code as Python compares code points); case
    mapping is the ASCII one, which is all the program's constants need.
    File timestamps are binary64 floats, as [os.path.getctime] returns them.
    Methods that touch the operating system run in a state-and-exception
    monad over a world (file system, standard input, standard output) paired
    with the object's attributes; [while] loops take a fuel argument. *)

From Stdlib Require Import Bool Arith Lia List ZArith.
From Stdlib Require Import Ascii String DecimalString.
From Stdlib Require Import DecimalNat Sorting.Permutation.
From Stdlib Require Import Floats.PrimFloat Floats.SpecFloat Floats.FloatOps.
Import ListNotations.

Local Open Scope list_scope.
Local Open Scope string_scope.

(** ** Python strings *)

Module PyStr.

Definition backslash : string := String "092"%char EmptyString.
Definition dquote : string := String "034"%char EmptyString.
Definition squote : string := String "039"%char EmptyString.

(** [str.upper] and [str.lower] on ASCII letters. *)
Definition upper_char (c : ascii) : ascii :=
  let n := nat_of_ascii c in
  if ((97 <=? n) && (n <=? 122))%nat then ascii_of_nat (n - 32) else c.

Definition lower_char (c : ascii) : ascii :=
  let n := nat_of_ascii c in
  if ((65 <=? n) && (n <=? 90))%nat then ascii_of_nat (n + 32) else c.

Fixpoint map_chars (f : ascii -> ascii) (s : string) : string :=
  match s with
  | EmptyString => EmptyString
  | String c s' => String (f c) (map_chars f s')
  end.

Definition upper : string -> string := map_chars upper_char.
Definition lower : string -> string := map_chars lower_char.

(** [sep.join(parts)] *)
Definition join (sep : string) (parts : list string) : string :=
  String.concat sep parts.

(** [str(n)] for a non-negative integer. *)
Definition of_nat (n : nat) : string :=
  NilZero.string_of_uint (Nat.to_uint n).

(** [needle in hay] *)
Fixpoint contains (needle hay : string) : bool :=
  String.prefix needle hay ||
  match hay with
  | EmptyString => false
  | String _ hay' => contains needle hay'
  end.

(** [s.replace(c, by)] for a one-character pattern. *)
Fixpoint replace_char (c : ascii) (by_ : string) (s : string) : string :=
  match s with
  | EmptyString => EmptyString
  | String d s' =>
      if Ascii.eqb d c then by_ ++ replace_char c by_ s'
      else String d (replace_char c by_ s')
  end.

(** Whitespace as [str.strip()] sees it among the characters up to 255:
    codes 9 to 13, 28 to 32, 133 (next line) and 160 (no-break space). *)
Definition is_space (c : ascii) : bool :=
  let n := nat_of_ascii c in
  (((9 <=? n) && (n <=? 13)) || ((28 <=? n) && (n <=? 32)) ||
   (n =? 133) || (n =? 160))%nat.

Fixpoint lstrip (s : string) : string :=
  match s with
  | EmptyString => EmptyString
  | String c s' => if is_space c then lstrip s' else s
  end.

Fixpoint rstrip (s : string) : string :=
  match s with
  | EmptyString => EmptyString
  | String c s' =>
      match rstrip s' with
      | EmptyString => if is_space c then EmptyString else String c EmptyString
      | r => String c r
      end
  end.

Definition strip (s : string) : string := rstrip (lstrip s).

(** [s[0:n]] *)
Definition slice_to (n : nat) (s : string) : string := String.substring 0 n s.

(** [x in xs] for a list of strings. *)
Definition mem (x : string) (xs : list string) : bool :=
  existsb (String.eqb x) xs.

(** [min(xs)]: the first of the smallest elements; [None] stands for the
    [ValueError] Python raises on an empty sequence. *)
Definition min_from (first : string) (rest : list string) : string :=
  fold_left (fun best x => if String.ltb x best then x else best) rest first.

Definition min (xs : list string) : option string :=
  match xs with
  | [] => None
  | x :: rest => Some (min_from x rest)
  end.

End PyStr.

(** ** [os.path.splitext] (the [ntpath] flavour)

    The extension starts at the last dot of the last path component,
    unless that component consists of leading dots only up to there. *)

Module NtPath.

Definition is_sep (c : ascii) : bool :=
  Ascii.eqb c "092"%char || Ascii.eqb c "/"%char.

Definition is_dot (c : ascii) : bool := Ascii.eqb c "."%char.

(** Scans [p] from the left.  [seen] is [true] once a character other than
    a dot has occurred in the current component.  The result is the suffix
    starting at the last dot that qualifies as an extension separator, or
    [None] when there is none. *)
Fixpoint ext_from (seen : bool) (p : string) : option string :=
  match p with
  | EmptyString => None
  | String c p' =>
      if is_sep c then ext_from false p'
      else if is_dot c then
        match ext_from seen p' with
        | Some e => Some e
        | None =>
            if seen && negb (existsb is_sep (list_ascii_of_string p'))
            then Some p else None
        end
      else ext_from true p'
  end.

Definition splitext (p : string) : string * string :=
  match ext_from false p with
  | Some e => (String.substring 0 (String.length p - String.length e) p, e)
  | None => (p, EmptyString)
  end.

End NtPath.

Definition get_file_extension (file_name : string) : string :=
  snd (NtPath.splitext file_name).

(** ** Exceptions and the execution monad *)

(** The exception classes the program distinguishes.  [WindowsError] is
    [OSError] with all its subclasses; it carries [strerror] and the text
    [str(e)].  The other classes carry [str(e)]. *)
Inductive exn : Type :=
| WindowsError (strerror text : string)
| TypeError (text : string)
| ValueError (text : string)
| OverflowError (text : string)
| EOFError (text : string).

Definition exn_text (e : exn) : string :=
  match e with
  | WindowsError _ t | TypeError t | ValueError t | OverflowError t
  | EOFError t => t
  end.

Inductive outcome (S A : Type) : Type :=
| Returned (a : A) (s : S)
| Raised (e : exn) (s : S)
| OutOfFuel.

Arguments Returned {S A} a s.
Arguments Raised {S A} e s.
Arguments OutOfFuel {S A}.

Definition Py (S A : Type) : Type := S -> outcome S A.

Definition ret {S A} (a : A) : Py S A := fun s => Returned a s.

Definition bind {S A B} (c : Py S A) (k : A -> Py S B) : Py S B :=
  fun s =>
    match c s with
    | Returned a s' => k a s'
    | Raised e s' => Raised e s'
    | OutOfFuel => OutOfFuel
    end.

Definition diverge {S A} : Py S A := fun _ => OutOfFuel.

(** [try: c  except ...: h e  else: k a].  The handler answers [None] for an
    exception no [except] clause matches, which then propagates.  The [else]
    suite runs after a body that raised nothing, outside the reach of the
    handlers. *)
Definition try_except_else {S A B}
    (c : Py S A) (h : exn -> option (Py S B)) (k : A -> Py S B) : Py S B :=
  fun s =>
    match c s with
    | Returned a s' => k a s'
    | Raised e s' =>
        match h e with
        | Some handler => handler s'
        | None => Raised e s'
        end
    | OutOfFuel => OutOfFuel
    end.

Declare Scope py_scope.
Delimit Scope py_scope with py.
Notation "x <- c ;; k" := (bind c (fun x => k))
  (at level 61, c at next level, right associativity) : py_scope.
Notation "c ;; k" := (bind c (fun _ => k))
  (at level 61, right associativity) : py_scope.
Local Open Scope py_scope.

(** [for x in xs: body x] *)
Fixpoint for_each {S A} (xs : list A) (body : A -> Py S unit) : Py S unit :=
  match xs with
  | [] => ret tt
  | x :: xs' => body x ;; for_each xs' body
  end.

(** ** The operating system *)

(** What the program asks of its host.  A call answers with a value or with
    the exception it raises; [rename] and [mkdir] answer with the new file
    system.  [exif_date_time_original] stands for opening the file, running
    [exifread.process_file] and looking up the tag [EXIF DateTimeOriginal]:
    [None] when the tag is absent, its [values] text otherwise.
    [strftime] is [datetime.fromtimestamp(t).strftime(fmt)], which depends
    on the host's time zone. *)
Class OS (FS : Type) : Type := {
  listdir : FS -> string -> exn + list string;
  getctime : FS -> string -> exn + float;
  getmtime : FS -> string -> exn + float;
  exif_date_time_original : FS -> string -> exn + option string;
  rename : FS -> string -> string -> exn + FS;
  mkdir : FS -> string -> exn + FS;
  getcwd : FS -> string;
  path_join : string -> string -> string;
  strftime : float -> string -> exn + string
}.

Record World (FS : Type) : Type := {
  w_fs : FS;
  w_stdin : list string;
  w_stdout : list string
}.

Arguments w_fs {FS} _.
Arguments w_stdin {FS} _.
Arguments w_stdout {FS} _.
Arguments Build_World {FS} _ _ _.

(** The world after [print(line)]. *)
Definition printed {FS : Type} (w : World FS) (line : string) : World FS :=
  Build_World (w_fs w) (w_stdin w) (w_stdout w ++ [line]).

(** The world with another file system. *)
Definition with_fs {FS : Type} (w : World FS) (fs' : FS) : World FS :=
  Build_World fs' (w_stdin w) (w_stdout w).

Section Effects.
Context {FS : Type} {os : OS FS} {O : Type}.

Definition St : Type := (World FS * O)%type.

Definition get_self : Py St O := fun s => Returned (snd s) s.

Definition modify_self (f : O -> O) : Py St unit :=
  fun s => Returned tt (fst s, f (snd s)).

(** A call that reads the file system. *)
Definition os_read {A} (op : FS -> exn + A) : Py St A :=
  fun s =>
    match op (w_fs (fst s)) with
    | inl e => Raised e s
    | inr a => Returned a s
    end.

(** A call that changes the file system. *)
Definition os_write (op : FS -> exn + FS) : Py St unit :=
  fun s =>
    match op (w_fs (fst s)) with
    | inl e => Raised e s
    | inr fs' =>
        Returned tt
          (Build_World fs' (w_stdin (fst s)) (w_stdout (fst s)), snd s)
    end.

(** A pure library call that may raise. *)
Definition lift {A} (r : exn + A) : Py St A :=
  fun s =>
    match r with
    | inl e => Raised e s
    | inr a => Returned a s
    end.

(** [print(line)] *)
Definition print (line : string) : Py St unit :=
  fun s =>
    Returned tt
      (Build_World (w_fs (fst s)) (w_stdin (fst s)) (w_stdout (fst s) ++ [line]),
       snd s).

(** [input(prompt)]: writes the prompt and reads one line. *)
Definition input (prompt : string) : Py St string :=
  fun s =>
    let out := (w_stdout (fst s) ++ [prompt])%list in
    match w_stdin (fst s) with
    | [] =>
        Raised (EOFError "EOF when reading a line")
          (Build_World (w_fs (fst s)) [] out, snd s)
    | line :: rest =>
        Returned line (Build_World (w_fs (fst s)) rest out, snd s)
    end.

(** A computation that only reads the file system: its answer depends on
    the file system alone and it leaves the state as it found it. *)
Definition reads_only {A} (c : Py St A) : Prop :=
  forall fs : FS, exists r : exn + A,
    forall s : St, w_fs (fst s) = fs ->
      c s = match r with
            | inl e => Raised e s
            | inr a => Returned a s
            end.

End Effects.

Arguments St : clear implicits.

(** ** [utils.py] *)

(** Truth value of a float: anything but zero. *)
Definition truthy (x : float) : bool := negb (PrimFloat.eqb x 0%float).

(** Truth value of an optional string, and [a or b]. *)
Definition py_or (a : option string) (b : string) : string :=
  match a with
  | Some (String c a') => String c a'
  | _ => b
  end.

Section FormatDateTime.
Context {FS : Type} {os : OS FS} {O : Type}.

Definition format_date_time (date_time : float) (date_format : string)
  : Py (St FS O) string :=
  lift (strftime date_time date_format).

End FormatDateTime.

Module DateName.

Record t : Type := {
  file_name : string;
  date_format : string;
  new_name : option string
}.

Definition set_new_name (n : option string) (self : t) : t :=
  {| file_name := file_name self;
     date_format := date_format self;
     new_name := n |}.

(** [date for date in date_times if date is not None] *)
Fixpoint not_none (date_times : list (option string)) : list string :=
  match date_times with
  | [] => []
  | Some d :: rest => d :: not_none rest
  | None :: rest => not_none rest
  end.

(** The choice [determine_name] makes among the three dates: [min] of those
    present; on the [ValueError] of an empty sequence [new_name] keeps the
    [None] it was created with. *)
Definition oldest (date_times : list (option string)) : option string :=
  PyStr.min (not_none date_times).

(** The text of a present capture-time tag, reshaped. *)
Definition reshape_date_taken (date_taken : string) : string :=
  PyStr.replace_char " " "_"
    (PyStr.strip (PyStr.replace_char ":" EmptyString date_taken)).

Section Methods.
Context {FS : Type} {os : OS FS} {O : Type}.

Definition get_date_created (self : t) : Py (St FS O) (option string) :=
  date_created <- os_read (fun fs => getctime fs (file_name self)) ;;
  if truthy date_created then
    s <- format_date_time date_created (date_format self) ;;
    ret (Some s)
  else ret None.

Definition get_date_modified (self : t) : Py (St FS O) (option string) :=
  date_modified <- os_read (fun fs => getmtime fs (file_name self)) ;;
  if truthy date_modified then
    s <- format_date_time date_modified (date_format self) ;;
    ret (Some s)
  else ret None.

Definition get_date_taken (self : t) : Py (St FS O) (option string) :=
  tag <- os_read (fun fs => exif_date_time_original fs (file_name self)) ;;
  match tag with
  | None => ret None
  | Some date_taken => ret (Some (reshape_date_taken date_taken))
  end.

Definition determine_name (self : t) : Py (St FS O) t :=
  created <- get_date_created self ;;
  taken <- get_date_taken self ;;
  modified <- get_date_modified self ;;
  let date_times := [created; taken; modified] in
  match oldest date_times with
  | Some n => ret (set_new_name (Some n) self)
  | None => ret self
  end.

Definition init (file_name date_format : string) : Py (St FS O) t :=
  determine_name
    {| file_name := file_name; date_format := date_format; new_name := None |}.

End Methods.

End DateName.

Module FileRenamer.

Record t : Type := {
  input_path : option string;
  original_path : string;
  path : string;
  files : list string;
  successfully_renamed : list string;
  skipped_new_name_matches_old : list string;
  failed_to_rename : list string;
  skipped_different_extension : list string
}.

Definition set_path (p : string) (self : t) : t :=
  {| input_path := input_path self; original_path := original_path self;
     path := p; files := files self;
     successfully_renamed := successfully_renamed self;
     skipped_new_name_matches_old := skipped_new_name_matches_old self;
     failed_to_rename := failed_to_rename self;
     skipped_different_extension := skipped_different_extension self |}.

Definition set_files (l : list string) (self : t) : t :=
  {| input_path := input_path self; original_path := original_path self;
     path := path self; files := l;
     successfully_renamed := successfully_renamed self;
     skipped_new_name_matches_old := skipped_new_name_matches_old self;
     failed_to_rename := failed_to_rename self;
     skipped_different_extension := skipped_different_extension self |}.

(** The four outcome lists. *)
Inductive bucket : Type :=
| SuccessfullyRenamed
| SkippedNewNameMatchesOld
| FailedToRename
| SkippedDifferentExtension.

Definition bucket_eqb (a b : bucket) : bool :=
  match a, b with
  | SuccessfullyRenamed, SuccessfullyRenamed
  | SkippedNewNameMatchesOld, SkippedNewNameMatchesOld
  | FailedToRename, FailedToRename
  | SkippedDifferentExtension, SkippedDifferentExtension => true
  | _, _ => false
  end.

Definition get (b : bucket) (self : t) : list string :=
  match b with
  | SuccessfullyRenamed => successfully_renamed self
  | SkippedNewNameMatchesOld => skipped_new_name_matches_old self
  | FailedToRename => failed_to_rename self
  | SkippedDifferentExtension => skipped_different_extension self
  end.

(** [self.<bucket>.append(entry)] *)
Definition append (b : bucket) (entry : string) (self : t) : t :=
  {| input_path := input_path self; original_path := original_path self;
     path := path self; files := files self;
     successfully_renamed :=
       match b with
       | SuccessfullyRenamed => successfully_renamed self ++ [entry]
       | _ => successfully_renamed self
       end;
     skipped_new_name_matches_old :=
       match b with
       | SkippedNewNameMatchesOld => skipped_new_name_matches_old self ++ [entry]
       | _ => skipped_new_name_matches_old self
       end;
     failed_to_rename :=
       match b with
       | FailedToRename => failed_to_rename self ++ [entry]
       | _ => failed_to_rename self
       end;
     skipped_different_extension :=
       match b with
       | SkippedDifferentExtension => skipped_different_extension self ++ [entry]
       | _ => skipped_different_extension self
       end |}.

Definition not_found_prompt (p : string) : string :=
  "The path " ++ PyStr.dquote ++ p ++ PyStr.dquote ++
  " was not found. Do you want to continue? (Y/N)".

Definition wrong_answer : string :=
  "You did not input a correct value to answer if you wanted to continue.".

(** What [print_report] prints when every list is empty. *)
Definition empty_report : list string :=
  ["Successfully updated 0 files.";
   "Failed to rename 0 files.";
   "Skipped 0 because new name matched old name.";
   "Skipped 0 because extension did not match approved list."].

Section Methods.
Context {FS : Type} {os : OS FS}.

(** The class attribute and the two hooks a subclass overrides. *)
Variable accepted_extensions : list string.
Variable get_new_name : string -> Py (St FS t) (option string).
Variable rename_file : nat -> string -> string -> string -> Py (St FS t) unit.

Fixpoint get_files (fuel : nat) : Py (St FS t) unit :=
  match fuel with
  | O => diverge
  | S fuel' =>
      self <- get_self ;;
      try_except_else
        (os_read (fun fs => listdir fs (path self)))
        (fun e =>
           match e with
           | WindowsError _ _ =>
               Some (answer <- input (not_found_prompt (path self)) ;;
                     let continue_running := PyStr.upper answer in
                     if String.eqb continue_running "N" then ret tt
                     else if String.eqb continue_running "Y" then
                       new_path <- input "Please enter a new path:" ;;
                       modify_self (set_path new_path) ;;
                       get_files fuel'
                     else print wrong_answer)
           | _ => None
           end)
        (fun listing => modify_self (set_files listing))
  end.

(** The body of the loop of [process_files]. *)
Definition process_file (fuel : nat) (file_name : string) : Py (St FS t) unit :=
  print ("file_name " ++ file_name) ;;
  let ext := get_file_extension file_name in
  self <- get_self ;;
  let file_name := path_join (path self) file_name in
  if negb (PyStr.mem (PyStr.lower ext) accepted_extensions) then
    modify_self (append SkippedDifferentExtension file_name)
  else
    new_name <- get_new_name file_name ;;
    match new_name with
    | None =>
        modify_self
          (append FailedToRename
             ("Failed to rename " ++ file_name ++
              " because no new name could be determined."))
    | Some new_name =>
        self <- get_self ;;
        let new_name := path_join (path self) new_name in
        rename_file fuel file_name new_name ext
    end.

Definition process_files (fuel : nat) : Py (St FS t) unit :=
  self <- get_self ;;
  for_each (files self) (process_file fuel).

Definition print_report : Py (St FS t) unit :=
  self <- get_self ;;
  print ("Successfully updated " ++
         PyStr.of_nat (List.length (successfully_renamed self)) ++ " files.") ;;
  print ("Failed to rename " ++
         PyStr.of_nat (List.length (failed_to_rename self)) ++ " files.") ;;
  print ("Skipped " ++
         PyStr.of_nat (List.length (skipped_new_name_matches_old self)) ++
         " because new name matched old name.") ;;
  print ("Skipped " ++
         PyStr.of_nat (List.length (skipped_different_extension self)) ++
         " because extension did not match approved list.").

(** The object [__init__] starts from. *)
Definition fresh (fs : FS) (input_path : option string) : t :=
  let original_path := getcwd fs in
  {| input_path := input_path;
     original_path := original_path;
     path := py_or input_path original_path;
     files := [];
     successfully_renamed := [];
     skipped_new_name_matches_old := [];
     failed_to_rename := [];
     skipped_different_extension := [] |}.

Definition init (fuel : nat) (input_path : option string) (w : World FS)
  : outcome (St FS t) unit :=
  (get_files fuel ;;
   self <- get_self ;;
   (match files self with
    | [] => ret tt
    | _ :: _ => process_files fuel
    end) ;;
   print_report) (w, fresh (w_fs w) input_path).

End Methods.

End FileRenamer.

Module FileSorter.

Record t : Type := {
  input_path : string;
  base_path : string;
  files : list string;
  successfully_moved : list string;
  failed_to_move : list string;
  skipped_different_extension : list string
}.

Definition set_input_path (p : string) (self : t) : t :=
  {| input_path := p; base_path := base_path self; files := files self;
     successfully_moved := successfully_moved self;
     failed_to_move := failed_to_move self;
     skipped_different_extension := skipped_different_extension self |}.

Definition set_files (l : list string) (self : t) : t :=
  {| input_path := input_path self; base_path := base_path self; files := l;
     successfully_moved := successfully_moved self;
     failed_to_move := failed_to_move self;
     skipped_different_extension := skipped_different_extension self |}.

(** What [print_report] prints when every list is empty. *)
Definition empty_report : list string :=
  ["Successfully moved 0 files.";
   "Failed to move 0 files.";
   "Skipped 0 because extension did not match approved list."].

(** The three outcome lists. *)
Inductive bucket : Type :=
| SuccessfullyMoved
| FailedToMove
| SkippedDifferentExtension.

Definition bucket_eqb (a b : bucket) : bool :=
  match a, b with
  | SuccessfullyMoved, SuccessfullyMoved
  | FailedToMove, FailedToMove
  | SkippedDifferentExtension, SkippedDifferentExtension => true
  | _, _ => false
  end.

Definition get (b : bucket) (self : t) : list string :=
  match b with
  | SuccessfullyMoved => successfully_moved self
  | FailedToMove => failed_to_move self
  | SkippedDifferentExtension => skipped_different_extension self
  end.

(** [self.<bucket>.append(entry)] *)
Definition append (b : bucket) (entry : string) (self : t) : t :=
  {| input_path := input_path self; base_path := base_path self;
     files := files self;
     successfully_moved :=
       match b with
       | SuccessfullyMoved => successfully_moved self ++ [entry]
       | _ => successfully_moved self
       end;
     failed_to_move :=
       match b with
       | FailedToMove => failed_to_move self ++ [entry]
       | _ => failed_to_move self
       end;
     skipped_different_extension :=
       match b with
       | SkippedDifferentExtension => skipped_different_extension self ++ [entry]
       | _ => skipped_different_extension self
       end |}.

Section Methods.
Context {FS : Type} {os : OS FS}.

(** The class attribute and the hook a subclass overrides. *)
Variable accepted_extensions : list string.
Variable move_file : nat -> string -> Py (St FS t) unit.

Fixpoint get_files (fuel : nat) : Py (St FS t) unit :=
  match fuel with
  | O => diverge
  | S fuel' =>
      self <- get_self ;;
      try_except_else
        (os_read (fun fs => listdir fs (input_path self)))
        (fun e =>
           match e with
           | WindowsError _ _ =>
               Some (continue_running <-
                       input (FileRenamer.not_found_prompt (input_path self)) ;;
                     if String.eqb (PyStr.upper continue_running) "N" then ret tt
                     else if String.eqb (PyStr.upper continue_running) "Y" then
                       new_path <- input "Please enter a new path:" ;;
                       modify_self (set_input_path new_path) ;;
                       get_files fuel'
                     else print FileRenamer.wrong_answer)
           | _ => None
           end)
        (fun listing => modify_self (set_files listing))
  end.

(** The body of the loop of [process_files]. *)
Definition process_file (fuel : nat) (file_name : string) : Py (St FS t) unit :=
  print ("file_name " ++ file_name) ;;
  let ext := get_file_extension file_name in
  if negb (PyStr.mem (PyStr.lower ext) accepted_extensions) then
    modify_self (append SkippedDifferentExtension file_name)
  else move_file fuel file_name.

Definition process_files (fuel : nat) : Py (St FS t) unit :=
  self <- get_self ;;
  for_each (files self) (process_file fuel).

Definition print_report : Py (St FS t) unit :=
  self <- get_self ;;
  print ("Successfully moved " ++
         PyStr.of_nat (List.length (successfully_moved self)) ++ " files.") ;;
  print ("Failed to move " ++
         PyStr.of_nat (List.length (failed_to_move self)) ++ " files.") ;;
  print ("Skipped " ++
         PyStr.of_nat (List.length (skipped_different_extension self)) ++
         " because extension did not match approved list.").

Definition fresh (input_path base_path : string) : t :=
  {| input_path := input_path;
     base_path := base_path;
     files := [];
     successfully_moved := [];
     failed_to_move := [];
     skipped_different_extension := [] |}.

Definition init (fuel : nat) (input_path base_path : string) (w : World FS)
  : outcome (St FS t) unit :=
  (get_files fuel ;;
   self <- get_self ;;
   (match files self with
    | [] => ret tt
    | _ :: _ => process_files fuel
    end) ;;
   print_report) (w, fresh input_path base_path).

End Methods.

End FileSorter.

(** ** [pictures.py] *)

Definition MEDIA_EXTENSIONS : list string :=
  [".jpg"; ".jpeg"; ".png"; ".mp4"; ".bmp"; ".3g2"; ".avi"; ".3gp"; ".mov"; ".wmv"].

Module PictureRenamer.

Import FileRenamer.

Definition accepted_extensions : list string := MEDIA_EXTENSIONS.
Definition date_format : string := "%Y%m%d_%H%M%S".

(** The name tried after [unique_num] collisions. *)
Definition candidate (new_name ext : string) (unique_num : nat) : string :=
  match unique_num with
  | O => PyStr.join EmptyString [new_name; ext]
  | S _ =>
      let unique_identifier := "_" ++ PyStr.of_nat unique_num in
      PyStr.join EmptyString [new_name; unique_identifier; ext]
  end.

Definition renamed_entry (file_name new_file_name : string) : string :=
  PyStr.dquote ++ file_name ++ PyStr.dquote ++ " renamed " ++
  PyStr.dquote ++ new_file_name ++ PyStr.dquote.

Definition failed_entry (file_name reason : string) : string :=
  "Failed to rename " ++ file_name ++ ". Reason: " ++ reason.

Section Methods.
Context {FS : Type} {os : OS FS}.

Definition get_new_name (file_name : string) : Py (St FS t) (option string) :=
  renamer <- DateName.init file_name date_format ;;
  ret (DateName.new_name renamer).

(** The [while try_renaming] loop; [new_file_name] and [unique_num] are
    its variables. *)
Fixpoint rename_loop (fuel : nat) (file_name new_name ext : string)
    (new_file_name : string) (unique_num : nat) : Py (St FS t) unit :=
  match fuel with
  | O => diverge
  | S fuel' =>
      if String.eqb new_file_name file_name then
        modify_self (append SkippedNewNameMatchesOld file_name)
      else
        try_except_else
          (os_write (fun fs => rename fs file_name new_file_name) ;;
           print ("new name " ++ new_file_name))
          (fun e =>
             match e with
             | WindowsError _ _ =>
                 let unique_num := S unique_num in
                 let unique_identifier := "_" ++ PyStr.of_nat unique_num in
                 let new_file_name :=
                   PyStr.join EmptyString [new_name; unique_identifier; ext] in
                 Some (rename_loop fuel' file_name new_name ext
                         new_file_name unique_num)
             | TypeError _ =>
                 Some (modify_self
                         (append FailedToRename
                            (failed_entry file_name (exn_text e))))
             | _ => None
             end)
          (fun _ =>
             modify_self
               (append SuccessfullyRenamed
                  (renamed_entry file_name new_file_name)))
  end.

Definition rename_file (fuel : nat) (file_name new_name ext : string)
  : Py (St FS t) unit :=
  let new_file_name := PyStr.join EmptyString [new_name; ext] in
  rename_loop fuel file_name new_name ext new_file_name 0.

Definition get_files := @FileRenamer.get_files FS os.
Definition process_file :=
  FileRenamer.process_file accepted_extensions get_new_name rename_file.
Definition process_files :=
  FileRenamer.process_files accepted_extensions get_new_name rename_file.
Definition init :=
  FileRenamer.init accepted_extensions get_new_name rename_file.

End Methods.

End PictureRenamer.

Module PictureSorter.

Import FileSorter.

Definition accepted_extensions : list string := MEDIA_EXTENSIONS.

Definition sort_key (file_name : string) : string := PyStr.slice_to 4 file_name.

Definition current_file_path (self : t) (file_name : string) : string :=
  PyStr.join PyStr.backslash [input_path self; file_name].

(** The first destination [move_file] tries. *)
Definition new_file_path (self : t) (file_name : string) : string :=
  PyStr.join PyStr.backslash [base_path self; sort_key file_name; file_name].

Definition moved_entry (current new : string) : string :=
  PyStr.dquote ++ current ++ PyStr.dquote ++ " moved to " ++
  PyStr.dquote ++ new ++ PyStr.dquote ++ ".".

Section Methods.
Context {FS : Type} {os : OS FS}.

(** The [while try_moving] loop; [new_file_path] and [unique_num] are its
    variables.  Setting [try_moving] to [False] ends it. *)
Fixpoint move_loop (fuel : nat) (file_name sort_key current_file_path : string)
    (new_file_path : string) (unique_num : nat) : Py (St FS t) unit :=
  match fuel with
  | O => diverge
  | S fuel' =>
      try_except_else
        (os_write (fun fs => rename fs current_file_path new_file_path) ;;
         print ("new path " ++ new_file_path))
        (fun error =>
           match error with
           | WindowsError strerror _ =>
               Some
                 (self <- get_self ;;
                  if PyStr.contains "file already exists" strerror then
                    let '(root, ext) := NtPath.splitext file_name in
                    let unique_num := S unique_num in
                    let unique_identifier := "_" ++ PyStr.of_nat unique_num in
                    let new_file_name :=
                      PyStr.join EmptyString [root; unique_identifier; ext] in
                    let new_file_path :=
                      PyStr.join PyStr.backslash
                        [base_path self; sort_key; new_file_name] in
                    move_loop fuel' file_name sort_key current_file_path
                      new_file_path unique_num
                  else if PyStr.contains "cannot find the path" strerror then
                    let new_dir :=
                      PyStr.join PyStr.backslash [base_path self; sort_key] in
                    os_write (fun fs => mkdir fs new_dir) ;;
                    move_loop fuel' file_name sort_key current_file_path
                      new_file_path unique_num
                  else
                    print ("There was an error: " ++ exn_text error) ;;
                    modify_self (append FailedToMove file_name))
           | _ => None
           end)
        (fun _ =>
           modify_self
             (append SuccessfullyMoved
                (moved_entry current_file_path new_file_path)))
  end.

Definition move_file (fuel : nat) (file_name : string) : Py (St FS t) unit :=
  self <- get_self ;;
  move_loop fuel file_name (sort_key file_name)
    (current_file_path self file_name) (new_file_path self file_name) 0.

Definition get_files := @FileSorter.get_files FS os.
Definition process_file := FileSorter.process_file accepted_extensions move_file.
Definition process_files := FileSorter.process_files accepted_extensions move_file.
Definition init := FileSorter.init accepted_extensions move_file.

End Methods.

End PictureSorter.

(** ** Outcomes

    An outcome is a list together with the entry appended to it.  The
    predicates say when an entry is the record of a given file. *)

Module Outcome.

Definition collect {B : Type} (eqb : B -> B -> bool) (b : B)
    (outs : list (B * string)) : list string :=
  map snd (filter (fun o => eqb (fst o) b) outs).

Definition renamer_records (file_name : string) (o : FileRenamer.bucket * string)
  : Prop :=
  match fst o with
  | FileRenamer.SuccessfullyRenamed =>
      exists new_file_name,
        snd o = PictureRenamer.renamed_entry file_name new_file_name
  | FileRenamer.SkippedNewNameMatchesOld => snd o = file_name
  | FileRenamer.FailedToRename =>
      exists why, snd o = "Failed to rename " ++ file_name ++ why
  | FileRenamer.SkippedDifferentExtension => snd o = file_name
  end.

Definition sorter_records (input_path file_name : string)
    (o : FileSorter.bucket * string) : Prop :=
  match fst o with
  | FileSorter.SuccessfullyMoved =>
      exists new_file_path,
        snd o =
          PictureSorter.moved_entry
            (PyStr.join PyStr.backslash [input_path; file_name]) new_file_path
  | FileSorter.FailedToMove => snd o = file_name
  | FileSorter.SkippedDifferentExtension => snd o = file_name
  end.

Definition renamer_appends (outs : list (FileRenamer.bucket * string))
    (self : FileRenamer.t) : FileRenamer.t :=
  fold_left (fun acc o => FileRenamer.append (fst o) (snd o) acc) outs self.

Definition sorter_appends (outs : list (FileSorter.bucket * string))
    (self : FileSorter.t) : FileSorter.t :=
  fold_left (fun acc o => FileSorter.append (fst o) (snd o) acc) outs self.

End Outcome.

(** ** A reference host

    A small Windows-like file system and a UTC clock, used to run the
    program on concrete directories.  Directories are a list of paths; a
    file has a directory, a name, its two timestamps, an optional capture
    tag and a flag telling that another process holds it open, in which
    case it can be read but not renamed.  Paths are compared as written.
    The theorems below hold for every host; this one supplies examples. *)

Module Sim.

Record file : Type := {
  dir : string;
  name : string;
  ctime : float;
  mtime : float;
  exif : option string;
  in_use : bool
}.

Record fs : Type := {
  dirs : list string;
  entries : list file;
  cwd : string
}.

Definition full_path (f : file) : string :=
  dir f ++ PyStr.backslash ++ name f.

Definition find (d : fs) (p : string) : option file :=
  List.find (fun f => String.eqb (full_path f) p) (entries d).

(** Splits a path at its last backslash. *)
Fixpoint split_last (p : string) : option (string * string) :=
  match p with
  | EmptyString => None
  | String c p' =>
      match split_last p' with
      | Some (d, n) => Some (String c d, n)
      | None =>
          if Ascii.eqb c "092"%char then Some (EmptyString, p') else None
      end
  end.

(** A path as [str(OSError)] shows it: [repr] of the string, between
    quotes and with every backslash doubled. *)
Fixpoint escaped (p : string) : string :=
  match p with
  | EmptyString => EmptyString
  | String c p' =>
      if Ascii.eqb c "092"%char then String c (String c (escaped p'))
      else String c (escaped p')
  end.

Definition quoted (p : string) : string :=
  PyStr.squote ++ escaped p ++ PyStr.squote.

Definition win_error (code strerror : string) (where_ : string) : exn :=
  WindowsError strerror
    ("[WinError " ++ code ++ "] " ++ strerror ++ ": " ++ where_).

Definition file_not_found : string -> exn :=
  win_error "2" "The system cannot find the file specified".
Definition path_not_found : string -> exn :=
  win_error "3" "The system cannot find the path specified".
Definition sharing_violation : string -> exn :=
  win_error "32"
    "The process cannot access the file because it is being used by another process".
Definition already_exists : string -> exn :=
  win_error "183" "Cannot create a file when that file already exists".

Definition sim_listdir (d : fs) (p : string) : exn + list string :=
  if PyStr.mem p (dirs d) then
    inr (map name (filter (fun f => String.eqb (dir f) p) (entries d)))
  else inl (path_not_found (quoted p)).

Definition sim_stat {A} (field : file -> A) (d : fs) (p : string) : exn + A :=
  match find d p with
  | Some f => inr (field f)
  | None => inl (file_not_found (quoted p))
  end.

Definition move_entry (src : string) (d n : string) (f : file) : file :=
  if String.eqb (full_path f) src then
    {| dir := d; name := n; ctime := ctime f; mtime := mtime f;
       exif := exif f; in_use := in_use f |}
  else f.

Definition sim_rename (d : fs) (src dst : string) : exn + fs :=
  let where_ := quoted src ++ " -> " ++ quoted dst in
  match find d src with
  | None => inl (file_not_found where_)
  | Some f =>
      if in_use f then inl (sharing_violation where_)
      else
        match split_last dst with
        | None => inl (path_not_found where_)
        | Some (dd, dn) =>
            if negb (PyStr.mem dd (dirs d)) then inl (path_not_found where_)
            else
              match find d dst with
              | Some _ => inl (already_exists where_)
              | None =>
                  inr {| dirs := dirs d;
                         entries := map (move_entry src dd dn) (entries d);
                         cwd := cwd d |}
              end
        end
  end.

Definition sim_mkdir (d : fs) (p : string) : exn + fs :=
  if PyStr.mem p (dirs d) then inl (already_exists (quoted p))
  else inr {| dirs := dirs d ++ [p]; entries := entries d; cwd := cwd d |}.

(** [ntpath.join] of two paths, drive letters included, UNC shares not. *)
Definition splitdrive (p : string) : string * string :=
  match p with
  | String c (String ":" rest) => (String c (String ":" EmptyString), rest)
  | _ => (EmptyString, p)
  end.

Fixpoint last_char (p : string) : option ascii :=
  match p with
  | EmptyString => None
  | String c EmptyString => Some c
  | String _ p' => last_char p'
  end.

Definition starts_with_sep (p : string) : bool :=
  match p with
  | String c _ => NtPath.is_sep c
  | EmptyString => false
  end.

Definition ends_with_sep (p : string) : bool :=
  match last_char p with
  | Some c => NtPath.is_sep c
  | None => false
  end.

Definition is_empty (p : string) : bool :=
  match p with
  | EmptyString => true
  | _ => false
  end.

Definition relative_to (result_path p_path : string) : string :=
  (if negb (is_empty result_path) && negb (ends_with_sep result_path)
   then result_path ++ PyStr.backslash else result_path) ++ p_path.

Definition sim_join (path p : string) : string :=
  let '(result_drive, result_path) := splitdrive path in
  let '(p_drive, p_path) := splitdrive p in
  if starts_with_sep p_path then
    (if negb (is_empty p_drive) || is_empty result_drive
     then p_drive else result_drive) ++ p_path
  else if negb (is_empty p_drive) && negb (String.eqb p_drive result_drive) then
    if negb (String.eqb (PyStr.lower p_drive) (PyStr.lower result_drive))
    then p_drive ++ p_path
    else p_drive ++ relative_to result_path p_path
  else result_drive ++ relative_to result_path p_path.

(** The clock: whole seconds since 1970 shown in UTC. *)
Definition whole_seconds (t : float) : exn + Z :=
  match Prim2SF t with
  | S754_zero _ => inr 0%Z
  | S754_nan => inl (ValueError "cannot convert float NaN to integer")
  | S754_infinity _ =>
      inl (OverflowError "cannot convert float infinity to integer")
  | S754_finite true _ _ => inl (WindowsError "Invalid argument" "[Errno 22] Invalid argument")
  | S754_finite false m e =>
      let v := if (0 <=? e)%Z then (Zpos m * 2 ^ e)%Z
               else (Zpos m / 2 ^ (- e))%Z in
      if (v <=? 253402300799)%Z then inr v
      else inl (ValueError "year is out of range")
  end.

Record civil : Type := {
  year : Z; month : Z; day : Z; hour : Z; minute : Z; second : Z
}.

Definition civil_of_seconds (s : Z) : civil :=
  let days := (s / 86400)%Z in
  let rem := (s mod 86400)%Z in
  let z := (days + 719468)%Z in
  let era := (z / 146097)%Z in
  let doe := (z - era * 146097)%Z in
  let yoe := ((doe - doe / 1460 + doe / 36524 - doe / 146096) / 365)%Z in
  let doy := (doe - (365 * yoe + yoe / 4 - yoe / 100))%Z in
  let mp := ((5 * doy + 2) / 153)%Z in
  let d := (doy - (153 * mp + 2) / 5 + 1)%Z in
  let m := if (mp <? 10)%Z then (mp + 3)%Z else (mp - 9)%Z in
  let y := (yoe + era * 400 + (if (m <=? 2)%Z then 1 else 0))%Z in
  {| year := y; month := m; day := d;
     hour := (rem / 3600)%Z; minute := (rem mod 3600 / 60)%Z;
     second := (rem mod 60)%Z |}.

Definition digits (width : nat) (n : Z) : string :=
  let s := PyStr.of_nat (Z.to_nat n) in
  String.concat EmptyString (repeat "0" (width - String.length s)) ++ s.

Fixpoint render (c : civil) (fmt : string) : exn + string :=
  match fmt with
  | EmptyString => inr EmptyString
  | String "%" (String k rest) =>
      let field :=
        if Ascii.eqb k "Y" then Some (digits 4 (year c))
        else if Ascii.eqb k "m" then Some (digits 2 (month c))
        else if Ascii.eqb k "d" then Some (digits 2 (day c))
        else if Ascii.eqb k "H" then Some (digits 2 (hour c))
        else if Ascii.eqb k "M" then Some (digits 2 (minute c))
        else if Ascii.eqb k "S" then Some (digits 2 (second c))
        else if Ascii.eqb k "%" then Some "%"
        else None in
      match field, render c rest with
      | Some f, inr r => inr (f ++ r)
      | Some _, inl e => inl e
      | None, _ => inl (ValueError "Invalid format string")
      end
  | String "%" EmptyString => inl (ValueError "Invalid format string")
  | String ch rest =>
      match render c rest with
      | inr r => inr (String ch r)
      | inl e => inl e
      end
  end.

Definition sim_strftime (t : float) (fmt : string) : exn + string :=
  match whole_seconds t with
  | inr s => render (civil_of_seconds s) fmt
  | inl e => inl e
  end.

#[global] Instance host : OS fs := {
  listdir := sim_listdir;
  getctime := sim_stat ctime;
  getmtime := sim_stat mtime;
  exif_date_time_original := sim_stat exif;
  rename := sim_rename;
  mkdir := sim_mkdir;
  getcwd := cwd;
  path_join := sim_join;
  strftime := sim_strftime
}.

Definition world (d : fs) (stdin : list string) : World fs :=
  Build_World d stdin [].

End Sim.

(** ** Sample directories for the reference host *)

Module Demo.

Definition plain (d n : string) (c m : float) (tag : option string) : Sim.file :=
  {| Sim.dir := d; Sim.name := n; Sim.ctime := c; Sim.mtime := m;
     Sim.exif := tag; Sim.in_use := false |}.

Definition held (d n : string) (c m : float) (tag : option string) : Sim.file :=
  {| Sim.dir := d; Sim.name := n; Sim.ctime := c; Sim.mtime := m;
     Sim.exif := tag; Sim.in_use := true |}.

Definition pics_dir : string := "C:\pics".
Definition sorted_dir : string := "C:\sorted".

(** A photo taken on 2021-05-01 10:00:00 and copied to disk later, next to
    a text file. *)
Definition photo1 : Sim.file :=
  plain pics_dir "photo1.jpg" 1620000000%float 1620000100%float
    (Some "2021:05:01 10:00:00").

Definition notes : Sim.file :=
  plain pics_dir "notes.txt" 1620000000%float 1620000000%float None.

Definition pics : Sim.fs :=
  {| Sim.dirs := [pics_dir; sorted_dir];
     Sim.entries := [photo1; notes];
     Sim.cwd := pics_dir |}.

Definition photo1_path : string := "C:\pics\photo1.jpg".

Definition photo1_self : DateName.t :=
  {| DateName.file_name := photo1_path;
     DateName.date_format := PictureRenamer.date_format;
     DateName.new_name := None |}.

(** A file whose two timestamps are the epoch and which has no tag. *)
Definition old : Sim.file := plain pics_dir "old.jpg" 0%float 0%float None.

Definition epoch : Sim.fs :=
  {| Sim.dirs := [pics_dir]; Sim.entries := [old]; Sim.cwd := pics_dir |}.

(** A file the renamer has named, and the yearly folder it belongs to. *)
Definition dated : Sim.file :=
  plain pics_dir "20230115_103000.jpg" 1673778600%float 1673778600%float None.

Definition sortable : Sim.fs :=
  {| Sim.dirs := [pics_dir; sorted_dir; "C:\sorted\2023"];
     Sim.entries := [dated];
     Sim.cwd := pics_dir |}.

(** The first directory once [photo1.jpg] bears its date. *)
Definition photo1_renamed : Sim.file :=
  plain pics_dir "20210501_100000.jpg" 1620000000%float 1620000100%float
    (Some "2021:05:01 10:00:00").

Definition pics_renamed : Sim.fs :=
  {| Sim.dirs := [pics_dir; sorted_dir];
     Sim.entries := [photo1_renamed; notes];
     Sim.cwd := pics_dir |}.

(** Two photos taken in the same second; the second one already bears the
    suffixed name. *)
Definition twin : Sim.file :=
  plain pics_dir "20210501_100000_1.jpg" 1620000200%float 1620000200%float
    (Some "2021:05:01 10:00:00").

Definition twins : Sim.fs :=
  {| Sim.dirs := [pics_dir];
     Sim.entries := [photo1_renamed; twin];
     Sim.cwd := pics_dir |}.

(** A photo another process holds open: it can be read, not renamed. *)
Definition img : Sim.file :=
  held pics_dir "IMG.jpg" 1620000000%float 1620000100%float
    (Some "2021:05:01 10:00:00").

Definition busy : Sim.fs :=
  {| Sim.dirs := [pics_dir; sorted_dir];
     Sim.entries := [img; notes];
     Sim.cwd := pics_dir |}.

Definition img_path : string := "C:\pics\IMG.jpg".
Definition img_new_name : string := "C:\pics\20210501_100000".

(** The renamed photo next to a yearly folder that already holds a file of
    the same name. *)
Definition taken : Sim.fs :=
  {| Sim.dirs := [pics_dir; sorted_dir; "C:\sorted\2021"];
     Sim.entries :=
       [photo1_renamed;
        plain "C:\sorted\2021" "20210501_100000.jpg"
          1619863200%float 1619863200%float None];
     Sim.cwd := pics_dir |}.

(** A copy of the renamed photo under another name. *)
Definition copy : Sim.file :=
  plain pics_dir "copy.jpg" 1620000300%float 1620000300%float
    (Some "2021:05:01 10:00:00").

Definition clash : Sim.fs :=
  {| Sim.dirs := [pics_dir];
     Sim.entries := [photo1_renamed; copy];
     Sim.cwd := pics_dir |}.

Definition renamer_of (d : Sim.fs) : FileRenamer.t :=
  FileRenamer.set_files (map Sim.name (Sim.entries d))
    (FileRenamer.fresh d (Some pics_dir)).

Definition sorter_of (d : Sim.fs) : FileSorter.t :=
  FileSorter.set_files (map Sim.name (Sim.entries d))
    (FileSorter.fresh pics_dir sorted_dir).

End Demo.

(** ** A host that refuses

    A host with a fixed listing on which [rename] and [mkdir] raise given
    exceptions, to run the program past errors the reference host never
    raises. *)

Module Stub.

Definition host (names : list string) (on_rename on_mkdir : exn) : OS unit :=
  {| listdir := fun _ _ => inr names;
     getctime := fun _ _ => inr 1620000000%float;
     getmtime := fun _ _ => inr 1620000100%float;
     exif_date_time_original := fun _ _ => inr (Some "2021:05:01 10:00:00");
     rename := fun _ _ _ => inl on_rename;
     mkdir := fun _ _ => inl on_mkdir;
     getcwd := fun _ => "C:\pics";
     path_join := Sim.sim_join;
     strftime := Sim.sim_strftime |}.

(** The same host with a directory that cannot be listed. *)
Definition unlistable (on_listdir : exn) : OS unit :=
  {| listdir := fun _ _ => inl on_listdir;
     getctime := fun _ _ => inr 1620000000%float;
     getmtime := fun _ _ => inr 1620000100%float;
     exif_date_time_original := fun _ _ => inr (Some "2021:05:01 10:00:00");
     rename := fun _ _ _ => inl on_listdir;
     mkdir := fun _ _ => inl on_listdir;
     getcwd := fun _ => "C:\pics";
     path_join := Sim.sim_join;
     strftime := Sim.sim_strftime |}.

Definition world : World unit := Build_World tt [] [].

Definition renamer : FileRenamer.t :=
  {| FileRenamer.input_path := None;
     FileRenamer.original_path := "C:\pics";
     FileRenamer.path := "C:\pics";
     FileRenamer.files := ["a.jpg"; "b.jpg"];
     FileRenamer.successfully_renamed := [];
     FileRenamer.skipped_new_name_matches_old := [];
     FileRenamer.failed_to_rename := [];
     FileRenamer.skipped_different_extension := [] |}.

Definition sorter : FileSorter.t :=
  {| FileSorter.input_path := "C:\pics";
     FileSorter.base_path := "C:\sorted";
     FileSorter.files := ["a.jpg"; "b.jpg"];
     FileSorter.successfully_moved := [];
     FileSorter.failed_to_move := [];
     FileSorter.skipped_different_extension := [] |}.

Definition null_character : exn := ValueError "embedded null character".

Definition not_a_path : exn :=
  TypeError "rename: src should be string, bytes or os.PathLike, not NoneType".

Definition access_denied : exn :=
  WindowsError "Access is denied" "[WinError 5] Access is denied".

Definition no_such_path : exn :=
  WindowsError "The system cannot find the path specified"
    "[WinError 3] The system cannot find the path specified".

End Stub.

(** ** Notions the further properties are stated with *)

(** [c in s] for a character. *)
Definition has_char (c : ascii) (s : string) : bool :=
  existsb (Ascii.eqb c) (list_ascii_of_string s).

(** A run of characters free of colons and of white space, as the digit
    groups of a capture tag are. *)
Definition tag_field (s : string) : bool :=
  forallb (fun c => negb (Ascii.eqb c ":") && negb (PyStr.is_space c))
    (list_ascii_of_string s).

(** The destination [move_file] tries after [unique_num] collisions. *)
Definition move_candidate (self : FileSorter.t) (file_name : string)
    (unique_num : nat) : string :=
  match unique_num with
  | O => PictureSorter.new_file_path self file_name
  | S _ =>
      let '(root, ext) := NtPath.splitext file_name in
      let unique_identifier := "_" ++ PyStr.of_nat unique_num in
      let new_file_name :=
        PyStr.join EmptyString [root; unique_identifier; ext] in
      PyStr.join PyStr.backslash
        [FileSorter.base_path self; PictureSorter.sort_key file_name;
         new_file_name]
  end.

(** The directory [move_file] creates when the destination's is missing. *)
Definition new_dir (self : FileSorter.t) (file_name : string) : string :=
  PyStr.join PyStr.backslash
    [FileSorter.base_path self; PictureSorter.sort_key file_name].

(** The exception classes [rename_file] has no clause for. *)
Definition uncaught_by_renamer (e : exn) : bool :=
  match e with
  | WindowsError _ _ | TypeError _ => false
  | _ => true
  end.

(** The exception classes [move_file] and [get_files] have no clause for. *)
Definition not_windows_error (e : exn) : bool :=
  match e with
  | WindowsError _ _ => false
  | _ => true
  end.

(** * Properties *)

(** ** The order on strings *)

Section StringOrder.

Lemma ascii_compare_refl (a : ascii) : Ascii.compare a a = Eq.
Proof. unfold Ascii.compare. apply N.compare_refl. Qed.

Lemma ascii_compare_lt_trans (a b c : ascii) :
  Ascii.compare a b = Lt -> Ascii.compare b c = Lt -> Ascii.compare a c = Lt.
Proof.
  unfold Ascii.compare. rewrite !N.compare_lt_iff. apply N.lt_trans.
Qed.

Lemma compare_lt_trans (a b c : string) :
  String.compare a b = Lt -> String.compare b c = Lt -> String.compare a c = Lt.
Proof.
  revert b c.
  induction a as [|x a IH]; intros [|y b] [|z c]; simpl;
    try discriminate; auto.
  destruct (Ascii.compare x y) eqn:Hxy; try discriminate;
    destruct (Ascii.compare y z) eqn:Hyz; try discriminate; intros Hab Hbc.
  - apply Ascii.compare_eq_iff in Hxy, Hyz. subst.
    rewrite ascii_compare_refl. eauto.
  - apply Ascii.compare_eq_iff in Hxy. subst. now rewrite Hyz.
  - apply Ascii.compare_eq_iff in Hyz. subst. now rewrite Hxy.
  - now rewrite (ascii_compare_lt_trans _ _ _ Hxy Hyz).
Qed.

Lemma leb_refl (a : string) : String.leb a a = true.
Proof.
  unfold String.leb.
  replace (String.compare a a) with Eq; [reflexivity|].
  induction a as [|x a IH]; simpl; [reflexivity|].
  now rewrite ascii_compare_refl.
Qed.

Lemma leb_trans (a b c : string) :
  String.leb a b = true -> String.leb b c = true -> String.leb a c = true.
Proof.
  unfold String.leb.
  destruct (String.compare a b) eqn:Hab; try discriminate;
    destruct (String.compare b c) eqn:Hbc; try discriminate; intros _ _.
  - apply String.compare_eq_iff in Hab. subst. now rewrite Hbc.
  - apply String.compare_eq_iff in Hab. subst. now rewrite Hbc.
  - apply String.compare_eq_iff in Hbc. subst. now rewrite Hab.
  - now rewrite (compare_lt_trans _ _ _ Hab Hbc).
Qed.

Lemma ltb_leb (a b : string) : String.ltb a b = true -> String.leb a b = true.
Proof.
  unfold String.ltb, String.leb. now destruct (String.compare a b).
Qed.

Lemma not_ltb_leb (a b : string) :
  String.ltb a b = false -> String.leb b a = true.
Proof.
  unfold String.ltb, String.leb. rewrite (String.compare_antisym b a).
  now destruct (String.compare a b).
Qed.

End StringOrder.

(** ** [min] *)

Lemma min_from_spec (rest : list string) : forall first,
  In (PyStr.min_from first rest) (first :: rest) /\
  forall x, In x (first :: rest) ->
            String.leb (PyStr.min_from first rest) x = true.
Proof.
  unfold PyStr.min_from.
  induction rest as [|y rest IH]; intros first; simpl.
  - split; [now left|]. intros x [<-|[]]. apply leb_refl.
  - destruct (IH (if String.ltb y first then y else first)) as [Hin Hle].
    split.
    + destruct Hin as [Hin|Hin]; [|now right; right].
      rewrite <- Hin. destruct (String.ltb y first); [right|]; now left.
    + intros x Hx.
      assert (Hb : String.leb
                (fold_left (fun best x0 => if String.ltb x0 best then x0 else best)
                   rest (if String.ltb y first then y else first))
                (if String.ltb y first then y else first) = true)
        by (apply Hle; now left).
      destruct Hx as [<-|[<-|Hx]].
      * eapply leb_trans; [exact Hb|].
        destruct (String.ltb y first) eqn:E; [now apply ltb_leb|apply leb_refl].
      * eapply leb_trans; [exact Hb|].
        destruct (String.ltb y first) eqn:E; [apply leb_refl|now apply not_ltb_leb].
      * apply Hle. now right.
Qed.

Lemma in_not_none (d : string) (date_times : list (option string)) :
  In d (DateName.not_none date_times) <-> In (Some d) date_times.
Proof.
  induction date_times as [|[e|] l IH]; simpl.
  - tauto.
  - rewrite IH. split; intros [H|H]; auto; left; congruence.
  - rewrite IH. split; [auto|]. intros [H|H]; [discriminate|auto].
Qed.

Lemma oldest_spec (date_times : list (option string)) :
  (DateName.oldest date_times = None <-> forall d, ~ In (Some d) date_times) /\
  (forall n, DateName.oldest date_times = Some n ->
     In (Some n) date_times /\
     forall d, In (Some d) date_times -> String.leb n d = true).
Proof.
  unfold DateName.oldest, PyStr.min.
  destruct (DateName.not_none date_times) as [|x rest] eqn:E.
  - split.
    + split; [|reflexivity]. intros _ d Hd.
      apply in_not_none in Hd. rewrite E in Hd. contradiction.
    + discriminate.
  - destruct (min_from_spec rest x) as [Hin Hle]. split.
    + split; [discriminate|]. intros H. exfalso.
      apply (H x). apply in_not_none. rewrite E. now left.
    + intros n [= <-]. split.
      * apply in_not_none. now rewrite E.
      * intros d Hd. apply Hle. rewrite <- E. now apply in_not_none.
Qed.

(** ** The program on the sample directories *)

(** A directory with [photo1.jpg], taken on 2021-05-01 at 10:00:00, and
    [notes.txt]: the photo is renamed after its capture time and the text
    file is skipped for its extension. *)
Example renamer_on_pics :
  match PictureRenamer.init 1 (Some Demo.pics_dir) (Sim.world Demo.pics []) with
  | Returned _ (w', self) =>
      w_fs w' = Demo.pics_renamed /\
      FileRenamer.successfully_renamed self =
        [PictureRenamer.renamed_entry "C:\pics\photo1.jpg"
           "C:\pics\20210501_100000.jpg"] /\
      FileRenamer.skipped_different_extension self = ["C:\pics\notes.txt"] /\
      FileRenamer.failed_to_rename self = [] /\
      FileRenamer.skipped_new_name_matches_old self = []
  | _ => False
  end.
Proof. vm_compute. repeat split. Qed.

(** The destination already holds a file of that name: the move succeeds
    under the name suffixed with [_1]. *)
Example sorter_on_taken :
  match PictureSorter.init 2 Demo.pics_dir Demo.sorted_dir
          (Sim.world Demo.taken []) with
  | Returned _ (w', self) =>
      FileSorter.successfully_moved self =
        [PictureSorter.moved_entry "C:\pics\20210501_100000.jpg"
           "C:\sorted\2021\20210501_100000_1.jpg"] /\
      FileSorter.failed_to_move self = [] /\
      FileSorter.skipped_different_extension self = []
  | _ => False
  end.
Proof. vm_compute. repeat split. Qed.

(** The yearly folder is missing: the sorter creates it and moves the file
    at the second attempt. *)
Example sorter_creates_folder :
  match PictureSorter.init 2 Demo.pics_dir Demo.sorted_dir
          (Sim.world Demo.pics_renamed []) with
  | Returned _ (w', self) =>
      Sim.dirs (w_fs w') = [Demo.pics_dir; Demo.sorted_dir; "C:\sorted\2021"] /\
      FileSorter.successfully_moved self =
        [PictureSorter.moved_entry "C:\pics\20210501_100000.jpg"
           "C:\sorted\2021\20210501_100000.jpg"] /\
      FileSorter.skipped_different_extension self = ["notes.txt"]
  | _ => False
  end.
Proof. vm_compute. repeat split. Qed.

(** ** Name derivation *)

(** C1. Given the three optional date strings the getters return, in the
    order creation, capture, modification, [DateName] sets [new_name] to a
    value that is a function of them alone, namely [DateName.oldest]; that
    value is [None] exactly when all three are [None], and otherwise it is
    one of the three and no later, in the order on strings, than any of
    them. *)
Theorem determine_name_oldest {FS : Type} {os : OS FS} {O : Type}
    (file_name date_format : string) (s : St FS O)
    (creation capture modification : option string) :
  let self :=
    {| DateName.file_name := file_name;
       DateName.date_format := date_format;
       DateName.new_name := None |} in
  DateName.get_date_created self s = Returned creation s ->
  DateName.get_date_taken self s = Returned capture s ->
  DateName.get_date_modified self s = Returned modification s ->
  let result := DateName.oldest [creation; capture; modification] in
  let named := DateName.set_new_name result self in
  DateName.init file_name date_format s = Returned named s /\
  DateName.new_name named = result /\
  DateName.file_name named = file_name /\
  DateName.date_format named = date_format /\
  (result = None <->
     creation = None /\ capture = None /\ modification = None) /\
  (forall n, result = Some n ->
     (creation = Some n \/ capture = Some n \/ modification = Some n) /\
     (forall d, creation = Some d \/ capture = Some d \/ modification = Some d ->
                String.leb n d = true)).
Proof.
  intros self Hc Ht Hm result named.
  destruct (oldest_spec [creation; capture; modification]) as [Hnone Hsome].
  fold result in Hnone, Hsome.
  split; [|split; [reflexivity|split; [reflexivity|split; [reflexivity|split]]]].
  - unfold DateName.init, DateName.determine_name, bind.
    fold self. rewrite Hc, Ht, Hm. fold result. subst named.
    destruct result; reflexivity.
  - rewrite Hnone. split.
    + intros H.
      destruct creation as [c|]; [exfalso; apply (H c); simpl; auto|].
      destruct capture as [c|]; [exfalso; apply (H c); simpl; auto|].
      destruct modification as [c|]; [exfalso; apply (H c); simpl; auto|].
      auto.
    + intros (-> & -> & ->) d [H|[H|[H|[]]]]; discriminate.
  - intros n Hn. destruct (Hsome n Hn) as [Hin Hle]. split.
    + simpl in Hin. intuition auto.
    + intros d Hd. apply Hle. simpl. intuition auto.
Qed.

Lemma determine_name_oldest_witness :
  let s := (Sim.world Demo.pics [], tt) in
  DateName.get_date_created Demo.photo1_self s =
    Returned (Some "20210503_000000") s /\
  DateName.get_date_taken Demo.photo1_self s =
    Returned (Some "20210501_100000") s /\
  DateName.get_date_modified Demo.photo1_self s =
    Returned (Some "20210503_000140") s /\
  DateName.init Demo.photo1_path PictureRenamer.date_format s =
    Returned (DateName.set_new_name (Some "20210501_100000") Demo.photo1_self) s /\
  exists named,
    DateName.init Demo.photo1_path PictureRenamer.date_format s =
      Returned named s /\
    DateName.new_name named = Some "20210501_100000".
Proof.
  intros s.
  assert (Hc : DateName.get_date_created Demo.photo1_self s =
               Returned (Some "20210503_000000") s) by (vm_compute; reflexivity).
  assert (Ht : DateName.get_date_taken Demo.photo1_self s =
               Returned (Some "20210501_100000") s) by (vm_compute; reflexivity).
  assert (Hm : DateName.get_date_modified Demo.photo1_self s =
               Returned (Some "20210503_000140") s) by (vm_compute; reflexivity).
  split; [exact Hc|]. split; [exact Ht|]. split; [exact Hm|].
  destruct (determine_name_oldest Demo.photo1_path PictureRenamer.date_format
              s _ _ _ Hc Ht Hm) as (Hinit & Hnew & _).
  split; [exact Hinit|].
  eexists. split; [exact Hinit|exact Hnew].
Defined.

(** ** Reading and printing *)

Ltac run :=
  unfold bind, ret, get_self, modify_self, print, lift, os_read, os_write,
    try_except_else, printed, with_fs;
  cbn [fst snd w_fs w_stdin w_stdout].

Ltac step H := rewrite H; cbn [fst snd w_fs w_stdin w_stdout].

(** ** Zero timestamps *)

Lemma zero_is_falsy : truthy 0%float = false.
Proof. reflexivity. Qed.

(** C9. A creation (respectively modification) timestamp of exactly 0
    yields no creation (respectively modification) string; and an accepted
    file whose two timestamps are 0 and which carries no capture tag is
    recorded in [failed_to_rename] with the message that no new name could
    be determined, the file system being left as it was. *)
Theorem zero_timestamp_is_absent {FS : Type} {os : OS FS}
    (fuel : nat) (name : string) (w : World FS) (self : FileRenamer.t) :
  let file_name := path_join (FileRenamer.path self) name in
  let date_name :=
    {| DateName.file_name := file_name;
       DateName.date_format := PictureRenamer.date_format;
       DateName.new_name := None |} in
  (getctime (w_fs w) file_name = inr 0%float ->
   DateName.get_date_created date_name (w, self) = Returned None (w, self)) /\
  (getmtime (w_fs w) file_name = inr 0%float ->
   DateName.get_date_modified date_name (w, self) = Returned None (w, self)) /\
  (PyStr.mem (PyStr.lower (get_file_extension name)) MEDIA_EXTENSIONS = true ->
   getctime (w_fs w) file_name = inr 0%float ->
   getmtime (w_fs w) file_name = inr 0%float ->
   exif_date_time_original (w_fs w) file_name = inr None ->
   PictureRenamer.process_file fuel name (w, self) =
     Returned tt
       (printed w ("file_name " ++ name),
        FileRenamer.append FileRenamer.FailedToRename
          ("Failed to rename " ++ file_name ++
           " because no new name could be determined.") self)).
Proof.
  intros file_name date_name. split; [|split].
  - intros Hc. unfold DateName.get_date_created. run.
    subst date_name. cbn [DateName.file_name]. rewrite Hc.
    now rewrite zero_is_falsy.
  - intros Hm. unfold DateName.get_date_modified. run.
    subst date_name. cbn [DateName.file_name]. rewrite Hm.
    now rewrite zero_is_falsy.
  - intros Hext Hc Hm Htag.
    unfold PictureRenamer.process_file, FileRenamer.process_file,
      PictureRenamer.accepted_extensions.
    run. rewrite Hext. cbn [negb].
    unfold PictureRenamer.get_new_name, DateName.init, DateName.determine_name,
      DateName.get_date_created, DateName.get_date_taken,
      DateName.get_date_modified.
    run. cbn [DateName.file_name]. fold file_name.
    step Hc. step zero_is_falsy. step Htag. step Hm. step zero_is_falsy.
    reflexivity.
Qed.

Lemma zero_timestamp_is_absent_witness :
  let w := Sim.world Demo.epoch [] in
  let self := Demo.renamer_of Demo.epoch in
  let file_name := "C:\pics\old.jpg" in
  PyStr.mem (PyStr.lower (get_file_extension "old.jpg")) MEDIA_EXTENSIONS = true /\
  getctime (w_fs w) file_name = inr 0%float /\
  getmtime (w_fs w) file_name = inr 0%float /\
  exif_date_time_original (w_fs w) file_name = inr None /\
  PictureRenamer.process_file 1 "old.jpg" (w, self) =
    Returned tt
      (printed w "file_name old.jpg",
       FileRenamer.append FileRenamer.FailedToRename
         "Failed to rename C:\pics\old.jpg because no new name could be determined."
         self).
Proof.
  intros w self file_name.
  repeat (split; [reflexivity|]).
  exact (proj2 (proj2 (zero_timestamp_is_absent 1 "old.jpg" w self))
           eq_refl eq_refl eq_refl eq_refl).
Defined.

(** ** The extension filter *)

(** C4. A listed name whose extension, lowered, is not among
    [MEDIA_EXTENSIONS] is appended to [skipped_different_extension] by the
    renamer (as a full path) and by the sorter (as listed); the file system
    is the one before, no other list changes, and the one effect besides is
    the progress line printed. *)
Theorem other_extension_is_skipped {FS : Type} {os : OS FS}
    (fuel : nat) (name : string) (w : World FS)
    (renamer : FileRenamer.t) (sorter : FileSorter.t) :
  PyStr.mem (PyStr.lower (get_file_extension name)) MEDIA_EXTENSIONS = false ->
  let renamer' :=
    FileRenamer.append FileRenamer.SkippedDifferentExtension
      (path_join (FileRenamer.path renamer) name) renamer in
  let sorter' :=
    FileSorter.append FileSorter.SkippedDifferentExtension name sorter in
  PictureRenamer.process_file fuel name (w, renamer) =
    Returned tt (printed w ("file_name " ++ name), renamer') /\
  PictureSorter.process_file fuel name (w, sorter) =
    Returned tt (printed w ("file_name " ++ name), sorter') /\
  w_fs (printed w ("file_name " ++ name)) = w_fs w /\
  FileRenamer.skipped_different_extension renamer' =
    (FileRenamer.skipped_different_extension renamer ++
     [path_join (FileRenamer.path renamer) name])%list /\
  FileRenamer.successfully_renamed renamer' =
    FileRenamer.successfully_renamed renamer /\
  FileRenamer.skipped_new_name_matches_old renamer' =
    FileRenamer.skipped_new_name_matches_old renamer /\
  FileRenamer.failed_to_rename renamer' = FileRenamer.failed_to_rename renamer /\
  FileSorter.skipped_different_extension sorter' =
    (FileSorter.skipped_different_extension sorter ++ [name])%list /\
  FileSorter.successfully_moved sorter' = FileSorter.successfully_moved sorter /\
  FileSorter.failed_to_move sorter' = FileSorter.failed_to_move sorter.
Proof.
  intros Hext renamer' sorter'. split; [|split; [|repeat split]].
  - unfold PictureRenamer.process_file, FileRenamer.process_file,
      PictureRenamer.accepted_extensions.
    run. now rewrite Hext.
  - unfold PictureSorter.process_file, FileSorter.process_file,
      PictureSorter.accepted_extensions.
    run. now rewrite Hext.
Qed.

Lemma other_extension_is_skipped_witness :
  let w := Sim.world Demo.pics [] in
  PyStr.mem (PyStr.lower (get_file_extension "notes.txt")) MEDIA_EXTENSIONS = false /\
  PictureRenamer.process_file 1 "notes.txt" (w, Demo.renamer_of Demo.pics) =
    Returned tt
      (printed w "file_name notes.txt",
       FileRenamer.append FileRenamer.SkippedDifferentExtension
         "C:\pics\notes.txt" (Demo.renamer_of Demo.pics)) /\
  PictureSorter.process_file 1 "notes.txt" (w, Demo.sorter_of Demo.pics) =
    Returned tt
      (printed w "file_name notes.txt",
       FileSorter.append FileSorter.SkippedDifferentExtension
         "notes.txt" (Demo.sorter_of Demo.pics)) /\
  (exists renamer',
     PictureRenamer.process_file 1 "notes.txt" (w, Demo.renamer_of Demo.pics) =
       Returned tt (printed w "file_name notes.txt", renamer') /\
     FileRenamer.skipped_different_extension renamer' = ["C:\pics\notes.txt"]) /\
  (exists sorter',
     PictureSorter.process_file 1 "notes.txt" (w, Demo.sorter_of Demo.pics) =
       Returned tt (printed w "file_name notes.txt", sorter') /\
     FileSorter.skipped_different_extension sorter' = ["notes.txt"]).
Proof.
  intros w.
  destruct (other_extension_is_skipped 1 "notes.txt" w
              (Demo.renamer_of Demo.pics) (Demo.sorter_of Demo.pics) eq_refl)
    as (Hr & Hs & _ & Hrl & _ & _ & _ & Hsl & _).
  split; [reflexivity|]. split; [exact Hr|]. split; [exact Hs|].
  split; eexists; (split; [eassumption|]); [exact Hrl|exact Hsl].
Defined.

(** ** Facts on strings and extensions *)

Lemma map_chars_length (f : ascii -> ascii) (s : string) :
  String.length (PyStr.map_chars f s) = String.length s.
Proof. induction s as [|c s IH]; simpl; congruence. Qed.

Lemma append_length (a b : string) :
  String.length (a ++ b) = String.length a + String.length b.
Proof. induction a as [|c a IH]; simpl; congruence. Qed.

Lemma ext_from_suffix (p : string) : forall seen e,
  NtPath.ext_from seen p = Some e -> exists r, p = r ++ e.
Proof.
  induction p as [|c p IH]; intros seen e; simpl; [discriminate|].
  destruct (NtPath.is_sep c).
  - intros H. destruct (IH _ _ H) as [r ->]. now exists (String c r).
  - destruct (NtPath.is_dot c).
    + destruct (NtPath.ext_from seen p) as [e'|] eqn:E.
      * intros [= <-]. destruct (IH _ _ E) as [r ->]. now exists (String c r).
      * destruct (seen && _); [|discriminate].
        intros [= <-]. now exists EmptyString.
    + intros H. destruct (IH _ _ H) as [r ->]. now exists (String c r).
Qed.

Lemma extension_length (file_name : string) :
  String.length (get_file_extension file_name) <= String.length file_name.
Proof.
  unfold get_file_extension, NtPath.splitext.
  destruct (NtPath.ext_from false file_name) as [e|] eqn:E; simpl; [|lia].
  destruct (ext_from_suffix _ _ _ E) as [r ->].
  rewrite append_length. lia.
Qed.

Lemma media_extension_length (e : string) :
  PyStr.mem e MEDIA_EXTENSIONS = true -> 4 <= String.length e.
Proof.
  unfold PyStr.mem, MEDIA_EXTENSIONS. simpl existsb.
  rewrite !orb_true_iff, !String.eqb_eq.
  intros H. repeat destruct H as [H|H]; subst; simpl; lia || discriminate.
Qed.

Lemma slice_to_prefix (n : nat) : forall s,
  n <= String.length s ->
  String.length (PyStr.slice_to n s) = n /\
  exists rest, s = PyStr.slice_to n s ++ rest.
Proof.
  unfold PyStr.slice_to.
  induction n as [|n IH]; intros s Hn.
  - destruct s; simpl; split; eauto.
  - destruct s as [|c s]; simpl in *; [lia|].
    destruct (IH s ltac:(lia)) as [Hl [rest Hr]].
    split; [lia|]. exists rest. now rewrite <- Hr.
Qed.

(** ** Where the sorter sends a file *)

(** C7. For a file of an accepted extension the sorter's subdirectory name
    consists of exactly the first four characters of the file's name; the
    destination it tries is the base path, that prefix and the file name
    joined by backslashes; when the host carries out that move the file is
    recorded as moved to that very path.  The name [20230115_103000.jpg]
    goes to [2023]. *)
Theorem sorter_destination {FS : Type} {os : OS FS}
    (fuel : nat) (file_name : string) (w : World FS) (self : FileSorter.t) :
  PyStr.mem (PyStr.lower (get_file_extension file_name)) MEDIA_EXTENSIONS = true ->
  let prefix := PictureSorter.sort_key file_name in
  let current :=
    FileSorter.input_path self ++ PyStr.backslash ++ file_name in
  let target :=
    FileSorter.base_path self ++ PyStr.backslash ++ prefix ++
    PyStr.backslash ++ file_name in
  String.length prefix = 4 /\
  (exists rest, file_name = prefix ++ rest) /\
  PictureSorter.new_file_path self file_name = target /\
  (forall fs', rename (w_fs w) current target = inr fs' ->
     PictureSorter.process_file (S fuel) file_name (w, self) =
       Returned tt
         (printed (with_fs (printed w ("file_name " ++ file_name)) fs')
            ("new path " ++ target),
          FileSorter.append FileSorter.SuccessfullyMoved
            (PictureSorter.moved_entry current target) self)) /\
  PictureSorter.sort_key "20230115_103000.jpg" = "2023".
Proof.
  intros Hext prefix current target.
  assert (Hlen : 4 <= String.length file_name).
  { apply media_extension_length in Hext.
    unfold PyStr.lower in Hext. rewrite map_chars_length in Hext.
    pose proof (extension_length file_name). lia. }
  destruct (slice_to_prefix 4 file_name Hlen) as [H4 Hrest].
  split; [exact H4|]. split; [exact Hrest|]. split; [reflexivity|].
  split; [|reflexivity].
  intros fs' Hmove.
  unfold PictureSorter.process_file, FileSorter.process_file,
    PictureSorter.accepted_extensions.
  run. rewrite Hext. cbn [negb].
  unfold PictureSorter.move_file. run. cbn [PictureSorter.move_loop]. run.
  change (PictureSorter.current_file_path self file_name) with current.
  change (PictureSorter.new_file_path self file_name) with target.
  step Hmove. reflexivity.
Qed.

Lemma sorter_destination_witness :
  let w := Sim.world Demo.sortable [] in
  let self := Demo.sorter_of Demo.sortable in
  PyStr.mem (PyStr.lower (get_file_extension "20230115_103000.jpg"))
    MEDIA_EXTENSIONS = true /\
  exists fs',
    rename (w_fs w) "C:\pics\20230115_103000.jpg"
      "C:\sorted\2023\20230115_103000.jpg" = inr fs' /\
    PictureSorter.process_file 1 "20230115_103000.jpg" (w, self) =
      Returned tt
        (printed (with_fs (printed w "file_name 20230115_103000.jpg") fs')
           "new path C:\sorted\2023\20230115_103000.jpg",
         FileSorter.append FileSorter.SuccessfullyMoved
           (PictureSorter.moved_entry "C:\pics\20230115_103000.jpg"
              "C:\sorted\2023\20230115_103000.jpg") self).
Proof.
  intros w self. split; [reflexivity|].
  eexists. split; [reflexivity|].
  refine (proj1 (proj2 (proj2 (proj2
    (sorter_destination 0 "20230115_103000.jpg" w self eq_refl)))) _ _).
  reflexivity.
Defined.

(** ** The renamer's loop *)

Section ReadsOnly.
Context {FS : Type} {os : OS FS} {O : Type}.

Lemma reads_only_ret {A} (a : A) : reads_only (FS := FS) (O := O) (ret a).
Proof. intros fs. now exists (inr a). Qed.

Lemma reads_only_lift {A} (r : exn + A) :
  reads_only (FS := FS) (O := O) (lift r).
Proof. intros fs. exists r. intros s _. unfold lift. now destruct r. Qed.

Lemma reads_only_os_read {A} (op : FS -> exn + A) :
  reads_only (FS := FS) (O := O) (os_read op).
Proof.
  intros fs. exists (op fs). intros s <-. unfold os_read.
  now destruct (op _).
Qed.

Lemma reads_only_bind {A B} (c : Py (St FS O) A) (k : A -> Py (St FS O) B) :
  reads_only (FS := FS) (O := O) c ->
  (forall a, reads_only (FS := FS) (O := O) (k a)) ->
  reads_only (FS := FS) (O := O) (bind c k).
Proof.
  intros Hc Hk fs. destruct (Hc fs) as [[e|a] Hr].
  - exists (inl e). intros s Hs. unfold bind. now rewrite (Hr s Hs).
  - destruct (Hk a fs) as [r' Hr']. exists r'. intros s Hs.
    unfold bind. rewrite (Hr s Hs). now apply Hr'.
Qed.

Lemma reads_only_get_date_created (self : DateName.t) :
  reads_only (FS := FS) (O := O) (DateName.get_date_created self).
Proof.
  apply reads_only_bind; [apply reads_only_os_read|]. intros t.
  destruct (truthy t); [|apply reads_only_ret].
  apply reads_only_bind; [apply reads_only_lift|].
  intros; apply reads_only_ret.
Qed.

Lemma reads_only_get_date_modified (self : DateName.t) :
  reads_only (FS := FS) (O := O) (DateName.get_date_modified self).
Proof.
  apply reads_only_bind; [apply reads_only_os_read|]. intros t.
  destruct (truthy t); [|apply reads_only_ret].
  apply reads_only_bind; [apply reads_only_lift|].
  intros; apply reads_only_ret.
Qed.

Lemma reads_only_get_date_taken (self : DateName.t) :
  reads_only (FS := FS) (O := O) (DateName.get_date_taken self).
Proof.
  apply reads_only_bind; [apply reads_only_os_read|].
  intros [t|]; apply reads_only_ret.
Qed.

Lemma reads_only_init (file_name date_format : string) :
  reads_only (FS := FS) (O := O) (DateName.init file_name date_format).
Proof.
  unfold DateName.init, DateName.determine_name.
  apply reads_only_bind; [apply reads_only_get_date_created|]. intros c.
  apply reads_only_bind; [apply reads_only_get_date_taken|]. intros t.
  apply reads_only_bind; [apply reads_only_get_date_modified|]. intros m.
  cbv zeta. destruct (DateName.oldest [c; t; m]); apply reads_only_ret.
Qed.

End ReadsOnly.

(** [get_new_name] answers the same in every world with the same file
    system, and leaves the world alone. *)
Lemma get_new_name_reads_only {FS : Type} {os : OS FS}
    (file_name : string) (r : option string) (s s' : St FS FileRenamer.t) :
  w_fs (fst s') = w_fs (fst s) ->
  PictureRenamer.get_new_name file_name s = Returned r s ->
  PictureRenamer.get_new_name file_name s' = Returned r s'.
Proof.
  intros Hfs H.
  assert (Hread : reads_only (FS := FS) (O := FileRenamer.t)
                    (PictureRenamer.get_new_name file_name)).
  { apply reads_only_bind; [apply reads_only_init|].
    intros; apply reads_only_ret. }
  destruct (Hread (w_fs (fst s))) as [a Ha].
  rewrite (Ha s eq_refl) in H. rewrite (Ha s' Hfs).
  destruct a; congruence.
Qed.

(** After [k] further collisions from attempt [j] on, none of whose
    candidates is the file's own name, the loop reaches candidate [j + k];
    when that one is the file's own name the file is skipped. *)
Lemma rename_loop_collisions {FS : Type} {os : OS FS}
    (file_name new_name ext : string) (w : World FS) (k : nat) :
  forall (j fuel : nat) (self : FileRenamer.t),
  (forall i, j <= i < j + k ->
     PictureRenamer.candidate new_name ext i <> file_name /\
     exists strerror text,
       rename (w_fs w) file_name (PictureRenamer.candidate new_name ext i) =
         inl (WindowsError strerror text)) ->
  PictureRenamer.candidate new_name ext (j + k) = file_name ->
  PictureRenamer.rename_loop (S k + fuel) file_name new_name ext
    (PictureRenamer.candidate new_name ext j) j (w, self) =
  Returned tt
    (w, FileRenamer.append FileRenamer.SkippedNewNameMatchesOld file_name self).
Proof.
  induction k as [|k IH]; intros j fuel self Hcoll Hsame.
  - rewrite Nat.add_0_r in Hsame. cbn [PictureRenamer.rename_loop Nat.add].
    rewrite Hsame, String.eqb_refl. reflexivity.
  - destruct (Hcoll j ltac:(lia)) as [Hne (strerror & text & Hren)].
    apply String.eqb_neq in Hne.
    change (S (S k) + fuel) with (S (S k + fuel)).
    cbn [PictureRenamer.rename_loop]. rewrite Hne. run. rewrite Hren.
    apply (IH (S j)).
    + intros i Hi. apply Hcoll. lia.
    + now rewrite <- Hsame, Nat.add_succ_r.
Qed.



(** C10. The comparison with the file's own name is made anew for every
    candidate: when the first [k] candidates collide and candidate [k], the
    derived name with [_k] before the extension, is the file's own name,
    the file is appended to [skipped_new_name_matches_old], nothing else is
    recorded and the world stays as it was. *)
Theorem suffixed_name_is_skipped {FS : Type} {os : OS FS}
    (k fuel : nat) (file_name new_name ext : string)
    (w : World FS) (self : FileRenamer.t) :
  (forall i, i < k ->
     PictureRenamer.candidate new_name ext i <> file_name /\
     exists strerror text,
       rename (w_fs w) file_name (PictureRenamer.candidate new_name ext i) =
         inl (WindowsError strerror text)) ->
  PictureRenamer.candidate new_name ext k = file_name ->
  let self' :=
    FileRenamer.append FileRenamer.SkippedNewNameMatchesOld file_name self in
  (0 < k ->
   PictureRenamer.candidate new_name ext k =
     new_name ++ "_" ++ PyStr.of_nat k ++ ext) /\
  PictureRenamer.rename_file (S k + fuel) file_name new_name ext (w, self) =
    Returned tt (w, self') /\
  FileRenamer.skipped_new_name_matches_old self' =
    (FileRenamer.skipped_new_name_matches_old self ++ [file_name])%list /\
  FileRenamer.successfully_renamed self' = FileRenamer.successfully_renamed self /\
  FileRenamer.failed_to_rename self' = FileRenamer.failed_to_rename self /\
  FileRenamer.skipped_different_extension self' =
    FileRenamer.skipped_different_extension self.
Proof.
  intros Hcoll Hsame self'. split; [|split; [|repeat split]].
  - destruct k; [lia|reflexivity].
  - unfold PictureRenamer.rename_file.
    apply (rename_loop_collisions file_name new_name ext w k 0 fuel self).
    + intros i Hi. apply Hcoll. lia.
    + exact Hsame.
Qed.

Lemma suffixed_name_is_skipped_witness :
  let w := Sim.world Demo.twins [] in
  let self := Demo.renamer_of Demo.twins in
  let file_name := "C:\pics\20210501_100000_1.jpg" in
  let new_name := "C:\pics\20210501_100000" in
  PictureRenamer.candidate new_name ".jpg" 0 <> file_name /\
  rename (w_fs w) file_name (PictureRenamer.candidate new_name ".jpg" 0) =
    inl (Sim.already_exists
           (Sim.quoted file_name ++ " -> " ++
            Sim.quoted "C:\pics\20210501_100000.jpg")) /\
  PictureRenamer.candidate new_name ".jpg" 1 = file_name /\
  PictureRenamer.rename_file 2 file_name new_name ".jpg" (w, self) =
    Returned tt
      (w, FileRenamer.append FileRenamer.SkippedNewNameMatchesOld file_name self) /\
  exists self',
    PictureRenamer.rename_file 2 file_name new_name ".jpg" (w, self) =
      Returned tt (w, self') /\
    FileRenamer.skipped_new_name_matches_old self' = [file_name] /\
    FileRenamer.successfully_renamed self' = [] /\
    FileRenamer.failed_to_rename self' = [].
Proof.
  intros w self file_name new_name.
  assert (Hne : PictureRenamer.candidate new_name ".jpg" 0 <> file_name)
    by (vm_compute; discriminate).
  split; [exact Hne|]. split; [reflexivity|]. split; [reflexivity|].
  assert (Hcoll : forall i, i < 1 ->
            PictureRenamer.candidate new_name ".jpg" i <> file_name /\
            exists strerror text,
              rename (w_fs w) file_name
                (PictureRenamer.candidate new_name ".jpg" i) =
                inl (WindowsError strerror text)).
  { intros i Hi. assert (i = 0) as -> by lia.
    split; [exact Hne|]. eexists; eexists; reflexivity. }
  destruct (suffixed_name_is_skipped 1 0 file_name new_name ".jpg" w self
              Hcoll eq_refl) as (_ & Hrun & Hskipped & Hrenamed & Hfailed & _).
  split; [exact Hrun|].
  eexists. split; [exact Hrun|].
  split; [exact Hskipped|]. split; [exact Hrenamed|exact Hfailed].
Defined.

(** ** The listing that fails *)

(** C5. When the first listing raises a [WindowsError], as it does for a
    path that is not found, the program prompts with the text
    [The path "<path>" was not found. Do you want to continue? (Y/N)].
    An answer that is [N] once upper-cased ends the run normally with every
    list empty; one that is [Y] once upper-cased makes the program ask for
    a new path, take the next line as the path and list again; any other
    answer makes it print the line about the incorrect value and end the
    run normally with every list empty.  The renamer and the sorter do the
    same, each with its own path. *)
Theorem listing_not_found_prompt {FS : Type} {os : OS FS}
    (fuel : nat) (w : World FS) (answer : string) (rest : list string)
    (input_path : option string) (sorter_path base_path : string)
    (strerror text strerror' text' : string) :
  let renamer := FileRenamer.fresh (w_fs w) input_path in
  let sorter := FileSorter.fresh sorter_path base_path in
  let prompt := fun p : string =>
    "The path " ++ PyStr.dquote ++ p ++ PyStr.dquote ++
    " was not found. Do you want to continue? (Y/N)" in
  let asked := fun (p : string) (more : list string) (stdin : list string) =>
    Build_World (w_fs w) stdin (w_stdout w ++ prompt p :: more) in
  listdir (w_fs w) (FileRenamer.path renamer) = inl (WindowsError strerror text) ->
  listdir (w_fs w) sorter_path = inl (WindowsError strerror' text') ->
  w_stdin w = answer :: rest ->
  (PyStr.upper answer = "N" ->
   PictureRenamer.init (S fuel) input_path w =
     Returned tt
       (asked (FileRenamer.path renamer) FileRenamer.empty_report rest, renamer) /\
   PictureSorter.init (S fuel) sorter_path base_path w =
     Returned tt (asked sorter_path FileSorter.empty_report rest, sorter)) /\
  (PyStr.upper answer = "Y" ->
   forall new_path rest', rest = new_path :: rest' ->
     PictureRenamer.get_files (S fuel) (w, renamer) =
       PictureRenamer.get_files fuel
         (asked (FileRenamer.path renamer) ["Please enter a new path:"] rest',
          FileRenamer.set_path new_path renamer) /\
     PictureSorter.get_files (S fuel) (w, sorter) =
       PictureSorter.get_files fuel
         (asked sorter_path ["Please enter a new path:"] rest',
          FileSorter.set_input_path new_path sorter)) /\
  (PyStr.upper answer <> "N" -> PyStr.upper answer <> "Y" ->
   PictureRenamer.init (S fuel) input_path w =
     Returned tt
       (asked (FileRenamer.path renamer)
          (FileRenamer.wrong_answer :: FileRenamer.empty_report) rest, renamer) /\
   PictureSorter.init (S fuel) sorter_path base_path w =
     Returned tt
       (asked sorter_path
          (FileRenamer.wrong_answer :: FileSorter.empty_report) rest, sorter)) /\
  (forall b, FileRenamer.get b renamer = []) /\
  (forall b, FileSorter.get b sorter = []).
Proof.
  intros renamer sorter prompt asked Hr Hs Hin.
  assert (Hgr :
    FileRenamer.get_files (S fuel) (w, renamer) =
      (if String.eqb (PyStr.upper answer) "N" then ret tt
       else if String.eqb (PyStr.upper answer) "Y" then
         bind (input "Please enter a new path:")
           (fun new_path =>
              bind (modify_self (FileRenamer.set_path new_path))
                (fun _ => FileRenamer.get_files fuel))
       else print FileRenamer.wrong_answer)
        (asked (FileRenamer.path renamer) [] rest, renamer)).
  { cbn [FileRenamer.get_files]. run. step Hr. unfold input.
    cbn [fst snd w_fs w_stdin w_stdout]. rewrite Hin. reflexivity. }
  assert (Hgs :
    FileSorter.get_files (S fuel) (w, sorter) =
      (if String.eqb (PyStr.upper answer) "N" then ret tt
       else if String.eqb (PyStr.upper answer) "Y" then
         bind (input "Please enter a new path:")
           (fun new_path =>
              bind (modify_self (FileSorter.set_input_path new_path))
                (fun _ => FileSorter.get_files fuel))
       else print FileRenamer.wrong_answer)
        (asked sorter_path [] rest, sorter)).
  { cbn [FileSorter.get_files]. run.
    change (FileSorter.input_path sorter) with sorter_path.
    step Hs. unfold input.
    cbn [fst snd w_fs w_stdin w_stdout]. rewrite Hin. reflexivity. }
  split; [|split; [|split; [|split]]].
  - intros HN. rewrite HN in Hgr, Hgs. cbn [String.eqb Ascii.eqb Bool.eqb] in Hgr, Hgs.
    split.
    + unfold PictureRenamer.init, FileRenamer.init.
      unfold bind at 1. fold renamer. rewrite Hgr.
      unfold asked, ret. run. unfold FileRenamer.print_report. run.
      change (FileRenamer.files renamer) with (@nil string).
      cbn [fst snd w_fs w_stdin w_stdout].
      rewrite <- !app_assoc. reflexivity.
    + unfold PictureSorter.init, FileSorter.init.
      unfold bind at 1. fold sorter. rewrite Hgs.
      unfold asked, ret. run. unfold FileSorter.print_report. run.
      change (FileSorter.files sorter) with (@nil string).
      cbn [fst snd w_fs w_stdin w_stdout].
      rewrite <- !app_assoc. reflexivity.
  - intros HY new_path rest' ->. rewrite HY in Hgr, Hgs.
    cbn [String.eqb Ascii.eqb Bool.eqb] in Hgr, Hgs.
    unfold PictureRenamer.get_files, PictureSorter.get_files.
    rewrite Hgr, Hgs. unfold asked, input. run.
    rewrite <- !app_assoc. split; reflexivity.
  - intros HN HY. apply String.eqb_neq in HN, HY. rewrite HN, HY in Hgr, Hgs.
    split.
    + unfold PictureRenamer.init, FileRenamer.init.
      unfold bind at 1. fold renamer. rewrite Hgr.
      unfold asked. run. unfold FileRenamer.print_report. run.
      change (FileRenamer.files renamer) with (@nil string).
      cbn [fst snd w_fs w_stdin w_stdout].
      rewrite <- !app_assoc. reflexivity.
    + unfold PictureSorter.init, FileSorter.init.
      unfold bind at 1. fold sorter. rewrite Hgs.
      unfold asked. run. unfold FileSorter.print_report. run.
      change (FileSorter.files sorter) with (@nil string).
      cbn [fst snd w_fs w_stdin w_stdout].
      rewrite <- !app_assoc. reflexivity.
  - now intros [].
  - now intros [].
Qed.

Lemma listing_not_found_prompt_witness :
  let w := Sim.world Demo.pics ["n"] in
  let nowhere := "C:\nowhere" in
  listdir (w_fs w) nowhere =
    inl (Sim.path_not_found (Sim.quoted nowhere)) /\
  PyStr.upper "n" = "N" /\
  PictureRenamer.init 1 (Some nowhere) w =
    Returned tt
      (Build_World Demo.pics []
         (("The path " ++ PyStr.dquote ++ nowhere ++ PyStr.dquote ++
           " was not found. Do you want to continue? (Y/N)")%string
          :: FileRenamer.empty_report),
       FileRenamer.fresh Demo.pics (Some nowhere)) /\
  PictureSorter.init 1 nowhere Demo.sorted_dir w =
    Returned tt
      (Build_World Demo.pics []
         (("The path " ++ PyStr.dquote ++ nowhere ++ PyStr.dquote ++
           " was not found. Do you want to continue? (Y/N)")%string
          :: FileSorter.empty_report),
       FileSorter.fresh nowhere Demo.sorted_dir).
Proof.
  intros w nowhere. split; [reflexivity|]. split; [reflexivity|].
  exact (proj1 (listing_not_found_prompt 0 w "n" [] (Some nowhere) nowhere
                  Demo.sorted_dir _ _ _ _ eq_refl eq_refl eq_refl) eq_refl).
Defined.

(** ** One entry for every listed file *)

Lemma reads_only_returns {FS : Type} {O A : Type} (c : Py (St FS O) A)
    (a : A) (s s' : St FS O) :
  reads_only c -> c s = Returned a s' -> s' = s.
Proof.
  intros Hc H. destruct (Hc (w_fs (fst s))) as [r Hr].
  rewrite (Hr s eq_refl) in H. destruct r; congruence.
Qed.

Lemma for_each_cons {S A : Type} (x : A) (xs : list A)
    (body : A -> Py S unit) (s s' : S) :
  for_each (x :: xs) body s = Returned tt s' ->
  exists s1, body x s = Returned tt s1 /\ for_each xs body s1 = Returned tt s'.
Proof.
  cbn [for_each]. unfold bind.
  destruct (body x s) as [[] s1| |]; try discriminate. eauto.
Qed.

Section RenamerOutcomes.
Context {FS : Type} {os : OS FS}.

Lemma renamer_get_append (b b' : FileRenamer.bucket) (e : string)
    (self : FileRenamer.t) :
  FileRenamer.get b (FileRenamer.append b' e self) =
  (FileRenamer.get b self ++
   Outcome.collect FileRenamer.bucket_eqb b [(b', e)])%list.
Proof.
  destruct b, b'; cbn; now rewrite ?app_nil_r.
Qed.

Lemma renamer_get_appends (b : FileRenamer.bucket)
    (outs : list (FileRenamer.bucket * string)) :
  forall self,
    FileRenamer.get b (Outcome.renamer_appends outs self) =
    (FileRenamer.get b self ++
     Outcome.collect FileRenamer.bucket_eqb b outs)%list.
Proof.
  unfold Outcome.renamer_appends.
  induction outs as [|[b' e] outs IH]; intros self; cbn [fold_left fst snd].
  - cbn. now rewrite app_nil_r.
  - rewrite IH, renamer_get_append, <- app_assoc. f_equal.
    unfold Outcome.collect. cbn [filter fst].
    destruct (FileRenamer.bucket_eqb b' b); reflexivity.
Qed.

Lemma renamer_appends_frame (outs : list (FileRenamer.bucket * string)) :
  forall self,
    FileRenamer.path (Outcome.renamer_appends outs self) = FileRenamer.path self /\
    FileRenamer.files (Outcome.renamer_appends outs self) = FileRenamer.files self.
Proof.
  unfold Outcome.renamer_appends.
  induction outs as [|o outs IH]; intros self; cbn [fold_left]; [auto|].
  destruct (IH (FileRenamer.append (fst o) (snd o) self)) as [-> ->]. auto.
Qed.

Lemma rename_loop_records (file_name new_name ext : string) (fuel : nat) :
  forall (new_file_name : string) (unique_num : nat)
         (s s' : St FS FileRenamer.t),
    PictureRenamer.rename_loop fuel file_name new_name ext
      new_file_name unique_num s = Returned tt s' ->
    exists o, Outcome.renamer_records file_name o /\
              snd s' = FileRenamer.append (fst o) (snd o) (snd s).
Proof.
  induction fuel as [|fuel IH]; intros new_file_name unique_num s s';
    cbn [PictureRenamer.rename_loop]; [discriminate|].
  destruct (String.eqb new_file_name file_name).
  - run. intros [= <-].
    exists (FileRenamer.SkippedNewNameMatchesOld, file_name). now split.
  - run. destruct (rename (w_fs (fst s)) file_name new_file_name) as [e|fs'].
    + destruct e as [strerror text|text|text|text|text]; try discriminate.
      * apply IH.
      * intros [= <-].
        exists (FileRenamer.FailedToRename,
                PictureRenamer.failed_entry file_name text).
        split; [|reflexivity].
        now exists (". Reason: " ++ text).
    + intros [= <-].
      exists (FileRenamer.SuccessfullyRenamed,
              PictureRenamer.renamed_entry file_name new_file_name).
      split; [|reflexivity]. now exists new_file_name.
Qed.

Lemma renamer_process_file_records (fuel : nat) (name : string)
    (s s' : St FS FileRenamer.t) :
  PictureRenamer.process_file fuel name s = Returned tt s' ->
  exists o,
    Outcome.renamer_records (path_join (FileRenamer.path (snd s)) name) o /\
    snd s' = FileRenamer.append (fst o) (snd o) (snd s).
Proof.
  unfold PictureRenamer.process_file, FileRenamer.process_file. run.
  destruct (negb _).
  - intros [= <-].
    exists (FileRenamer.SkippedDifferentExtension,
            path_join (FileRenamer.path (snd s)) name). now split.
  - match goal with
    | |- context [PictureRenamer.get_new_name ?f ?s1] =>
        destruct (PictureRenamer.get_new_name f s1) as [r s2| |] eqn:Hname;
          try discriminate
    end.
    assert (s2 = (printed (fst s) ("file_name " ++ name), snd s)) as ->.
    { eapply reads_only_returns; [|exact Hname].
      apply reads_only_bind; [apply reads_only_init|].
      intros; apply reads_only_ret. }
    destruct r as [new_name|].
    + cbn [snd]. intros H.
      apply rename_loop_records in H. exact H.
    + intros [= <-].
      exists (FileRenamer.FailedToRename,
              "Failed to rename " ++
              path_join (FileRenamer.path (snd s)) name ++
              " because no new name could be determined.").
      split; [|reflexivity].
      now exists " because no new name could be determined.".
Qed.

Lemma renamer_for_each_records (fuel : nat) (names : list string) :
  forall s s' : St FS FileRenamer.t,
    for_each names (PictureRenamer.process_file fuel) s = Returned tt s' ->
    exists outs,
      Forall2
        (fun name o =>
           Outcome.renamer_records
             (path_join (FileRenamer.path (snd s)) name) o)
        names outs /\
      snd s' = Outcome.renamer_appends outs (snd s).
Proof.
  induction names as [|name names IH]; intros s s' H.
  - cbn in H. injection H as <-. exists []. split; [constructor|reflexivity].
  - apply for_each_cons in H. destruct H as (s1 & H1 & Hrest).
    apply renamer_process_file_records in H1. destruct H1 as (o & Ho & Hs1).
    apply IH in Hrest. destruct Hrest as (outs & Houts & Hs').
    exists (o :: outs). split.
    + constructor; [exact Ho|]. rewrite Hs1 in Houts. exact Houts.
    + rewrite Hs', Hs1. reflexivity.
Qed.

Lemma renamer_get_files_spec (fuel : nat) :
  forall (w w1 : World FS) (self self1 : FileRenamer.t),
    FileRenamer.get_files fuel (w, self) = Returned tt (w1, self1) ->
    w_fs w1 = w_fs w /\
    (forall b, FileRenamer.get b self1 = FileRenamer.get b self) /\
    (FileRenamer.files self1 = FileRenamer.files self \/
     listdir (w_fs w) (FileRenamer.path self1) = inr (FileRenamer.files self1)).
Proof.
  induction fuel as [|fuel IH]; intros w w1 self self1;
    cbn [FileRenamer.get_files]; [discriminate|].
  run. destruct (listdir (w_fs w) (FileRenamer.path self)) as [e|l] eqn:Hl.
  - destruct e as [strerror text|text|text|text|text]; try discriminate.
    unfold input. cbn [fst snd w_fs w_stdin w_stdout].
    destruct (w_stdin w) as [|answer rest]; [discriminate|].
    destruct (String.eqb (PyStr.upper answer) "N").
    { intros [= <- <-]. auto. }
    destruct (String.eqb (PyStr.upper answer) "Y").
    + destruct rest as [|new_path rest]; [discriminate|].
      cbn [fst snd w_fs w_stdin w_stdout]. intros H.
      apply IH in H. destruct H as (Hfs & Hb & Hf).
      split; [exact Hfs|]. split; [exact Hb|exact Hf].
    + intros [= <- <-]. auto.
  - intros [= <- <-]. split; [reflexivity|]. split; [now intros []|].
    right. exact Hl.
Qed.

End RenamerOutcomes.

Section SorterOutcomes.
Context {FS : Type} {os : OS FS}.

Lemma sorter_get_append (b b' : FileSorter.bucket) (e : string)
    (self : FileSorter.t) :
  FileSorter.get b (FileSorter.append b' e self) =
  (FileSorter.get b self ++
   Outcome.collect FileSorter.bucket_eqb b [(b', e)])%list.
Proof.
  destruct b, b'; cbn; now rewrite ?app_nil_r.
Qed.

Lemma sorter_get_appends (b : FileSorter.bucket)
    (outs : list (FileSorter.bucket * string)) :
  forall self,
    FileSorter.get b (Outcome.sorter_appends outs self) =
    (FileSorter.get b self ++
     Outcome.collect FileSorter.bucket_eqb b outs)%list.
Proof.
  unfold Outcome.sorter_appends.
  induction outs as [|[b' e] outs IH]; intros self; cbn [fold_left fst snd].
  - cbn. now rewrite app_nil_r.
  - rewrite IH, sorter_get_append, <- app_assoc. f_equal.
    unfold Outcome.collect. cbn [filter fst].
    destruct (FileSorter.bucket_eqb b' b); reflexivity.
Qed.

Lemma sorter_appends_frame (outs : list (FileSorter.bucket * string)) :
  forall self,
    FileSorter.input_path (Outcome.sorter_appends outs self) =
      FileSorter.input_path self /\
    FileSorter.files (Outcome.sorter_appends outs self) = FileSorter.files self.
Proof.
  unfold Outcome.sorter_appends.
  induction outs as [|o outs IH]; intros self; cbn [fold_left]; [auto|].
  destruct (IH (FileSorter.append (fst o) (snd o) self)) as [-> ->]. auto.
Qed.

Lemma move_loop_records (file_name key current : string) (fuel : nat) :
  forall (new_file_path : string) (unique_num : nat)
         (s s' : St FS FileSorter.t),
    PictureSorter.move_loop fuel file_name key current
      new_file_path unique_num s = Returned tt s' ->
    exists o,
      (match fst o with
       | FileSorter.SuccessfullyMoved =>
           exists target, snd o = PictureSorter.moved_entry current target
       | _ => snd o = file_name
       end) /\
      snd s' = FileSorter.append (fst o) (snd o) (snd s).
Proof.
  induction fuel as [|fuel IH]; intros new_file_path unique_num s s';
    cbn [PictureSorter.move_loop]; [discriminate|].
  run. destruct (rename (w_fs (fst s)) current new_file_path) as [e|fs'].
  - destruct e as [strerror text|text|text|text|text]; try discriminate.
    destruct (PyStr.contains "file already exists" strerror).
    { destruct (NtPath.splitext file_name) as [root ext]. apply IH. }
    destruct (PyStr.contains "cannot find the path" strerror).
    + destruct (mkdir (w_fs (fst s)) _) as [e|fs']; [discriminate|].
      intros H. apply IH in H. exact H.
    + intros [= <-]. exists (FileSorter.FailedToMove, file_name). now split.
  - intros [= <-].
    exists (FileSorter.SuccessfullyMoved,
            PictureSorter.moved_entry current new_file_path).
    split; [|reflexivity]. now exists new_file_path.
Qed.

Lemma sorter_process_file_records (fuel : nat) (name : string)
    (s s' : St FS FileSorter.t) :
  PictureSorter.process_file fuel name s = Returned tt s' ->
  exists o,
    Outcome.sorter_records (FileSorter.input_path (snd s)) name o /\
    snd s' = FileSorter.append (fst o) (snd o) (snd s).
Proof.
  unfold PictureSorter.process_file, FileSorter.process_file. run.
  destruct (negb _).
  - intros [= <-].
    exists (FileSorter.SkippedDifferentExtension, name). now split.
  - unfold PictureSorter.move_file. run. intros H.
    apply move_loop_records in H. exact H.
Qed.

Lemma sorter_for_each_records (fuel : nat) (names : list string) :
  forall s s' : St FS FileSorter.t,
    for_each names (PictureSorter.process_file fuel) s = Returned tt s' ->
    exists outs,
      Forall2
        (fun name o =>
           Outcome.sorter_records (FileSorter.input_path (snd s)) name o)
        names outs /\
      snd s' = Outcome.sorter_appends outs (snd s).
Proof.
  induction names as [|name names IH]; intros s s' H.
  - cbn in H. injection H as <-. exists []. split; [constructor|reflexivity].
  - apply for_each_cons in H. destruct H as (s1 & H1 & Hrest).
    apply sorter_process_file_records in H1. destruct H1 as (o & Ho & Hs1).
    apply IH in Hrest. destruct Hrest as (outs & Houts & Hs').
    exists (o :: outs). split.
    + constructor; [exact Ho|]. rewrite Hs1 in Houts. exact Houts.
    + rewrite Hs', Hs1. reflexivity.
Qed.

Lemma sorter_get_files_spec (fuel : nat) :
  forall (w w1 : World FS) (self self1 : FileSorter.t),
    FileSorter.get_files fuel (w, self) = Returned tt (w1, self1) ->
    w_fs w1 = w_fs w /\
    (forall b, FileSorter.get b self1 = FileSorter.get b self) /\
    (FileSorter.files self1 = FileSorter.files self \/
     listdir (w_fs w) (FileSorter.input_path self1) =
       inr (FileSorter.files self1)).
Proof.
  induction fuel as [|fuel IH]; intros w w1 self self1;
    cbn [FileSorter.get_files]; [discriminate|].
  run. destruct (listdir (w_fs w) (FileSorter.input_path self)) as [e|l] eqn:Hl.
  - destruct e as [strerror text|text|text|text|text]; try discriminate.
    unfold input. cbn [fst snd w_fs w_stdin w_stdout].
    destruct (w_stdin w) as [|answer rest]; [discriminate|].
    destruct (String.eqb (PyStr.upper answer) "N").
    { intros [= <- <-]. auto. }
    destruct (String.eqb (PyStr.upper answer) "Y").
    + destruct rest as [|new_path rest]; [discriminate|].
      cbn [fst snd w_fs w_stdin w_stdout]. intros H.
      apply IH in H. destruct H as (Hfs & Hb & Hf).
      split; [exact Hfs|]. split; [exact Hb|exact Hf].
    + intros [= <- <-]. auto.
  - intros [= <- <-]. split; [reflexivity|]. split; [now intros []|].
    right. exact Hl.
Qed.

End SorterOutcomes.

Lemma renamer_collect_count (outs : list (FileRenamer.bucket * string)) :
  List.length (Outcome.collect FileRenamer.bucket_eqb FileRenamer.SuccessfullyRenamed outs) +
  List.length (Outcome.collect FileRenamer.bucket_eqb FileRenamer.SkippedNewNameMatchesOld outs) +
  List.length (Outcome.collect FileRenamer.bucket_eqb FileRenamer.FailedToRename outs) +
  List.length (Outcome.collect FileRenamer.bucket_eqb FileRenamer.SkippedDifferentExtension outs) =
  List.length outs.
Proof.
  unfold Outcome.collect.
  induction outs as [|[[] e] outs IH]; cbn in *; lia.
Qed.

Lemma sorter_collect_count (outs : list (FileSorter.bucket * string)) :
  List.length (Outcome.collect FileSorter.bucket_eqb FileSorter.SuccessfullyMoved outs) +
  List.length (Outcome.collect FileSorter.bucket_eqb FileSorter.FailedToMove outs) +
  List.length (Outcome.collect FileSorter.bucket_eqb FileSorter.SkippedDifferentExtension outs) =
  List.length outs.
Proof.
  unfold Outcome.collect.
  induction outs as [|[[] e] outs IH]; cbn in *; lia.
Qed.

Lemma renamer_run_records {FS : Type} {os : OS FS}
    (fuel : nat) (input_path : option string) (w w' : World FS)
    (self : FileRenamer.t) :
  PictureRenamer.init fuel input_path w = Returned tt (w', self) ->
  exists outs : list (FileRenamer.bucket * string),
    Forall2
      (fun name o =>
         Outcome.renamer_records (path_join (FileRenamer.path self) name) o)
      (FileRenamer.files self) outs /\
    (forall b, FileRenamer.get b self =
               Outcome.collect FileRenamer.bucket_eqb b outs) /\
    (FileRenamer.files self = [] \/
     listdir (w_fs w) (FileRenamer.path self) = inr (FileRenamer.files self)).
Proof.
  unfold PictureRenamer.init, FileRenamer.init. unfold bind at 1.
  destruct (FileRenamer.get_files fuel (w, FileRenamer.fresh (w_fs w) input_path))
    as [[] [w1 self1]| |] eqn:Hg; try discriminate.
  apply renamer_get_files_spec in Hg. destruct Hg as (Hfs & Hb & Hf).
  unfold bind at 1, get_self. cbn [snd]. unfold bind at 1.
  destruct (FileRenamer.files self1) as [|name names] eqn:Hnames.
  - unfold ret, FileRenamer.print_report. run. intros [= <- <-].
    exists []. rewrite Hnames. split; [constructor|]. split; [|now left].
    intros b. rewrite Hb. now destruct b.
  - destruct (FileRenamer.process_files _ _ _ fuel (w1, self1))
      as [[] s2| |] eqn:Hp; try discriminate.
    unfold FileRenamer.process_files in Hp. revert Hp. run. rewrite Hnames.
    intros Hp.
    apply (renamer_for_each_records fuel (name :: names)) in Hp.
    destruct Hp as (outs & Houts & Hs2). cbn [snd] in Houts, Hs2.
    unfold FileRenamer.print_report. run. intros [= <- <-].
    rewrite Hs2.
    destruct (renamer_appends_frame outs self1) as [Hpath Hfiles].
    rewrite Hpath, Hfiles, Hnames.
    exists outs. split; [exact Houts|]. split.
    + intros b. rewrite renamer_get_appends, Hb. now destruct b.
    + destruct Hf as [Hf|Hf]; [discriminate Hf|]. right. exact Hf.
Qed.

Lemma sorter_run_records {FS : Type} {os : OS FS}
    (fuel : nat) (input_path base_path : string) (w w' : World FS)
    (self : FileSorter.t) :
  PictureSorter.init fuel input_path base_path w = Returned tt (w', self) ->
  exists outs : list (FileSorter.bucket * string),
    Forall2
      (fun name o => Outcome.sorter_records (FileSorter.input_path self) name o)
      (FileSorter.files self) outs /\
    (forall b, FileSorter.get b self =
               Outcome.collect FileSorter.bucket_eqb b outs) /\
    (FileSorter.files self = [] \/
     listdir (w_fs w) (FileSorter.input_path self) = inr (FileSorter.files self)).
Proof.
  unfold PictureSorter.init, FileSorter.init. unfold bind at 1.
  destruct (FileSorter.get_files fuel (w, FileSorter.fresh input_path base_path))
    as [[] [w1 self1]| |] eqn:Hg; try discriminate.
  apply sorter_get_files_spec in Hg. destruct Hg as (Hfs & Hb & Hf).
  unfold bind at 1, get_self. cbn [snd]. unfold bind at 1.
  destruct (FileSorter.files self1) as [|name names] eqn:Hnames.
  - unfold ret, FileSorter.print_report. run. intros [= <- <-].
    exists []. rewrite Hnames. split; [constructor|]. split; [|now left].
    intros b. rewrite Hb. now destruct b.
  - destruct (FileSorter.process_files _ _ fuel (w1, self1))
      as [[] s2| |] eqn:Hp; try discriminate.
    unfold FileSorter.process_files in Hp. revert Hp. run. rewrite Hnames.
    intros Hp.
    apply (sorter_for_each_records fuel (name :: names)) in Hp.
    destruct Hp as (outs & Houts & Hs2). cbn [snd] in Houts, Hs2.
    unfold FileSorter.print_report. run. intros [= <- <-].
    rewrite Hs2.
    destruct (sorter_appends_frame outs self1) as [Hpath Hfiles].
    rewrite Hpath, Hfiles, Hnames.
    exists outs. split; [exact Houts|]. split.
    + intros b. rewrite sorter_get_appends, Hb. now destruct b.
    + destruct Hf as [Hf|Hf]; [discriminate Hf|]. right. exact Hf.
Qed.

(** What [get_files] leaves in [files] is what the listing of the final
    path returns: a path that lists has its listing stored. *)
Lemma renamer_get_files_listing {FS : Type} {os : OS FS} (fuel : nat) :
  forall (w w1 : World FS) (self self1 : FileRenamer.t),
    FileRenamer.get_files fuel (w, self) = Returned tt (w1, self1) ->
    forall l, listdir (w_fs w) (FileRenamer.path self1) = inr l ->
              FileRenamer.files self1 = l.
Proof.
  induction fuel as [|fuel IH]; intros w w1 self self1;
    cbn [FileRenamer.get_files]; [discriminate|].
  run. destruct (listdir (w_fs w) (FileRenamer.path self)) as [e|l0] eqn:Hl.
  - destruct e as [strerror text|text|text|text|text]; try discriminate.
    unfold input. cbn [fst snd w_fs w_stdin w_stdout].
    destruct (w_stdin w) as [|answer rest]; [discriminate|].
    destruct (String.eqb (PyStr.upper answer) "N").
    { intros [= <- <-] l Hl'. congruence. }
    destruct (String.eqb (PyStr.upper answer) "Y").
    + destruct rest as [|new_path rest]; [discriminate|].
      cbn [fst snd w_fs w_stdin w_stdout]. intros H l Hl'.
      exact (IH _ _ _ _ H l Hl').
    + intros [= <- <-] l Hl'. congruence.
  - intros [= <- <-] l Hl'. cbn in Hl' |- *. congruence.
Qed.

Lemma sorter_get_files_listing {FS : Type} {os : OS FS} (fuel : nat) :
  forall (w w1 : World FS) (self self1 : FileSorter.t),
    FileSorter.get_files fuel (w, self) = Returned tt (w1, self1) ->
    forall l, listdir (w_fs w) (FileSorter.input_path self1) = inr l ->
              FileSorter.files self1 = l.
Proof.
  induction fuel as [|fuel IH]; intros w w1 self self1;
    cbn [FileSorter.get_files]; [discriminate|].
  run. destruct (listdir (w_fs w) (FileSorter.input_path self)) as [e|l0] eqn:Hl.
  - destruct e as [strerror text|text|text|text|text]; try discriminate.
    unfold input. cbn [fst snd w_fs w_stdin w_stdout].
    destruct (w_stdin w) as [|answer rest]; [discriminate|].
    destruct (String.eqb (PyStr.upper answer) "N").
    { intros [= <- <-] l Hl'. congruence. }
    destruct (String.eqb (PyStr.upper answer) "Y").
    + destruct rest as [|new_path rest]; [discriminate|].
      cbn [fst snd w_fs w_stdin w_stdout]. intros H l Hl'.
      exact (IH _ _ _ _ H l Hl').
    + intros [= <- <-] l Hl'. congruence.
  - intros [= <- <-] l Hl'. cbn in Hl' |- *. congruence.
Qed.

(** A run that returns keeps the path and the files [get_files] left. *)
Lemma renamer_run_listing {FS : Type} {os : OS FS}
    (fuel : nat) (input_path : option string) (w w' : World FS)
    (self : FileRenamer.t) :
  PictureRenamer.init fuel input_path w = Returned tt (w', self) ->
  forall l, listdir (w_fs w) (FileRenamer.path self) = inr l ->
            FileRenamer.files self = l.
Proof.
  unfold PictureRenamer.init, FileRenamer.init. unfold bind at 1.
  destruct (FileRenamer.get_files fuel (w, FileRenamer.fresh (w_fs w) input_path))
    as [[] [w1 self1]| |] eqn:Hg; try discriminate.
  pose proof (renamer_get_files_listing _ _ _ _ _ Hg) as Hlisting.
  unfold bind at 1, get_self. cbn [snd]. unfold bind at 1.
  destruct (FileRenamer.files self1) as [|name names] eqn:Hnames.
  - unfold ret, FileRenamer.print_report. run. intros [= <- <-].
    now rewrite Hnames.
  - destruct (FileRenamer.process_files _ _ _ fuel (w1, self1))
      as [[] s2| |] eqn:Hp; try discriminate.
    unfold FileRenamer.process_files in Hp. revert Hp. run. rewrite Hnames.
    intros Hp.
    apply (renamer_for_each_records fuel (name :: names)) in Hp.
    destruct Hp as (outs & _ & Hs2). cbn [snd] in Hs2.
    unfold FileRenamer.print_report. run. intros [= <- <-].
    rewrite Hs2.
    destruct (renamer_appends_frame outs self1) as [Hpath Hfiles].
    now rewrite Hpath, Hfiles, Hnames.
Qed.

Lemma sorter_run_listing {FS : Type} {os : OS FS}
    (fuel : nat) (input_path base_path : string) (w w' : World FS)
    (self : FileSorter.t) :
  PictureSorter.init fuel input_path base_path w = Returned tt (w', self) ->
  forall l, listdir (w_fs w) (FileSorter.input_path self) = inr l ->
            FileSorter.files self = l.
Proof.
  unfold PictureSorter.init, FileSorter.init. unfold bind at 1.
  destruct (FileSorter.get_files fuel (w, FileSorter.fresh input_path base_path))
    as [[] [w1 self1]| |] eqn:Hg; try discriminate.
  pose proof (sorter_get_files_listing _ _ _ _ _ Hg) as Hlisting.
  unfold bind at 1, get_self. cbn [snd]. unfold bind at 1.
  destruct (FileSorter.files self1) as [|name names] eqn:Hnames.
  - unfold ret, FileSorter.print_report. run. intros [= <- <-].
    now rewrite Hnames.
  - destruct (FileSorter.process_files _ _ fuel (w1, self1))
      as [[] s2| |] eqn:Hp; try discriminate.
    unfold FileSorter.process_files in Hp. revert Hp. run. rewrite Hnames.
    intros Hp.
    apply (sorter_for_each_records fuel (name :: names)) in Hp.
    destruct Hp as (outs & _ & Hs2). cbn [snd] in Hs2.
    unfold FileSorter.print_report. run. intros [= <- <-].
    rewrite Hs2.
    destruct (sorter_appends_frame outs self1) as [Hpath Hfiles].
    now rewrite Hpath, Hfiles, Hnames.
Qed.

(** C3. When a run of the renamer returns, there is one outcome per listed
    name, in listing order, each the record of its file in one of the four
    lists, and the four lists hold exactly these outcomes: the list a file's
    outcome names holds its entry and no other list does.  The same holds
    of the sorter and its three lists.  The listed names are those the
    listing of the final path returned on the initial file system, or none
    when the operator gave up: whenever the final path lists, its whole
    listing is what was processed. *)
Theorem every_file_in_one_bucket {FS : Type} {os : OS FS} :
  (forall (fuel : nat) (input_path : option string) (w w' : World FS)
          (self : FileRenamer.t),
     PictureRenamer.init fuel input_path w = Returned tt (w', self) ->
     exists outs : list (FileRenamer.bucket * string),
       Forall2
         (fun name o =>
            Outcome.renamer_records (path_join (FileRenamer.path self) name) o)
         (FileRenamer.files self) outs /\
       (forall b, FileRenamer.get b self =
                  Outcome.collect FileRenamer.bucket_eqb b outs) /\
       List.length (FileRenamer.successfully_renamed self) +
       List.length (FileRenamer.skipped_new_name_matches_old self) +
       List.length (FileRenamer.failed_to_rename self) +
       List.length (FileRenamer.skipped_different_extension self) =
         List.length (FileRenamer.files self) /\
       (FileRenamer.files self = [] \/
        listdir (w_fs w) (FileRenamer.path self) = inr (FileRenamer.files self)) /\
       (forall listing,
          listdir (w_fs w) (FileRenamer.path self) = inr listing ->
          FileRenamer.files self = listing)) /\
  (forall (fuel : nat) (input_path base_path : string) (w w' : World FS)
          (self : FileSorter.t),
     PictureSorter.init fuel input_path base_path w = Returned tt (w', self) ->
     exists outs : list (FileSorter.bucket * string),
       Forall2
         (fun name o =>
            Outcome.sorter_records (FileSorter.input_path self) name o)
         (FileSorter.files self) outs /\
       (forall b, FileSorter.get b self =
                  Outcome.collect FileSorter.bucket_eqb b outs) /\
       List.length (FileSorter.successfully_moved self) +
       List.length (FileSorter.failed_to_move self) +
       List.length (FileSorter.skipped_different_extension self) =
         List.length (FileSorter.files self) /\
       (FileSorter.files self = [] \/
        listdir (w_fs w) (FileSorter.input_path self) =
          inr (FileSorter.files self)) /\
       (forall listing,
          listdir (w_fs w) (FileSorter.input_path self) = inr listing ->
          FileSorter.files self = listing)).
Proof.
  split.
  - intros fuel input_path w w' self H.
    pose proof (renamer_run_listing _ _ _ _ _ H) as Hlisting.
    apply renamer_run_records in H.
    destruct H as (outs & Hrec & Hget & Hlist).
    exists outs. split; [exact Hrec|]. split; [exact Hget|].
    split; [|split; [exact Hlist|exact Hlisting]].
    rewrite (Hget FileRenamer.SuccessfullyRenamed : FileRenamer.successfully_renamed self = _),
      (Hget FileRenamer.SkippedNewNameMatchesOld : FileRenamer.skipped_new_name_matches_old self = _),
      (Hget FileRenamer.FailedToRename : FileRenamer.failed_to_rename self = _),
      (Hget FileRenamer.SkippedDifferentExtension : FileRenamer.skipped_different_extension self = _).
    rewrite (Forall2_length Hrec). apply renamer_collect_count.
  - intros fuel input_path base_path w w' self H.
    pose proof (sorter_run_listing _ _ _ _ _ _ H) as Hlisting.
    apply sorter_run_records in H.
    destruct H as (outs & Hrec & Hget & Hlist).
    exists outs. split; [exact Hrec|]. split; [exact Hget|].
    split; [|split; [exact Hlist|exact Hlisting]].
    rewrite (Hget FileSorter.SuccessfullyMoved : FileSorter.successfully_moved self = _),
      (Hget FileSorter.FailedToMove : FileSorter.failed_to_move self = _),
      (Hget FileSorter.SkippedDifferentExtension : FileSorter.skipped_different_extension self = _).
    rewrite (Forall2_length Hrec). apply sorter_collect_count.
Qed.

Lemma every_file_in_one_bucket_witness :
  (exists w' self,
     PictureRenamer.init 2 (Some Demo.pics_dir) (Sim.world Demo.pics []) =
       Returned tt (w', self) /\
     FileRenamer.files self = ["photo1.jpg"; "notes.txt"] /\
     List.length (FileRenamer.successfully_renamed self) +
     List.length (FileRenamer.skipped_new_name_matches_old self) +
     List.length (FileRenamer.failed_to_rename self) +
     List.length (FileRenamer.skipped_different_extension self) =
       List.length (FileRenamer.files self)) /\
  (exists w' self,
     PictureSorter.init 2 Demo.pics_dir Demo.sorted_dir
       (Sim.world Demo.pics_renamed []) = Returned tt (w', self) /\
     FileSorter.files self = ["20210501_100000.jpg"; "notes.txt"] /\
     List.length (FileSorter.successfully_moved self) +
     List.length (FileSorter.failed_to_move self) +
     List.length (FileSorter.skipped_different_extension self) =
       List.length (FileSorter.files self)).
Proof.
  split.
  - destruct (PictureRenamer.init 2 (Some Demo.pics_dir) (Sim.world Demo.pics []))
      as [[] [w' self]| |] eqn:H.
    + exists w', self. split; [reflexivity|].
      destruct (proj1 every_file_in_one_bucket _ _ _ _ _ H)
        as (outs & _ & _ & Hcount & _ & Hlisting).
      split; [|exact Hcount].
      apply Hlisting. vm_compute in H. now injection H as <- <-.
    + vm_compute in H. discriminate H.
    + vm_compute in H. discriminate H.
  - destruct (PictureSorter.init 2 Demo.pics_dir Demo.sorted_dir
                (Sim.world Demo.pics_renamed []))
      as [[] [w' self]| |] eqn:H.
    + exists w', self. split; [reflexivity|].
      destruct (proj2 every_file_in_one_bucket _ _ _ _ _ _ H)
        as (outs & _ & _ & Hcount & _ & Hlisting).
      split; [|exact Hcount].
      apply Hlisting. vm_compute in H. now injection H as <- <-.
    + vm_compute in H. discriminate H.
    + vm_compute in H. discriminate H.
Defined.

(** ** Errors of the rename that are not collisions *)

(** While every candidate differs from the file's own name and every
    attempt raises a [WindowsError], the renamer's loop goes on: no amount
    of fuel makes it return or raise. *)
Lemma rename_loop_retries {FS : Type} {os : OS FS}
    (file_name new_name ext : string) (w : World FS) (self : FileRenamer.t) :
  (forall i,
     PictureRenamer.candidate new_name ext i <> file_name /\
     exists strerror text,
       rename (w_fs w) file_name (PictureRenamer.candidate new_name ext i) =
         inl (WindowsError strerror text)) ->
  forall fuel j,
    PictureRenamer.rename_loop fuel file_name new_name ext
      (PictureRenamer.candidate new_name ext j) j (w, self) = OutOfFuel.
Proof.
  intros Hall. induction fuel as [|fuel IH]; intros j; [reflexivity|].
  destruct (Hall j) as [Hne (strerror & text & Hren)].
  apply String.eqb_neq in Hne.
  cbn [PictureRenamer.rename_loop]. rewrite Hne. run. rewrite Hren.
  apply (IH (S j)).
Qed.

Lemma img_candidates (i : nat) :
  PictureRenamer.candidate Demo.img_new_name ".jpg" i <> Demo.img_path /\
  exists strerror text,
    rename Demo.busy Demo.img_path
      (PictureRenamer.candidate Demo.img_new_name ".jpg" i) =
      inl (WindowsError strerror text).
Proof.
  split.
  - destruct i; cbn; discriminate.
  - eexists; eexists. reflexivity.
Qed.

(** C2, at a file another process holds open: the rename raises a
    [WindowsError] that is a sharing violation, not a collision; the
    renamer answers it with the suffixed candidate [_1] and, the error
    repeating, never returns: the file is in no list, failed or other. *)
Theorem rename_retries_on_sharing_violation :
  let w := Sim.world Demo.busy [] in
  let self := Demo.renamer_of Demo.busy in
  rename (w_fs w) Demo.img_path "C:\pics\20210501_100000.jpg" =
    inl (Sim.sharing_violation
           (Sim.quoted Demo.img_path ++ " -> " ++
            Sim.quoted "C:\pics\20210501_100000.jpg")) /\
  PyStr.contains "file already exists"
    "The process cannot access the file because it is being used by another process"
    = false /\
  (forall fuel,
     PictureRenamer.rename_file (S fuel) Demo.img_path Demo.img_new_name ".jpg"
       (w, self) =
     PictureRenamer.rename_loop fuel Demo.img_path Demo.img_new_name ".jpg"
       "C:\pics\20210501_100000_1.jpg" 1 (w, self)) /\
  (forall fuel,
     PictureRenamer.rename_file fuel Demo.img_path Demo.img_new_name ".jpg"
       (w, self) = OutOfFuel) /\
  (forall fuel,
     PictureRenamer.init fuel (Some Demo.pics_dir) w = OutOfFuel).
Proof.
  intros w self.
  assert (Hloop : forall fuel (w0 : World Sim.fs) (o : FileRenamer.t),
            w_fs w0 = Demo.busy ->
            PictureRenamer.rename_file fuel Demo.img_path Demo.img_new_name
              ".jpg" (w0, o) = OutOfFuel).
  { intros fuel [fs0 stdin0 stdout0] o Hfs. cbn in Hfs. subst fs0.
    unfold PictureRenamer.rename_file.
    apply (rename_loop_retries Demo.img_path Demo.img_new_name ".jpg"
             (Build_World Demo.busy stdin0 stdout0) o img_candidates fuel 0). }
  split; [reflexivity|]. split; [reflexivity|]. split; [|split].
  - intros fuel. reflexivity.
  - intros fuel. now apply Hloop.
  - intros [|fuel]; [reflexivity|].
    unfold PictureRenamer.init, FileRenamer.init.
    unfold bind at 1.
    change (FileRenamer.get_files (S fuel)
              (w, FileRenamer.fresh (w_fs w) (Some Demo.pics_dir)))
      with (Returned tt (w, Demo.renamer_of Demo.busy)).
    unfold bind at 1, get_self. cbn [snd]. unfold bind at 1.
    change (FileRenamer.files (Demo.renamer_of Demo.busy))
      with ["IMG.jpg"; "notes.txt"].
    unfold FileRenamer.process_files, bind at 1, get_self.
    change (FileRenamer.files (snd (w, Demo.renamer_of Demo.busy)))
      with ["IMG.jpg"; "notes.txt"].
    cbn [for_each]. unfold bind at 1.
    replace (FileRenamer.process_file PictureRenamer.accepted_extensions
               PictureRenamer.get_new_name PictureRenamer.rename_file
               (S fuel) "IMG.jpg" (w, Demo.renamer_of Demo.busy))
      with (PictureRenamer.rename_file (S fuel) Demo.img_path
              Demo.img_new_name ".jpg"
              (printed w "file_name IMG.jpg", Demo.renamer_of Demo.busy));
      [|reflexivity].
    now rewrite Hloop.
Qed.

(** ** Errors of the move that the sorter does not classify *)

(** C6 fails as stated.  The held file makes the move raise a sharing
    violation, neither a collision nor a missing directory.  The sorter
    records the file in [failed_to_move] by its bare name: no entry of that
    list carries the error's text, which is only printed.  On the same
    error the renamer records nothing within five attempts. *)
Lemma sharing_violation_text_not_recorded :
  let w := Sim.world Demo.busy [] in
  let strerror :=
    "The process cannot access the file because it is being used by another process" in
  let where_ :=
    Sim.quoted Demo.img_path ++ " -> " ++ Sim.quoted "C:\sorted\IMG.\IMG.jpg" in
  rename (w_fs w) Demo.img_path "C:\sorted\IMG.\IMG.jpg" =
    inl (Sim.sharing_violation where_) /\
  PyStr.contains "file already exists" strerror = false /\
  PyStr.contains "cannot find the path" strerror = false /\
  (exists w' self',
     PictureSorter.process_file 1 "IMG.jpg" (w, Demo.sorter_of Demo.busy) =
       Returned tt (w', self') /\
     FileSorter.failed_to_move self' = ["IMG.jpg"] /\
     ~ (exists entry,
          In entry (FileSorter.failed_to_move self') /\
          (PyStr.contains strerror entry = true \/
           PyStr.contains (exn_text (Sim.sharing_violation where_)) entry = true))) /\
  PictureRenamer.process_file 5 "IMG.jpg" (w, Demo.renamer_of Demo.busy) =
    OutOfFuel.
Proof.
  intros w strerror where_.
  split; [reflexivity|]. split; [reflexivity|]. split; [reflexivity|]. split.
  - eexists; eexists. split; [vm_compute; reflexivity|].
    split; [reflexivity|].
    intros (entry & [<-|[]] & [H|H]); vm_compute in H; discriminate H.
  - vm_compute. reflexivity.
Qed.

(** C6 as amended, for the sorter.  When the move raises a [WindowsError]
    whose [strerror] mentions neither an existing file nor a path that
    cannot be found, at whatever attempt, the loop ends there: the error's
    text is printed, the file's name is appended to [failed_to_move], no
    other list and not the file system changes, and no further move is
    tried.  When this happens at the first attempt on an accepted file the
    batch goes on with the names that follow. *)
Theorem unclassified_move_error_is_recorded {FS : Type} {os : OS FS}
    (fuel : nat) (file_name : string) (rest : list string)
    (w : World FS) (self : FileSorter.t)
    (strerror text : string) :
  PyStr.contains "file already exists" strerror = false ->
  PyStr.contains "cannot find the path" strerror = false ->
  let current := PictureSorter.current_file_path self file_name in
  let failed := FileSorter.append FileSorter.FailedToMove file_name self in
  (forall (new_file_path : string) (unique_num : nat),
     rename (w_fs w) current new_file_path = inl (WindowsError strerror text) ->
     PictureSorter.move_loop (S fuel) file_name (PictureSorter.sort_key file_name)
       current new_file_path unique_num (w, self) =
       Returned tt (printed w ("There was an error: " ++ text), failed)) /\
  (PyStr.mem (PyStr.lower (get_file_extension file_name)) MEDIA_EXTENSIONS = true ->
   rename (w_fs w) current (PictureSorter.new_file_path self file_name) =
     inl (WindowsError strerror text) ->
   for_each (file_name :: rest) (PictureSorter.process_file (S fuel)) (w, self) =
     for_each rest (PictureSorter.process_file (S fuel))
       (printed (printed w ("file_name " ++ file_name))
          ("There was an error: " ++ text), failed)) /\
  FileSorter.failed_to_move failed = (FileSorter.failed_to_move self ++ [file_name])%list /\
  FileSorter.successfully_moved failed = FileSorter.successfully_moved self /\
  FileSorter.skipped_different_extension failed =
    FileSorter.skipped_different_extension self.
Proof.
  intros Hexists Hpath current failed.
  split; [|split; [|repeat split]].
  - intros new_file_path unique_num Hmove.
    cbn [PictureSorter.move_loop]. run. rewrite Hmove.
    cbn [exn_text]. rewrite Hexists, Hpath. reflexivity.
  - intros Hext Hmove. cbn [for_each]. unfold bind at 1.
    unfold PictureSorter.process_file at 1, FileSorter.process_file,
      PictureSorter.accepted_extensions.
    run. rewrite Hext. cbn [negb].
    unfold PictureSorter.move_file. run.
    cbn [PictureSorter.move_loop]. run. fold current. rewrite Hmove.
    cbn [exn_text]. rewrite Hexists, Hpath. reflexivity.
Qed.

Lemma unclassified_move_error_is_recorded_witness :
  let w := Sim.world Demo.busy [] in
  let self := Demo.sorter_of Demo.busy in
  let strerror :=
    "The process cannot access the file because it is being used by another process" in
  let text :=
    "[WinError 32] " ++ strerror ++ ": " ++
    Sim.quoted Demo.img_path ++ " -> " ++ Sim.quoted "C:\sorted\IMG.\IMG.jpg" in
  PyStr.contains "file already exists" strerror = false /\
  PyStr.contains "cannot find the path" strerror = false /\
  PyStr.mem (PyStr.lower (get_file_extension "IMG.jpg")) MEDIA_EXTENSIONS = true /\
  rename (w_fs w) (PictureSorter.current_file_path self "IMG.jpg")
    (PictureSorter.new_file_path self "IMG.jpg") =
    inl (WindowsError strerror text) /\
  for_each ["IMG.jpg"; "notes.txt"] (PictureSorter.process_file 1) (w, self) =
    for_each ["notes.txt"] (PictureSorter.process_file 1)
      (printed (printed w "file_name IMG.jpg") ("There was an error: " ++ text),
       FileSorter.append FileSorter.FailedToMove "IMG.jpg" self).
Proof.
  intros w self strerror text.
  split; [reflexivity|]. split; [reflexivity|]. split; [reflexivity|].
  split; [reflexivity|].
  exact (proj1 (proj2 (unclassified_move_error_is_recorded 0 "IMG.jpg"
                         ["notes.txt"] w self strerror text eq_refl eq_refl))
           eq_refl eq_refl).
Defined.


(** * Further properties *)

(** ** File extensions *)

Lemma no_sep_no_ext (p : string) :
  existsb NtPath.is_sep (list_ascii_of_string p) = false ->
  NtPath.ext_from true p = None ->
  existsb NtPath.is_dot (list_ascii_of_string p) = false.
Proof.
  induction p as [|c p IH]; simpl; [reflexivity|].
  destruct (NtPath.is_sep c); [discriminate|]. simpl. intros Hsep.
  destruct (NtPath.is_dot c); simpl.
  - destruct (NtPath.ext_from true p); [discriminate|].
    rewrite Hsep. discriminate.
  - auto.
Qed.

Lemma ext_from_shape (p : string) : forall seen e,
  NtPath.ext_from seen p = Some e ->
  exists e', e = String "." e' /\
             existsb NtPath.is_sep (list_ascii_of_string e') = false /\
             existsb NtPath.is_dot (list_ascii_of_string e') = false.
Proof.
  induction p as [|c p IH]; intros seen e; simpl; [discriminate|].
  destruct (NtPath.is_sep c); [apply IH|].
  destruct (NtPath.is_dot c) eqn:Hdot; [|apply IH].
  destruct (NtPath.ext_from seen p) as [e0|] eqn:E.
  - intros [= <-]. eapply IH; eassumption.
  - destruct seen; [|discriminate]. cbn [andb].
    destruct (existsb NtPath.is_sep (list_ascii_of_string p)) eqn:Hsep;
      [discriminate|].
    intros [= <-]. exists p.
    apply Ascii.eqb_eq in Hdot. subst c.
    split; [reflexivity|]. split; [exact Hsep|].
    now apply no_sep_no_ext.
Qed.

Lemma append_empty_r (s : string) : s ++ EmptyString = s.
Proof. induction s as [|c s IH]; simpl; [reflexivity|now rewrite IH]. Qed.

Lemma substring_append (r e : string) :
  String.substring 0 (String.length r) (r ++ e) = r.
Proof.
  induction r as [|c r IH]; simpl.
  - now destruct e.
  - now rewrite IH.
Qed.

(** X1. [os.path.splitext] cuts a name in two parts that put together give
    the name back, and the extension [get_file_extension] keeps is either
    empty or a period followed by characters among which there is neither a
    period nor a path separator. *)
Theorem extension_shape (file_name : string) :
  fst (NtPath.splitext file_name) ++ get_file_extension file_name = file_name /\
  (get_file_extension file_name = EmptyString \/
   exists e, get_file_extension file_name = String "." e /\
             existsb NtPath.is_sep (list_ascii_of_string e) = false /\
             existsb NtPath.is_dot (list_ascii_of_string e) = false).
Proof.
  unfold get_file_extension, NtPath.splitext.
  destruct (NtPath.ext_from false file_name) as [e|] eqn:E; cbn [fst snd].
  - split.
    + destruct (ext_from_suffix _ _ _ E) as [r ->].
      rewrite append_length, Nat.add_sub, substring_append. reflexivity.
    + right. eapply ext_from_shape; eassumption.
  - split; [|now left]. apply append_empty_r.
Qed.

(** A run of characters without period or separator has no extension. *)
Lemma ext_from_plain (t : string) : forall seen,
  existsb NtPath.is_sep (list_ascii_of_string t) = false ->
  existsb NtPath.is_dot (list_ascii_of_string t) = false ->
  NtPath.ext_from seen t = None.
Proof.
  induction t as [|c t IH]; intros seen; simpl; [reflexivity|].
  destruct (NtPath.is_sep c); [discriminate|].
  destruct (NtPath.is_dot c); [discriminate|]. simpl. auto.
Qed.

Lemma list_ascii_append (a b : string) :
  list_ascii_of_string (a ++ b) =
  (list_ascii_of_string a ++ list_ascii_of_string b)%list.
Proof. induction a as [|c a IH]; simpl; congruence. Qed.

(** Appending such a run to a name without extension gives none. *)
Lemma ext_from_none_append (t : string) :
  existsb NtPath.is_sep (list_ascii_of_string t) = false ->
  existsb NtPath.is_dot (list_ascii_of_string t) = false ->
  forall p seen,
    NtPath.ext_from seen p = None -> NtPath.ext_from seen (p ++ t) = None.
Proof.
  intros Hsep Hdot. induction p as [|c p IH]; intros seen; simpl.
  - intros _. now apply ext_from_plain.
  - destruct (NtPath.is_sep c); [apply IH|].
    destruct (NtPath.is_dot c); [|apply IH].
    destruct (NtPath.ext_from seen p) eqn:E; [discriminate|].
    rewrite (IH seen E), list_ascii_append, existsb_app, Hsep, orb_false_r.
    now destruct (seen && _).
Qed.

(** A period preceded by a non-empty run of such characters starts the
    extension, whatever comes before the run. *)
Lemma ext_from_after_run (e : string) :
  existsb NtPath.is_sep (list_ascii_of_string e) = false ->
  existsb NtPath.is_dot (list_ascii_of_string e) = false ->
  forall (c : ascii) (u : string),
    NtPath.is_sep c = false -> NtPath.is_dot c = false ->
    existsb NtPath.is_sep (list_ascii_of_string u) = false ->
    existsb NtPath.is_dot (list_ascii_of_string u) = false ->
    forall p seen,
      NtPath.ext_from seen (p ++ String c (u ++ String "." e)) =
        Some (String "." e).
Proof.
  intros Hesep Hedot c u Hc Hc' Husep Hudot.
  assert (Hrun : forall u, 
            existsb NtPath.is_sep (list_ascii_of_string u) = false ->
            existsb NtPath.is_dot (list_ascii_of_string u) = false ->
            NtPath.ext_from true (u ++ String "." e) = Some (String "." e)).
  { clear u Husep Hudot. induction u as [|d u IH]; simpl.
    - intros _ _. rewrite (ext_from_plain e true Hesep Hedot), Hesep.
      reflexivity.
    - destruct (NtPath.is_sep d); [discriminate|].
      destruct (NtPath.is_dot d); [discriminate|]. simpl. auto. }
  induction p as [|d p IH]; intros seen; simpl.
  - rewrite Hc, Hc'. now apply Hrun.
  - destruct (NtPath.is_sep d); [apply IH|].
    destruct (NtPath.is_dot d); [|apply IH].
    now rewrite IH.
Qed.

Lemma digits_plain (d : Decimal.uint) :
  existsb NtPath.is_sep (list_ascii_of_string (NilEmpty.string_of_uint d)) = false /\
  existsb NtPath.is_dot (list_ascii_of_string (NilEmpty.string_of_uint d)) = false.
Proof.
  induction d as [|d [IH1 IH2]|d [IH1 IH2]|d [IH1 IH2]|d [IH1 IH2]|d [IH1 IH2]
                  |d [IH1 IH2]|d [IH1 IH2]|d [IH1 IH2]|d [IH1 IH2]|d [IH1 IH2]];
    simpl; auto.
Qed.

Lemma of_nat_plain (n : nat) :
  existsb NtPath.is_sep (list_ascii_of_string (PyStr.of_nat n)) = false /\
  existsb NtPath.is_dot (list_ascii_of_string (PyStr.of_nat n)) = false.
Proof.
  unfold PyStr.of_nat, NilZero.string_of_uint.
  destruct (Nat.to_uint n) eqn:E; try (rewrite <- E; apply digits_plain).
  simpl. auto.
Qed.

(** X2. The names tried after a collision keep the extension.  The
    sorter's name, made of the root, [_n] and the extension that
    [os.path.splitext] gave, has that extension again; so has the renamer's
    candidate for [n >= 1] whenever the extension is not empty. *)
Theorem suffixed_name_keeps_extension (file_name new_name : string) (n : nat) :
  let root := fst (NtPath.splitext file_name) in
  let ext := get_file_extension file_name in
  get_file_extension
    (PyStr.join EmptyString [root; "_" ++ PyStr.of_nat n; ext]) = ext /\
  (ext <> EmptyString ->
   get_file_extension (PictureRenamer.candidate new_name ext (S n)) = ext).
Proof.
  intros root ext.
  destruct (of_nat_plain n) as [Hnsep Hndot].
  destruct (of_nat_plain (S n)) as [Hssep Hsdot].
  destruct (extension_shape file_name) as [Hsplit [Hempty|(e & He & Hesep & Hedot)]];
    fold root ext in Hsplit.
  - fold ext in Hempty. rewrite Hempty. split; [|congruence].
    unfold PyStr.join. cbn [String.concat].
    rewrite append_empty_r.
    unfold get_file_extension, NtPath.splitext.
    rewrite Hempty, append_empty_r in Hsplit.
    assert (Hnone : NtPath.ext_from false root = None).
    { unfold ext, get_file_extension, NtPath.splitext in Hempty.
      rewrite <- Hsplit in Hempty.
      destruct (NtPath.ext_from false root) as [e|] eqn:E; [|reflexivity].
      cbn [snd] in Hempty. subst e.
      destruct (ext_from_shape _ _ _ E) as (e' & He' & _). discriminate He'. }
    rewrite (ext_from_none_append ("_" ++ PyStr.of_nat n)); [reflexivity| | |exact Hnone].
    + simpl. exact Hnsep.
    + simpl. exact Hndot.
  - fold ext in He. rewrite He. split; [|intros _].
    + unfold PyStr.join. cbn [String.concat String.append].
      unfold get_file_extension, NtPath.splitext.
      now rewrite (ext_from_after_run e Hesep Hedot "_" (PyStr.of_nat n)
                     eq_refl eq_refl Hnsep Hndot root false).
    + unfold PictureRenamer.candidate, PyStr.join.
      cbn [String.concat String.append].
      unfold get_file_extension, NtPath.splitext.
      now rewrite (ext_from_after_run e Hesep Hedot "_" (PyStr.of_nat (S n))
                     eq_refl eq_refl Hssep Hsdot new_name false).
Qed.

Lemma suffixed_name_keeps_extension_witness :
  get_file_extension "photo.JPG" <> EmptyString /\
  get_file_extension "photo_1.JPG" = ".JPG" /\
  get_file_extension (PictureRenamer.candidate "C:\pics\20210501_100000" ".JPG" 1)
    = ".JPG".
Proof.
  assert (H : get_file_extension "photo.JPG" <> EmptyString)
    by (vm_compute; discriminate).
  split; [exact H|]. split.
  - exact (proj1 (suffixed_name_keeps_extension "photo.JPG" EmptyString 1)).
  - exact (proj2 (suffixed_name_keeps_extension "photo.JPG"
                    "C:\pics\20210501_100000" 0) H).
Defined.

(** ** The names a collision loop tries *)

Lemma to_uint_nonnil (n : nat) : Nat.to_uint n <> Decimal.Nil.
Proof.
  intros H. pose proof (DecimalNat.Unsigned.of_to n) as Hn.
  rewrite H in Hn. cbn in Hn. subst n. discriminate H.
Qed.

Lemma of_nat_inj (a b : nat) : PyStr.of_nat a = PyStr.of_nat b -> a = b.
Proof.
  unfold PyStr.of_nat. intros H.
  apply DecimalNat.Unsigned.to_uint_inj.
  apply (f_equal NilZero.uint_of_string) in H.
  rewrite !NilZero.usu in H by apply to_uint_nonnil.
  congruence.
Qed.

Lemma append_inv_head (a x y : string) : a ++ x = a ++ y -> x = y.
Proof. induction a as [|c a IH]; simpl; [auto|]. intros [= H]. auto. Qed.

Lemma append_inv_tail (e : string) : forall x y : string,
  x ++ e = y ++ e -> x = y.
Proof.
  induction x as [|c x IH]; intros [|d y] H; simpl in H.
  - reflexivity.
  - apply (f_equal String.length) in H. simpl in H.
    rewrite append_length in H. lia.
  - apply (f_equal String.length) in H. simpl in H.
    rewrite append_length in H. lia.
  - injection H as -> H. f_equal. auto.
Qed.

(** X3. The renamer's loop never tries a name twice: the candidates for
    different numbers of collisions are different names. *)
Theorem candidates_differ (new_name ext : string) (i j : nat) :
  PictureRenamer.candidate new_name ext i =
  PictureRenamer.candidate new_name ext j ->
  i = j.
Proof.
  unfold PictureRenamer.candidate, PyStr.join.
  destruct i as [|i], j as [|j]; cbn [String.concat String.append]; intros H.
  - reflexivity.
  - apply append_inv_head in H. apply (f_equal String.length) in H.
    simpl in H. rewrite append_length in H. lia.
  - apply append_inv_head in H. apply (f_equal String.length) in H.
    simpl in H. rewrite append_length in H. lia.
  - apply append_inv_head in H. injection H as H.
    apply append_inv_tail in H. now apply of_nat_inj.
Qed.

Lemma candidates_differ_witness :
  PictureRenamer.candidate "C:\pics\20210501_100000" ".jpg" 10 =
  PictureRenamer.candidate "C:\pics\20210501_100000" ".jpg" (5 + 5) /\
  10 = 5 + 5.
Proof.
  split; [reflexivity|].
  exact (candidates_differ "C:\pics\20210501_100000" ".jpg" 10 (5 + 5) eq_refl).
Defined.

(** ** Name derivation, further *)

(** X4. Name derivation does not depend on the order in which the dates are
    gathered: any rearrangement of the dates gives the same name. *)
Theorem oldest_permutation (date_times date_times' : list (option string)) :
  Permutation date_times date_times' ->
  DateName.oldest date_times = DateName.oldest date_times'.
Proof.
  intros Hperm.
  destruct (oldest_spec date_times) as [Hnone Hsome].
  destruct (oldest_spec date_times') as [Hnone' Hsome'].
  destruct (DateName.oldest date_times) as [n|] eqn:E,
           (DateName.oldest date_times') as [n'|] eqn:E'.
  - destruct (Hsome n eq_refl) as [Hin Hle].
    destruct (Hsome' n' eq_refl) as [Hin' Hle'].
    f_equal. apply String.leb_antisym.
    + apply Hle. eapply Permutation_in; [apply Permutation_sym|]; eassumption.
    + apply Hle'. eapply Permutation_in; eassumption.
  - destruct (Hsome n eq_refl) as [Hin _]. exfalso.
    apply (proj1 Hnone' eq_refl n). eapply Permutation_in; eassumption.
  - destruct (Hsome' n' eq_refl) as [Hin' _]. exfalso.
    apply (proj1 Hnone eq_refl n').
    eapply Permutation_in; [apply Permutation_sym|]; eassumption.
  - reflexivity.
Qed.

Lemma oldest_permutation_witness :
  Permutation [Some "20210503_000000"; Some "20210501_100000"; None]
              [None; Some "20210503_000000"; Some "20210501_100000"] /\
  DateName.oldest [Some "20210503_000000"; Some "20210501_100000"; None] =
  DateName.oldest [None; Some "20210503_000000"; Some "20210501_100000"].
Proof.
  assert (H : Permutation
                [Some "20210503_000000"; Some "20210501_100000"; None]
                [None; Some "20210503_000000"; Some "20210501_100000"]).
  { apply Permutation_sym.
    apply (Permutation_cons_app
             [Some "20210503_000000"; Some "20210501_100000"] [] None).
    rewrite app_nil_r. apply Permutation_refl. }
  split; [exact H|]. exact (oldest_permutation _ _ H).
Defined.

(** ** The capture tag *)

Lemma has_char_append (c : ascii) (a b : string) :
  has_char c (a ++ b) = has_char c a || has_char c b.
Proof. unfold has_char. now rewrite list_ascii_append, existsb_app. Qed.

Lemma replace_removes (d : ascii) (by_ : string) :
  has_char d by_ = false ->
  forall s, has_char d (PyStr.replace_char d by_ s) = false.
Proof.
  intros Hby. induction s as [|c s IH]; simpl; [reflexivity|].
  destruct (Ascii.eqb c d) eqn:E.
  - now rewrite has_char_append, Hby, IH.
  - unfold has_char in *. simpl. now rewrite Ascii.eqb_sym, E, IH.
Qed.

Lemma replace_keeps (c d : ascii) (by_ : string) :
  has_char c by_ = false ->
  forall s, has_char c s = false ->
            has_char c (PyStr.replace_char d by_ s) = false.
Proof.
  intros Hby. induction s as [|x s IH]; simpl; [reflexivity|].
  unfold has_char at 1. simpl. fold (has_char c s).
  destruct (Ascii.eqb c x) eqn:E; [discriminate|]. simpl. intros Hs.
  destruct (Ascii.eqb x d).
  - rewrite has_char_append, Hby. auto.
  - unfold has_char. simpl. rewrite E. apply IH, Hs.
Qed.

Lemma lstrip_keeps (c : ascii) (s : string) :
  has_char c s = false -> has_char c (PyStr.lstrip s) = false.
Proof.
  induction s as [|x s IH]; simpl; [auto|].
  destruct (PyStr.is_space x); [|auto].
  unfold has_char at 1. simpl. fold (has_char c s).
  intros H. apply orb_false_iff in H. now apply IH.
Qed.

Lemma rstrip_keeps (c : ascii) (s : string) :
  has_char c s = false -> has_char c (PyStr.rstrip s) = false.
Proof.
  induction s as [|x s IH]; simpl; [auto|].
  unfold has_char at 1. simpl. fold (has_char c s).
  intros H. apply orb_false_iff in H. destruct H as [Hx Hs].
  specialize (IH Hs).
  destruct (PyStr.rstrip s) as [|y r].
  - destruct (PyStr.is_space x); [reflexivity|].
    unfold has_char. simpl. now rewrite Hx.
  - unfold has_char in *. simpl in *. now rewrite Hx.
Qed.

(** X5. The name made from a capture tag holds neither a colon nor a
    space, whatever text the tag carries. *)
Theorem date_taken_has_no_colon_nor_space (date_taken : string) :
  has_char ":" (DateName.reshape_date_taken date_taken) = false /\
  has_char " " (DateName.reshape_date_taken date_taken) = false.
Proof.
  unfold DateName.reshape_date_taken, PyStr.strip. split.
  - apply replace_keeps; [reflexivity|].
    apply rstrip_keeps, lstrip_keeps. now apply replace_removes.
  - now apply replace_removes.
Qed.

Lemma append_assoc (a b c : string) : (a ++ b) ++ c = a ++ b ++ c.
Proof. induction a as [|x a IH]; simpl; congruence. Qed.

Lemma replace_append (c : ascii) (by_ a b : string) :
  PyStr.replace_char c by_ (a ++ b) =
  PyStr.replace_char c by_ a ++ PyStr.replace_char c by_ b.
Proof.
  induction a as [|x a IH]; simpl; [reflexivity|].
  destruct (Ascii.eqb x c); rewrite IH; [now rewrite append_assoc|reflexivity].
Qed.

Lemma replace_absent (c : ascii) (by_ : string) (s : string) :
  has_char c s = false -> PyStr.replace_char c by_ s = s.
Proof.
  induction s as [|x s IH]; simpl; [reflexivity|].
  unfold has_char. simpl. fold (has_char c s).
  rewrite Ascii.eqb_sym. destruct (Ascii.eqb x c); [discriminate|].
  simpl. intros H. now rewrite IH.
Qed.

Lemma tag_field_append (a b : string) :
  tag_field (a ++ b) = tag_field a && tag_field b.
Proof. unfold tag_field. now rewrite list_ascii_append, forallb_app. Qed.

Lemma tag_field_chars (s : string) :
  tag_field s = true ->
  has_char ":" s = false /\ has_char " " s = false /\
  PyStr.lstrip s = s /\ PyStr.rstrip s = s.
Proof.
  unfold tag_field, has_char.
  induction s as [|x s IH];
    cbn [list_ascii_of_string forallb existsb PyStr.lstrip PyStr.rstrip];
    [auto|].
  rewrite !andb_true_iff, !negb_true_iff. intros [[Hc Hs] Hrest].
  destruct (IH Hrest) as (H1 & H2 & H3 & H4).
  assert (Hsp : Ascii.eqb " " x = false).
  { destruct (Ascii.eqb " " x) eqn:E; [|reflexivity].
    apply Ascii.eqb_eq in E. subst x. discriminate Hs. }
  rewrite Hs, H4, (Ascii.eqb_sym ":" x), Hc, H1, Hsp, H2.
  repeat split. now destruct s.
Qed.

Lemma rstrip_append (a b : string) :
  b <> EmptyString -> PyStr.rstrip b = b -> PyStr.rstrip (a ++ b) = a ++ b.
Proof.
  intros Hb Hr. induction a as [|x a IH]; simpl; [exact Hr|].
  rewrite IH. destruct (a ++ b) eqn:E; [|reflexivity].
  destruct a; [simpl in E; contradiction|discriminate E].
Qed.

(** X6. A capture tag of the usual shape, date fields joined by colons, a
    space, time fields joined by colons, becomes the fields run together
    with an underscore between date and time: the shape of the names made
    from the file system's timestamps. *)
Theorem date_taken_of_standard_tag (year month day hour minute second : string) :
  tag_field year = true -> tag_field month = true -> tag_field day = true ->
  tag_field hour = true -> tag_field minute = true -> tag_field second = true ->
  year <> EmptyString -> second <> EmptyString ->
  DateName.reshape_date_taken
    (year ++ ":" ++ month ++ ":" ++ day ++ " " ++
     hour ++ ":" ++ minute ++ ":" ++ second) =
  year ++ month ++ day ++ "_" ++ hour ++ minute ++ second.
Proof.
  intros Hy Hmo Hd Hh Hmi Hs Hyne Hsne.
  destruct (tag_field_chars _ Hy) as (Hy1 & Hy2 & _).
  destruct (tag_field_chars _ Hmo) as (Hmo1 & Hmo2 & _).
  destruct (tag_field_chars _ Hd) as (Hd1 & Hd2 & _).
  destruct (tag_field_chars _ Hh) as (Hh1 & Hh2 & _).
  destruct (tag_field_chars _ Hmi) as (Hmi1 & Hmi2 & _).
  destruct (tag_field_chars _ Hs) as (Hs1 & Hs2 & _).
  unfold DateName.reshape_date_taken.
  assert (Hcolons :
    PyStr.replace_char ":" EmptyString
      (year ++ ":" ++ month ++ ":" ++ day ++ " " ++
       hour ++ ":" ++ minute ++ ":" ++ second) =
    (year ++ month ++ day) ++ " " ++ (hour ++ minute ++ second)).
  { rewrite !replace_append.
    rewrite (replace_absent ":" EmptyString year Hy1),
      (replace_absent ":" EmptyString month Hmo1),
      (replace_absent ":" EmptyString day Hd1),
      (replace_absent ":" EmptyString hour Hh1),
      (replace_absent ":" EmptyString minute Hmi1),
      (replace_absent ":" EmptyString second Hs1).
    cbn [PyStr.replace_char Ascii.eqb Bool.eqb String.append].
    now rewrite !append_assoc. }
  rewrite Hcolons.
  assert (Hdate : tag_field (year ++ month ++ day) = true)
    by now rewrite !tag_field_append, Hy, Hmo, Hd.
  assert (Htime : tag_field (hour ++ minute ++ second) = true)
    by now rewrite !tag_field_append, Hh, Hmi, Hs.
  destruct (tag_field_chars _ Hdate) as (_ & Hdate2 & _).
  destruct (tag_field_chars _ Htime) as (_ & Htime2 & _ & Htime4).
  assert (Hstrip :
    PyStr.strip ((year ++ month ++ day) ++ " " ++ (hour ++ minute ++ second)) =
    (year ++ month ++ day) ++ " " ++ (hour ++ minute ++ second)).
  { unfold PyStr.strip.
    assert (Hl : PyStr.lstrip ((year ++ month ++ day) ++ " " ++
                               (hour ++ minute ++ second)) =
                 (year ++ month ++ day) ++ " " ++ (hour ++ minute ++ second)).
    { destruct year as [|c year]; [contradiction|]. simpl.
      unfold tag_field in Hy. simpl in Hy.
      rewrite !andb_true_iff, !negb_true_iff in Hy.
      destruct Hy as [[_ Hc] _]. now rewrite Hc. }
    rewrite Hl, <- append_assoc. apply rstrip_append; [|exact Htime4].
    intros H. apply (f_equal String.length) in H.
    rewrite !append_length in H. destruct second; [contradiction|].
    simpl in H. lia. }
  rewrite Hstrip, !replace_append.
  rewrite (replace_absent " " "_" year Hy2),
    (replace_absent " " "_" month Hmo2),
    (replace_absent " " "_" day Hd2),
    (replace_absent " " "_" hour Hh2),
    (replace_absent " " "_" minute Hmi2),
    (replace_absent " " "_" second Hs2).
  cbn [PyStr.replace_char Ascii.eqb Bool.eqb String.append].
  now rewrite !append_assoc.
Qed.

Lemma date_taken_of_standard_tag_witness :
  DateName.reshape_date_taken "2021:05:01 10:00:00" = "20210501_100000".
Proof.
  exact (date_taken_of_standard_tag "2021" "05" "01" "10" "00" "00"
           eq_refl eq_refl eq_refl eq_refl eq_refl eq_refl
           ltac:(discriminate) ltac:(discriminate)).
Defined.

(** ** What [get_new_name] does to the state *)

(** X7. [get_new_name] either returns or raises, and in both cases hands
    back the world and the renamer exactly as it found them: deriving a
    name writes nothing, prints nothing and records nothing. *)
Theorem get_new_name_leaves_state {FS : Type} {os : OS FS}
    (file_name : string) (s : St FS FileRenamer.t) :
  (exists r, PictureRenamer.get_new_name file_name s = Returned r s) \/
  (exists e, PictureRenamer.get_new_name file_name s = Raised e s).
Proof.
  assert (Hread : reads_only (FS := FS) (O := FileRenamer.t)
                    (PictureRenamer.get_new_name file_name)).
  { apply reads_only_bind; [apply reads_only_init|].
    intros; apply reads_only_ret. }
  destruct (Hread (w_fs (fst s))) as [[e|r] Hr]; rewrite (Hr s eq_refl); eauto.
Qed.

(** X8. A listed file whose creation time cannot be read, as when it has
    gone since the listing, ends the batch: the error leaves
    [process_files] at that file, after its progress line, with nothing
    recorded for it nor for the files after it. *)
Theorem unreadable_file_ends_batch {FS : Type} {os : OS FS}
    (fuel : nat) (name : string) (rest : list string)
    (w : World FS) (self : FileRenamer.t) (e : exn) :
  PyStr.mem (PyStr.lower (get_file_extension name)) MEDIA_EXTENSIONS = true ->
  getctime (w_fs w) (path_join (FileRenamer.path self) name) = inl e ->
  for_each (name :: rest) (PictureRenamer.process_file fuel) (w, self) =
    Raised e (printed w ("file_name " ++ name), self).
Proof.
  intros Hext Herr. cbn [for_each]. unfold bind at 1.
  unfold PictureRenamer.process_file, FileRenamer.process_file,
    PictureRenamer.accepted_extensions.
  run. rewrite Hext. cbn [negb].
  unfold PictureRenamer.get_new_name, DateName.init, DateName.determine_name,
    DateName.get_date_created.
  run. cbn [DateName.file_name]. now rewrite Herr.
Qed.

Lemma unreadable_file_ends_batch_witness :
  let w := Sim.world Demo.pics [] in
  let self := Demo.renamer_of Demo.pics in
  PyStr.mem (PyStr.lower (get_file_extension "gone.jpg")) MEDIA_EXTENSIONS = true /\
  getctime (w_fs w) (path_join (FileRenamer.path self) "gone.jpg") =
    inl (Sim.file_not_found (Sim.quoted "C:\pics\gone.jpg")) /\
  for_each ["gone.jpg"; "photo1.jpg"] (PictureRenamer.process_file 1) (w, self) =
    Raised (Sim.file_not_found (Sim.quoted "C:\pics\gone.jpg"))
      (printed w "file_name gone.jpg", self).
Proof.
  intros w self. split; [reflexivity|]. split; [reflexivity|].
  exact (unreadable_file_ends_batch 1 "gone.jpg" ["photo1.jpg"] w self _
           eq_refl eq_refl).
Defined.

(** ** How the renamer's loop ends *)

(** [k] collisions in a row, none at the file's own name, take the loop
    from candidate [j] to candidate [j + k] with the state untouched. *)
Lemma rename_loop_advance {FS : Type} {os : OS FS}
    (file_name new_name ext : string) (s : St FS FileRenamer.t) (k : nat) :
  forall (j fuel : nat),
  (forall i, j <= i < j + k ->
     PictureRenamer.candidate new_name ext i <> file_name /\
     exists strerror text,
       rename (w_fs (fst s)) file_name (PictureRenamer.candidate new_name ext i) =
         inl (WindowsError strerror text)) ->
  PictureRenamer.rename_loop (k + fuel) file_name new_name ext
    (PictureRenamer.candidate new_name ext j) j s =
  PictureRenamer.rename_loop fuel file_name new_name ext
    (PictureRenamer.candidate new_name ext (j + k)) (j + k) s.
Proof.
  induction k as [|k IH]; intros j fuel Hcoll.
  - now rewrite Nat.add_0_r.
  - destruct (Hcoll j ltac:(lia)) as [Hne (strerror & text & Hren)].
    apply String.eqb_neq in Hne.
    cbn [Nat.add PictureRenamer.rename_loop]. rewrite Hne. run. rewrite Hren.
    rewrite <- Nat.add_succ_comm. apply (IH (S j)).
    intros i Hi. apply Hcoll. lia.
Qed.

(** X9. When the first [k] candidates collide and the host then carries
    out the rename to candidate [k], the file bears that name: the progress
    line names it, [successfully_renamed] gains the pair of old and new
    name, and no other list changes. *)
Theorem renamed_after_collisions {FS : Type} {os : OS FS}
    (k fuel : nat) (file_name new_name ext : string)
    (w : World FS) (self : FileRenamer.t) (fs' : FS) :
  let target := PictureRenamer.candidate new_name ext k in
  (forall i, i < k ->
     PictureRenamer.candidate new_name ext i <> file_name /\
     exists strerror text,
       rename (w_fs w) file_name (PictureRenamer.candidate new_name ext i) =
         inl (WindowsError strerror text)) ->
  target <> file_name ->
  rename (w_fs w) file_name target = inr fs' ->
  let entry :=
    PyStr.dquote ++ file_name ++ PyStr.dquote ++ " renamed " ++
    PyStr.dquote ++ target ++ PyStr.dquote in
  let self' := FileRenamer.append FileRenamer.SuccessfullyRenamed entry self in
  PictureRenamer.rename_file (S k + fuel) file_name new_name ext (w, self) =
    Returned tt (printed (with_fs w fs') ("new name " ++ target), self') /\
  FileRenamer.successfully_renamed self' =
    (FileRenamer.successfully_renamed self ++ [entry])%list /\
  FileRenamer.skipped_new_name_matches_old self' =
    FileRenamer.skipped_new_name_matches_old self /\
  FileRenamer.failed_to_rename self' = FileRenamer.failed_to_rename self /\
  FileRenamer.skipped_different_extension self' =
    FileRenamer.skipped_different_extension self.
Proof.
  intros target Hcoll Hne Hren entry self'. split; [|repeat split].
  unfold PictureRenamer.rename_file.
  change (PyStr.join EmptyString [new_name; ext])
    with (PictureRenamer.candidate new_name ext 0).
  replace (S k + fuel) with (k + S fuel) by lia.
  rewrite (rename_loop_advance file_name new_name ext (w, self) k 0 (S fuel))
    by (intros i Hi; apply Hcoll; lia).
  apply String.eqb_neq in Hne.
  cbn [Nat.add PictureRenamer.rename_loop]. fold target. rewrite Hne. run.
  now rewrite Hren.
Qed.

Lemma renamed_after_collisions_witness :
  let w := Sim.world Demo.clash [] in
  let self := Demo.renamer_of Demo.clash in
  let file_name := "C:\pics\copy.jpg" in
  let new_name := "C:\pics\20210501_100000" in
  rename (w_fs w) file_name "C:\pics\20210501_100000.jpg" =
    inl (Sim.already_exists
           (Sim.quoted file_name ++ " -> " ++
            Sim.quoted "C:\pics\20210501_100000.jpg")) /\
  exists fs',
    rename (w_fs w) file_name "C:\pics\20210501_100000_1.jpg" = inr fs' /\
    exists self',
      PictureRenamer.rename_file 2 file_name new_name ".jpg" (w, self) =
        Returned tt
          (printed (with_fs w fs') "new name C:\pics\20210501_100000_1.jpg",
           self') /\
      FileRenamer.successfully_renamed self' =
        [PictureRenamer.renamed_entry file_name
           "C:\pics\20210501_100000_1.jpg"] /\
      FileRenamer.failed_to_rename self' = [].
Proof.
  intros w self file_name new_name. split; [reflexivity|].
  eexists. split; [reflexivity|].
  assert (Hcoll : forall i, i < 1 ->
            PictureRenamer.candidate new_name ".jpg" i <> file_name /\
            exists strerror text,
              rename (w_fs w) file_name
                (PictureRenamer.candidate new_name ".jpg" i) =
                inl (WindowsError strerror text)).
  { intros i Hi. assert (i = 0) as -> by lia.
    split; [vm_compute; discriminate|]. eexists; eexists; reflexivity. }
  assert (Hne : PictureRenamer.candidate new_name ".jpg" 1 <> file_name)
    by (vm_compute; discriminate).
  destruct (renamed_after_collisions 1 0 file_name new_name ".jpg" w self _
              Hcoll Hne eq_refl) as (Hrun & Hrenamed & _ & Hfailed & _).
  eexists. split; [exact Hrun|]. split; [exact Hrenamed|exact Hfailed].
Defined.

(** X10. A [TypeError] of the rename, at whatever attempt, ends the loop
    with the file in [failed_to_rename], the entry naming the file and
    carrying the error's text; the world is left as it was. *)
Theorem type_error_is_recorded {FS : Type} {os : OS FS}
    (k fuel : nat) (file_name new_name ext text : string)
    (w : World FS) (self : FileRenamer.t) :
  let target := PictureRenamer.candidate new_name ext k in
  (forall i, i < k ->
     PictureRenamer.candidate new_name ext i <> file_name /\
     exists strerror text',
       rename (w_fs w) file_name (PictureRenamer.candidate new_name ext i) =
         inl (WindowsError strerror text')) ->
  target <> file_name ->
  rename (w_fs w) file_name target = inl (TypeError text) ->
  let entry := "Failed to rename " ++ file_name ++ ". Reason: " ++ text in
  let self' := FileRenamer.append FileRenamer.FailedToRename entry self in
  PictureRenamer.rename_file (S k + fuel) file_name new_name ext (w, self) =
    Returned tt (w, self') /\
  FileRenamer.failed_to_rename self' =
    (FileRenamer.failed_to_rename self ++ [entry])%list /\
  FileRenamer.successfully_renamed self' = FileRenamer.successfully_renamed self /\
  FileRenamer.skipped_new_name_matches_old self' =
    FileRenamer.skipped_new_name_matches_old self /\
  FileRenamer.skipped_different_extension self' =
    FileRenamer.skipped_different_extension self.
Proof.
  intros target Hcoll Hne Hren entry self'. split; [|repeat split].
  unfold PictureRenamer.rename_file.
  change (PyStr.join EmptyString [new_name; ext])
    with (PictureRenamer.candidate new_name ext 0).
  replace (S k + fuel) with (k + S fuel) by lia.
  rewrite (rename_loop_advance file_name new_name ext (w, self) k 0 (S fuel))
    by (intros i Hi; apply Hcoll; lia).
  apply String.eqb_neq in Hne.
  cbn [Nat.add PictureRenamer.rename_loop]. fold target. rewrite Hne. run.
  now rewrite Hren.
Qed.

Lemma type_error_is_recorded_witness :
  let os := Stub.host ["a.jpg"; "b.jpg"] Stub.not_a_path Stub.not_a_path in
  PictureRenamer.candidate "C:\pics\20210501_100000" ".jpg" 0 <> "C:\pics\a.jpg" /\
  exists self',
    PictureRenamer.rename_file (os := os) 1 "C:\pics\a.jpg"
      "C:\pics\20210501_100000" ".jpg" (Stub.world, Stub.renamer) =
      Returned tt (Stub.world, self') /\
    FileRenamer.failed_to_rename self' =
      ["Failed to rename C:\pics\a.jpg. Reason: " ++ exn_text Stub.not_a_path] /\
    FileRenamer.successfully_renamed self' = [].
Proof.
  intros os.
  assert (Hne : PictureRenamer.candidate "C:\pics\20210501_100000" ".jpg" 0
                <> "C:\pics\a.jpg") by (vm_compute; discriminate).
  split; [exact Hne|].
  assert (Hcoll : forall i, i < 0 ->
            PictureRenamer.candidate "C:\pics\20210501_100000" ".jpg" i
              <> "C:\pics\a.jpg" /\
            exists strerror text',
              rename (OS := os) (w_fs Stub.world) "C:\pics\a.jpg"
                (PictureRenamer.candidate "C:\pics\20210501_100000" ".jpg" i) =
                inl (WindowsError strerror text')) by (intros i Hi; lia).
  destruct (type_error_is_recorded (os := os) 0 0 "C:\pics\a.jpg"
              "C:\pics\20210501_100000" ".jpg" _ Stub.world Stub.renamer
              Hcoll Hne eq_refl) as (Hrun & Hfailed & Hrenamed & _).
  eexists. split; [exact Hrun|]. split; [exact Hfailed|exact Hrenamed].
Defined.

(** X11. An exception of the rename that is neither a [WindowsError] nor a
    [TypeError] is not caught: it leaves [process_files] at that file, with
    nothing recorded for it nor for the files after it. *)
Theorem other_exception_ends_batch {FS : Type} {os : OS FS}
    (fuel : nat) (name derived : string) (rest : list string)
    (w : World FS) (self : FileRenamer.t) (e : exn) :
  let file_name := path_join (FileRenamer.path self) name in
  let ext := get_file_extension name in
  let target := path_join (FileRenamer.path self) derived ++ ext in
  PyStr.mem (PyStr.lower ext) MEDIA_EXTENSIONS = true ->
  PictureRenamer.get_new_name file_name (w, self) =
    Returned (Some derived) (w, self) ->
  target <> file_name ->
  rename (w_fs w) file_name target = inl e ->
  uncaught_by_renamer e = true ->
  for_each (name :: rest) (PictureRenamer.process_file (S fuel)) (w, self) =
    Raised e (printed w ("file_name " ++ name), self).
Proof.
  intros file_name ext target Hext Hname Hne Hren He.
  cbn [for_each]. unfold bind at 1.
  unfold PictureRenamer.process_file, FileRenamer.process_file,
    PictureRenamer.accepted_extensions.
  run. fold ext file_name. rewrite Hext. cbn [negb].
  pose proof (get_new_name_reads_only file_name (Some derived) (w, self)
                (printed w ("file_name " ++ name), self) eq_refl Hname) as Hn.
  unfold printed in Hn. step Hn.
  unfold PictureRenamer.rename_file. cbn [PictureRenamer.rename_loop snd].
  change (PyStr.join EmptyString
            [path_join (FileRenamer.path self) derived; ext]) with target.
  apply String.eqb_neq in Hne. rewrite Hne. run. rewrite Hren.
  destruct e; try discriminate He; reflexivity.
Qed.

Lemma other_exception_ends_batch_witness :
  let os := Stub.host ["a.jpg"; "b.jpg"] Stub.null_character Stub.null_character in
  PictureRenamer.get_new_name (os := os) "C:\pics\a.jpg" (Stub.world, Stub.renamer) =
    Returned (Some "20210501_100000") (Stub.world, Stub.renamer) /\
  for_each ["a.jpg"; "b.jpg"] (PictureRenamer.process_file (os := os) 1)
    (Stub.world, Stub.renamer) =
    Raised Stub.null_character (printed Stub.world "file_name a.jpg", Stub.renamer).
Proof.
  intros os.
  assert (Hname : PictureRenamer.get_new_name (os := os) "C:\pics\a.jpg"
                    (Stub.world, Stub.renamer) =
                  Returned (Some "20210501_100000") (Stub.world, Stub.renamer))
    by (vm_compute; reflexivity).
  split; [exact Hname|].
  refine (other_exception_ends_batch (os := os) 0 "a.jpg" "20210501_100000"
            ["b.jpg"] Stub.world Stub.renamer Stub.null_character
            eq_refl Hname _ eq_refl eq_refl).
  vm_compute. discriminate.
Defined.

(** ** How the sorter's loop goes on and ends *)

(** [k] collisions in a row take the loop from destination [j] to
    destination [j + k] with the state untouched. *)
Lemma move_loop_advance {FS : Type} {os : OS FS}
    (file_name : string) (w : World FS) (self : FileSorter.t) (k : nat) :
  let current := PictureSorter.current_file_path self file_name in
  forall (j fuel : nat),
  (forall i, j <= i < j + k ->
     exists strerror text,
       rename (w_fs w) current (move_candidate self file_name i) =
         inl (WindowsError strerror text) /\
       PyStr.contains "file already exists" strerror = true) ->
  PictureSorter.move_loop (k + fuel) file_name (PictureSorter.sort_key file_name)
    current (move_candidate self file_name j) j (w, self) =
  PictureSorter.move_loop fuel file_name (PictureSorter.sort_key file_name)
    current (move_candidate self file_name (j + k)) (j + k) (w, self).
Proof.
  intros current. induction k as [|k IH]; intros j fuel Hcoll.
  - now rewrite Nat.add_0_r.
  - destruct (Hcoll j ltac:(lia)) as (strerror & text & Hren & Hexists).
    cbn [Nat.add PictureSorter.move_loop]. run. rewrite Hren, Hexists.
    rewrite <- Nat.add_succ_comm.
    rewrite <- (IH (S j) fuel) by (intros i Hi; apply Hcoll; lia).
    unfold move_candidate. cbn [snd].
    now destruct (NtPath.splitext file_name).
Qed.

(** X12. When the first [k] destinations are taken and the host then
    carries out the move to destination [k], which is the file's name with
    [_k] before its extension in the folder of its prefix, the file is
    recorded in [successfully_moved] with that destination, the progress
    line names it, and no other list changes. *)
Theorem moved_after_collisions {FS : Type} {os : OS FS}
    (k fuel : nat) (file_name : string)
    (w : World FS) (self : FileSorter.t) (fs' : FS) :
  let current := PictureSorter.current_file_path self file_name in
  let target := move_candidate self file_name k in
  (forall i, i < k ->
     exists strerror text,
       rename (w_fs w) current (move_candidate self file_name i) =
         inl (WindowsError strerror text) /\
       PyStr.contains "file already exists" strerror = true) ->
  rename (w_fs w) current target = inr fs' ->
  let entry :=
    PyStr.dquote ++ current ++ PyStr.dquote ++ " moved to " ++
    PyStr.dquote ++ target ++ PyStr.dquote ++ "." in
  let self' := FileSorter.append FileSorter.SuccessfullyMoved entry self in
  PictureSorter.move_file (S k + fuel) file_name (w, self) =
    Returned tt (printed (with_fs w fs') ("new path " ++ target), self') /\
  FileSorter.successfully_moved self' =
    (FileSorter.successfully_moved self ++ [entry])%list /\
  FileSorter.failed_to_move self' = FileSorter.failed_to_move self /\
  FileSorter.skipped_different_extension self' =
    FileSorter.skipped_different_extension self /\
  (0 < k ->
   target =
     FileSorter.base_path self ++ PyStr.backslash ++
     PictureSorter.sort_key file_name ++ PyStr.backslash ++
     fst (NtPath.splitext file_name) ++ "_" ++ PyStr.of_nat k ++
     get_file_extension file_name).
Proof.
  intros current target Hcoll Hren entry self'.
  split; [|split; [reflexivity|split; [reflexivity|split; [reflexivity|]]]].
  - unfold PictureSorter.move_file. run.
    change (PictureSorter.new_file_path self file_name)
      with (move_candidate self file_name 0).
    fold current.
    replace (S k + fuel) with (k + S fuel) by lia.
    rewrite (move_loop_advance file_name w self k 0 (S fuel))
      by (intros i Hi; apply Hcoll; lia).
    cbn [Nat.add PictureSorter.move_loop]. fold target current. run.
    now rewrite Hren.
  - intros Hk. unfold target, move_candidate, get_file_extension.
    destruct k; [lia|].
    now destruct (NtPath.splitext file_name).
Qed.

Lemma moved_after_collisions_witness :
  let w := Sim.world Demo.taken [] in
  let self := Demo.sorter_of Demo.taken in
  let current := "C:\pics\20210501_100000.jpg" in
  rename (w_fs w) current "C:\sorted\2021\20210501_100000.jpg" =
    inl (Sim.already_exists
           (Sim.quoted current ++ " -> " ++
            Sim.quoted "C:\sorted\2021\20210501_100000.jpg")) /\
  exists fs',
    rename (w_fs w) current "C:\sorted\2021\20210501_100000_1.jpg" = inr fs' /\
    exists self',
      PictureSorter.move_file 2 "20210501_100000.jpg" (w, self) =
        Returned tt
          (printed (with_fs w fs')
             "new path C:\sorted\2021\20210501_100000_1.jpg", self') /\
      FileSorter.successfully_moved self' =
        [PictureSorter.moved_entry current
           "C:\sorted\2021\20210501_100000_1.jpg"] /\
      FileSorter.failed_to_move self' = [].
Proof.
  intros w self current. split; [reflexivity|].
  eexists. split; [reflexivity|].
  assert (Hcoll : forall i, i < 1 ->
            exists strerror text,
              rename (w_fs w) (PictureSorter.current_file_path self
                                 "20210501_100000.jpg")
                (move_candidate self "20210501_100000.jpg" i) =
                inl (WindowsError strerror text) /\
              PyStr.contains "file already exists" strerror = true).
  { intros i Hi. assert (i = 0) as -> by lia.
    eexists; eexists. split; reflexivity. }
  destruct (moved_after_collisions 1 0 "20210501_100000.jpg" w self _
              Hcoll eq_refl) as (Hrun & Hmoved & Hfailed & _).
  eexists. split; [exact Hrun|]. split; [exact Hmoved|exact Hfailed].
Defined.

(** X13. When the move fails because a path cannot be found, the sorter
    creates the folder of the file's prefix under the base path and tries
    the same destination again, the collision counter unchanged; when the
    host then carries out the move the file is recorded as moved there. *)
Theorem missing_folder_is_created {FS : Type} {os : OS FS}
    (fuel : nat) (file_name : string) (w : World FS) (self : FileSorter.t)
    (strerror text : string) (fs1 fs2 : FS) :
  let current := PictureSorter.current_file_path self file_name in
  let target := PictureSorter.new_file_path self file_name in
  rename (w_fs w) current target = inl (WindowsError strerror text) ->
  PyStr.contains "file already exists" strerror = false ->
  PyStr.contains "cannot find the path" strerror = true ->
  mkdir (w_fs w)
    (FileSorter.base_path self ++ PyStr.backslash ++
     PictureSorter.sort_key file_name) = inr fs1 ->
  PictureSorter.move_file (S fuel) file_name (w, self) =
    PictureSorter.move_loop fuel file_name (PictureSorter.sort_key file_name)
      current target 0 (with_fs w fs1, self) /\
  (rename fs1 current target = inr fs2 ->
   PictureSorter.move_file (S (S fuel)) file_name (w, self) =
     Returned tt
       (printed (with_fs w fs2) ("new path " ++ target),
        FileSorter.append FileSorter.SuccessfullyMoved
          (PictureSorter.moved_entry current target) self)).
Proof.
  intros current target Hren Hexists Hpath Hmk.
  assert (Hstep : forall fuel',
            PictureSorter.move_file (S fuel') file_name (w, self) =
            PictureSorter.move_loop fuel' file_name
              (PictureSorter.sort_key file_name) current target 0
              (with_fs w fs1, self)).
  { intros fuel'. unfold PictureSorter.move_file. run.
    cbn [PictureSorter.move_loop]. fold current target. run.
    rewrite Hren, Hexists, Hpath. cbn [fst snd w_fs w_stdin w_stdout].
    change (PyStr.join PyStr.backslash
              [FileSorter.base_path self; PictureSorter.sort_key file_name])
      with (FileSorter.base_path self ++ PyStr.backslash ++
            PictureSorter.sort_key file_name).
    now rewrite Hmk. }
  split; [apply Hstep|].
  intros Hren2. rewrite Hstep. cbn [PictureSorter.move_loop]. run.
  now rewrite Hren2.
Qed.

Lemma missing_folder_is_created_witness :
  let w := Sim.world Demo.pics_renamed [] in
  let self := Demo.sorter_of Demo.pics_renamed in
  let current := "C:\pics\20210501_100000.jpg" in
  let target := "C:\sorted\2021\20210501_100000.jpg" in
  rename (w_fs w) current target =
    inl (Sim.path_not_found (Sim.quoted current ++ " -> " ++ Sim.quoted target)) /\
  exists fs1 fs2,
    mkdir (w_fs w) "C:\sorted\2021" = inr fs1 /\
    rename fs1 current target = inr fs2 /\
    PictureSorter.move_file 2 "20210501_100000.jpg" (w, self) =
      Returned tt
        (printed (with_fs w fs2) ("new path " ++ target),
         FileSorter.append FileSorter.SuccessfullyMoved
           (PictureSorter.moved_entry current target) self).
Proof.
  intros w self current target. split; [reflexivity|].
  eexists; eexists. split; [reflexivity|]. split; [reflexivity|].
  refine (proj2 (missing_folder_is_created 0 "20210501_100000.jpg" w self _ _
                   _ _ eq_refl eq_refl eq_refl eq_refl) eq_refl).
Defined.

(** X14. When the folder cannot be created the error of [mkdir] is not
    caught: it leaves [process_files] at that file, with nothing recorded
    for it nor for the files after it. *)
Theorem mkdir_error_ends_batch {FS : Type} {os : OS FS}
    (fuel : nat) (file_name : string) (rest : list string)
    (w : World FS) (self : FileSorter.t) (strerror text : string) (e : exn) :
  PyStr.mem (PyStr.lower (get_file_extension file_name)) MEDIA_EXTENSIONS = true ->
  rename (w_fs w) (PictureSorter.current_file_path self file_name)
    (PictureSorter.new_file_path self file_name) =
    inl (WindowsError strerror text) ->
  PyStr.contains "file already exists" strerror = false ->
  PyStr.contains "cannot find the path" strerror = true ->
  mkdir (w_fs w) (new_dir self file_name) = inl e ->
  for_each (file_name :: rest) (PictureSorter.process_file (S fuel)) (w, self) =
    Raised e (printed w ("file_name " ++ file_name), self).
Proof.
  intros Hext Hren Hexists Hpath Hmk.
  cbn [for_each]. unfold bind at 1.
  unfold PictureSorter.process_file, FileSorter.process_file,
    PictureSorter.accepted_extensions.
  run. rewrite Hext. cbn [negb].
  unfold PictureSorter.move_file. run. cbn [PictureSorter.move_loop]. run.
  rewrite Hren, Hexists, Hpath. cbn [fst snd w_fs w_stdin w_stdout].
  fold (new_dir self file_name). now rewrite Hmk.
Qed.

Lemma mkdir_error_ends_batch_witness :
  let os := Stub.host ["a.jpg"; "b.jpg"] Stub.no_such_path Stub.access_denied in
  for_each ["a.jpg"; "b.jpg"] (PictureSorter.process_file (os := os) 1)
    (Stub.world, Stub.sorter) =
    Raised Stub.access_denied (printed Stub.world "file_name a.jpg", Stub.sorter).
Proof.
  intros os.
  exact (mkdir_error_ends_batch (os := os) 0 "a.jpg" ["b.jpg"] Stub.world
           Stub.sorter _ _ Stub.access_denied
           eq_refl eq_refl eq_refl eq_refl eq_refl).
Defined.

(** X15. The sorter catches [WindowsError] alone: any other exception of
    the move, a [TypeError] included, leaves the loop at once with nothing
    recorded. *)
Theorem move_exception_is_not_caught {FS : Type} {os : OS FS}
    (fuel : nat) (file_name key current new_file_path : string)
    (unique_num : nat) (s : St FS FileSorter.t) (e : exn) :
  rename (w_fs (fst s)) current new_file_path = inl e ->
  not_windows_error e = true ->
  PictureSorter.move_loop (S fuel) file_name key current new_file_path
    unique_num s = Raised e s.
Proof.
  intros Hren He. cbn [PictureSorter.move_loop]. run. rewrite Hren.
  destruct e; try discriminate He; reflexivity.
Qed.

Lemma move_exception_is_not_caught_witness :
  let os := Stub.host ["a.jpg"; "b.jpg"] Stub.not_a_path Stub.not_a_path in
  PictureSorter.move_loop (os := os) 1 "a.jpg" "a.jp" "C:\pics\a.jpg"
    "C:\sorted\a.jp\a.jpg" 0 (Stub.world, Stub.sorter) =
    Raised Stub.not_a_path (Stub.world, Stub.sorter).
Proof.
  intros os.
  exact (move_exception_is_not_caught (os := os) 0 "a.jpg" "a.jp"
           "C:\pics\a.jpg" "C:\sorted\a.jp\a.jpg" 0 (Stub.world, Stub.sorter)
           Stub.not_a_path eq_refl eq_refl).
Defined.

(** ** The listing, further *)

(** X16. On a directory that lists as empty either program returns at
    once: it reads nothing from the operator, calls no hook, leaves the
    file system alone and prints the report with every count at zero. *)
Theorem empty_directory_run {FS : Type} {os : OS FS}
    (fuel : nat) (w : World FS) (input_path : option string)
    (sorter_path base_path : string) :
  let renamer := FileRenamer.fresh (w_fs w) input_path in
  let sorter := FileSorter.fresh sorter_path base_path in
  listdir (w_fs w) (FileRenamer.path renamer) = inr [] ->
  listdir (w_fs w) sorter_path = inr [] ->
  PictureRenamer.init (S fuel) input_path w =
    Returned tt
      (Build_World (w_fs w) (w_stdin w) (w_stdout w ++ FileRenamer.empty_report),
       renamer) /\
  PictureSorter.init (S fuel) sorter_path base_path w =
    Returned tt
      (Build_World (w_fs w) (w_stdin w) (w_stdout w ++ FileSorter.empty_report),
       sorter).
Proof.
  intros renamer sorter Hr Hs. split.
  - unfold PictureRenamer.init, FileRenamer.init. fold renamer.
    cbn [FileRenamer.get_files]. run. rewrite Hr.
    cbn [fst snd w_fs w_stdin w_stdout FileRenamer.files FileRenamer.set_files].
    unfold FileRenamer.print_report. run.
    rewrite <- !app_assoc. reflexivity.
  - unfold PictureSorter.init, FileSorter.init. fold sorter.
    cbn [FileSorter.get_files]. run.
    change (FileSorter.input_path sorter) with sorter_path. rewrite Hs.
    cbn [fst snd w_fs w_stdin w_stdout FileSorter.files FileSorter.set_files].
    unfold FileSorter.print_report. run.
    rewrite <- !app_assoc. reflexivity.
Qed.

Lemma empty_directory_run_witness :
  let w := Sim.world Demo.pics ["unread"] in
  listdir (w_fs w) Demo.sorted_dir = inr [] /\
  PictureRenamer.init 1 (Some Demo.sorted_dir) w =
    Returned tt
      (Build_World Demo.pics ["unread"] FileRenamer.empty_report,
       FileRenamer.fresh Demo.pics (Some Demo.sorted_dir)) /\
  PictureSorter.init 1 Demo.sorted_dir Demo.pics_dir w =
    Returned tt
      (Build_World Demo.pics ["unread"] FileSorter.empty_report,
       FileSorter.fresh Demo.sorted_dir Demo.pics_dir).
Proof.
  intros w. split; [reflexivity|].
  exact (empty_directory_run 0 w (Some Demo.sorted_dir) Demo.sorted_dir
           Demo.pics_dir eq_refl eq_refl).
Defined.

(** X17. An error of the listing that is not a [WindowsError] is not
    caught: the run ends with that exception before anything is asked,
    processed or reported. *)
Theorem listing_exception_ends_run {FS : Type} {os : OS FS}
    (fuel : nat) (w : World FS) (input_path : option string)
    (sorter_path base_path : string) (e e' : exn) :
  let renamer := FileRenamer.fresh (w_fs w) input_path in
  let sorter := FileSorter.fresh sorter_path base_path in
  listdir (w_fs w) (FileRenamer.path renamer) = inl e ->
  not_windows_error e = true ->
  listdir (w_fs w) sorter_path = inl e' ->
  not_windows_error e' = true ->
  PictureRenamer.init (S fuel) input_path w = Raised e (w, renamer) /\
  PictureSorter.init (S fuel) sorter_path base_path w = Raised e' (w, sorter).
Proof.
  intros renamer sorter Hr He Hs He'. split.
  - unfold PictureRenamer.init, FileRenamer.init. fold renamer.
    cbn [FileRenamer.get_files]. run. rewrite Hr.
    destruct e; try discriminate He; reflexivity.
  - unfold PictureSorter.init, FileSorter.init. fold sorter.
    cbn [FileSorter.get_files]. run.
    change (FileSorter.input_path sorter) with sorter_path. rewrite Hs.
    destruct e'; try discriminate He'; reflexivity.
Qed.

Lemma listing_exception_ends_run_witness :
  let os := Stub.unlistable Stub.null_character in
  PictureRenamer.init (os := os) 1 None Stub.world =
    Raised Stub.null_character
      (Stub.world, FileRenamer.fresh (os := os) tt None) /\
  PictureSorter.init (os := os) 1 "C:\pics" "C:\sorted" Stub.world =
    Raised Stub.null_character
      (Stub.world, FileSorter.fresh "C:\pics" "C:\sorted").
Proof.
  intros os.
  exact (listing_exception_ends_run (os := os) 0 Stub.world None "C:\pics"
           "C:\sorted" Stub.null_character Stub.null_character
           eq_refl eq_refl eq_refl eq_refl).
Defined.

(** X18. When the listing fails and the operator's input has ended, the
    [EOFError] of [input] is not caught: the run ends with it after the
    prompt, at the first question or, after an answer of [Y], at the
    request for a new path, with no report printed. *)
Theorem end_of_input_ends_run {FS : Type} {os : OS FS}
    (fuel : nat) (w : World FS) (input_path : option string)
    (strerror text : string) :
  let renamer := FileRenamer.fresh (w_fs w) input_path in
  let prompt := FileRenamer.not_found_prompt (FileRenamer.path renamer) in
  let eof := EOFError "EOF when reading a line" in
  listdir (w_fs w) (FileRenamer.path renamer) = inl (WindowsError strerror text) ->
  (w_stdin w = [] ->
   PictureRenamer.init (S fuel) input_path w =
     Raised eof (Build_World (w_fs w) [] (w_stdout w ++ [prompt]), renamer)) /\
  (forall answer, w_stdin w = [answer] -> PyStr.upper answer = "Y" ->
   PictureRenamer.init (S fuel) input_path w =
     Raised eof
       (Build_World (w_fs w) []
          (w_stdout w ++ [prompt; "Please enter a new path:"]), renamer)).
Proof.
  intros renamer prompt eof Hl. split.
  - intros Hin. unfold PictureRenamer.init, FileRenamer.init. fold renamer.
    cbn [FileRenamer.get_files]. run. rewrite Hl. unfold input.
    cbn [fst snd w_fs w_stdin w_stdout]. now rewrite Hin.
  - intros answer Hin HY.
    unfold PictureRenamer.init, FileRenamer.init. fold renamer.
    cbn [FileRenamer.get_files]. run. rewrite Hl. unfold input.
    cbn [fst snd w_fs w_stdin w_stdout]. rewrite Hin, HY.
    cbn [String.eqb Ascii.eqb Bool.eqb fst snd w_fs w_stdin w_stdout].
    now rewrite <- app_assoc.
Qed.

Lemma end_of_input_ends_run_witness :
  let w := Sim.world Demo.pics ["y"] in
  listdir (w_fs w) "C:\nowhere" =
    inl (Sim.path_not_found (Sim.quoted "C:\nowhere")) /\
  PyStr.upper "y" = "Y" /\
  PictureRenamer.init 1 (Some "C:\nowhere") w =
    Raised (EOFError "EOF when reading a line")
      (Build_World Demo.pics []
         [FileRenamer.not_found_prompt "C:\nowhere"; "Please enter a new path:"],
       FileRenamer.fresh Demo.pics (Some "C:\nowhere")).
Proof.
  intros w. split; [reflexivity|]. split; [reflexivity|].
  exact (proj2 (end_of_input_ends_run 0 w (Some "C:\nowhere") _ _ eq_refl)
           "y" eq_refl eq_refl).
Defined.

(** ** The base classes *)

(** X19. With the empty list of accepted extensions the base classes
    declare, every listed file is skipped for its extension and the hooks
    are never called, whatever they are: [FileRenamer] used as it is never
    reaches the hooks that raise, and [FileSorter] never moves a file. *)
Theorem no_accepted_extension_skips_all {FS : Type} {os : OS FS}
    (get_new_name : string -> Py (St FS FileRenamer.t) (option string))
    (rename_file : nat -> string -> string -> string -> Py (St FS FileRenamer.t) unit)
    (move_file : nat -> string -> Py (St FS FileSorter.t) unit)
    (fuel : nat) (names : list string) :
  (forall (w : World FS) (self : FileRenamer.t),
     for_each names (FileRenamer.process_file [] get_new_name rename_file fuel)
       (w, self) =
     Returned tt
       (Build_World (w_fs w) (w_stdin w)
          (w_stdout w ++ map (fun name => "file_name " ++ name) names),
        Outcome.renamer_appends
          (map (fun name =>
                  (FileRenamer.SkippedDifferentExtension,
                   path_join (FileRenamer.path self) name)) names) self)) /\
  (forall (w : World FS) (self : FileSorter.t),
     for_each names (FileSorter.process_file [] move_file fuel) (w, self) =
     Returned tt
       (Build_World (w_fs w) (w_stdin w)
          (w_stdout w ++ map (fun name => "file_name " ++ name) names),
        Outcome.sorter_appends
          (map (fun name => (FileSorter.SkippedDifferentExtension, name)) names)
          self)).
Proof.
  split.
  - induction names as [|name names IH]; intros w self.
    + cbn. rewrite app_nil_r. now destruct w.
    + cbn [for_each]. unfold bind at 1.
      unfold FileRenamer.process_file at 1. run.
      cbn [PyStr.mem existsb negb]. rewrite IH.
      cbn [w_fs w_stdin w_stdout map Outcome.renamer_appends fold_left fst snd].
      rewrite <- app_assoc. reflexivity.
  - induction names as [|name names IH]; intros w self.
    + cbn. rewrite app_nil_r. now destruct w.
    + cbn [for_each]. unfold bind at 1.
      unfold FileSorter.process_file at 1. run.
      cbn [PyStr.mem existsb negb]. rewrite IH.
      cbn [w_fs w_stdin w_stdout map Outcome.sorter_appends fold_left fst snd].
      rewrite <- app_assoc. reflexivity.
Qed.

(** ** The sorter's prefix *)

(** X20. The sorter's prefix never fails and is never longer than four
    characters: it is the start of the name, four characters long when the
    name has that many, the whole name otherwise. *)
Theorem sort_key_bounds (file_name : string) :
  String.length (PictureSorter.sort_key file_name) =
    Nat.min 4 (String.length file_name) /\
  (exists rest, file_name = PictureSorter.sort_key file_name ++ rest) /\
  (String.length file_name <= 4 -> PictureSorter.sort_key file_name = file_name).
Proof.
  unfold PictureSorter.sort_key.
  destruct (le_lt_dec 4 (String.length file_name)) as [Hlong|Hshort].
  - destruct (slice_to_prefix 4 file_name Hlong) as [Hlen Hrest].
    split; [rewrite Hlen; lia|]. split; [exact Hrest|].
    intros Hle. destruct Hrest as [rest Hrest].
    assert (Hr : String.length rest = 0).
    { apply (f_equal String.length) in Hrest.
      rewrite append_length, Hlen in Hrest. lia. }
    destruct rest; [|discriminate Hr].
    now rewrite append_empty_r in Hrest.
  - assert (Hwhole : PyStr.slice_to 4 file_name = file_name).
    { unfold PyStr.slice_to.
      destruct file_name as [|a [|b [|c [|d s]]]]; simpl in *;
        try reflexivity; lia. }
    rewrite Hwhole. split; [lia|]. split; [|auto].
    exists EmptyString. now rewrite append_empty_r.
Qed.

Lemma sort_key_bounds_witness :
  String.length "a.j" <= 4 /\ PictureSorter.sort_key "a.j" = "a.j".
Proof.
  assert (H : String.length "a.j" <= 4) by (simpl; lia).
  split; [exact H|].
  exact (proj2 (proj2 (sort_key_bounds "a.j")) H).
Defined.

(** ** A batch that ends with an exception *)

Lemma reads_only_raises {FS : Type} {O A : Type} (c : Py (St FS O) A)
    (e : exn) (s s' : St FS O) :
  reads_only c -> c s = Raised e s' -> s' = s.
Proof.
  intros Hc H. destruct (Hc (w_fs (fst s))) as [r Hr].
  rewrite (Hr s eq_refl) in H. destruct r; congruence.
Qed.

Lemma for_each_cons_raised {S A : Type} (x : A) (xs : list A)
    (body : A -> Py S unit) (s s' : S) (e : exn) :
  for_each (x :: xs) body s = Raised e s' ->
  body x s = Raised e s' \/
  exists s1, body x s = Returned tt s1 /\ for_each xs body s1 = Raised e s'.
Proof.
  cbn [for_each]. unfold bind.
  destruct (body x s) as [[] s1| |]; try discriminate; eauto.
Qed.

Section Raised.
Context {FS : Type} {os : OS FS}.

Lemma rename_loop_raises (file_name new_name ext : string) (fuel : nat) :
  forall (new_file_name : string) (unique_num : nat)
         (s s' : St FS FileRenamer.t) (e : exn),
    PictureRenamer.rename_loop fuel file_name new_name ext
      new_file_name unique_num s = Raised e s' ->
    s' = s.
Proof.
  induction fuel as [|fuel IH]; intros new_file_name unique_num s s' e;
    cbn [PictureRenamer.rename_loop]; [discriminate|].
  destruct (String.eqb new_file_name file_name); [discriminate|].
  run. destruct (rename (w_fs (fst s)) file_name new_file_name) as [x|fs'];
    [|discriminate].
  destruct x; try (intros [= _ <-]; reflexivity). apply IH.
Qed.

Lemma renamer_process_file_raises (fuel : nat) (name : string)
    (s s' : St FS FileRenamer.t) (e : exn) :
  PictureRenamer.process_file fuel name s = Raised e s' -> snd s' = snd s.
Proof.
  unfold PictureRenamer.process_file, FileRenamer.process_file. run.
  destruct (negb _); [discriminate|].
  match goal with
  | |- context [PictureRenamer.get_new_name ?f ?s1] =>
      destruct (PictureRenamer.get_new_name f s1) as [r s2|x s2|] eqn:Hname;
        try discriminate
  end.
  - assert (s2 = (printed (fst s) ("file_name " ++ name), snd s)) as ->.
    { eapply reads_only_returns; [|exact Hname].
      apply reads_only_bind; [apply reads_only_init|].
      intros; apply reads_only_ret. }
    destruct r as [new_name|]; [|discriminate].
    cbn [snd]. intros H. apply rename_loop_raises in H. now subst s'.
  - intros [= _ <-].
    assert (s2 = (printed (fst s) ("file_name " ++ name), snd s)) as ->.
    { eapply reads_only_raises; [|exact Hname].
      apply reads_only_bind; [apply reads_only_init|].
      intros; apply reads_only_ret. }
    reflexivity.
Qed.

Lemma move_loop_raises (file_name key current : string) (fuel : nat) :
  forall (new_file_path : string) (unique_num : nat)
         (s s' : St FS FileSorter.t) (e : exn),
    PictureSorter.move_loop fuel file_name key current
      new_file_path unique_num s = Raised e s' ->
    snd s' = snd s.
Proof.
  induction fuel as [|fuel IH]; intros new_file_path unique_num s s' e;
    cbn [PictureSorter.move_loop]; [discriminate|].
  run. destruct (rename (w_fs (fst s)) current new_file_path) as [x|fs'];
    [|discriminate].
  destruct x as [strerror text|text|text|text|text];
    try (intros [= _ <-]; reflexivity).
  destruct (PyStr.contains "file already exists" strerror).
  { destruct (NtPath.splitext file_name) as [root ext]. apply IH. }
  destruct (PyStr.contains "cannot find the path" strerror); [|discriminate].
  destruct (mkdir (w_fs (fst s)) _) as [x|fs'].
  - intros [= _ <-]. reflexivity.
  - intros H. apply IH in H. exact H.
Qed.

Lemma sorter_process_file_raises (fuel : nat) (name : string)
    (s s' : St FS FileSorter.t) (e : exn) :
  PictureSorter.process_file fuel name s = Raised e s' -> snd s' = snd s.
Proof.
  unfold PictureSorter.process_file, FileSorter.process_file. run.
  destruct (negb _); [discriminate|].
  unfold PictureSorter.move_file. run. intros H.
  apply move_loop_raises in H. exact H.
Qed.

End Raised.

(** X21. An exception that ends a batch part-way takes nothing back: the
    files listed before the one that raised each keep their record, in
    order, in the lists, no record exists for that file or for those after
    it, and the lists held before the batch are still there in front. *)
Theorem records_survive_exception {FS : Type} {os : OS FS}
    (fuel : nat) (names : list string) :
  (forall (s s' : St FS FileRenamer.t) (e : exn),
     for_each names (PictureRenamer.process_file fuel) s = Raised e s' ->
     exists outs,
       List.length outs < List.length names /\
       Forall2
         (fun name o =>
            Outcome.renamer_records
              (path_join (FileRenamer.path (snd s)) name) o)
         (firstn (List.length outs) names) outs /\
       snd s' = Outcome.renamer_appends outs (snd s) /\
       forall b, FileRenamer.get b (snd s') =
                 (FileRenamer.get b (snd s) ++
                  Outcome.collect FileRenamer.bucket_eqb b outs)%list) /\
  (forall (s s' : St FS FileSorter.t) (e : exn),
     for_each names (PictureSorter.process_file fuel) s = Raised e s' ->
     exists outs,
       List.length outs < List.length names /\
       Forall2
         (fun name o =>
            Outcome.sorter_records (FileSorter.input_path (snd s)) name o)
         (firstn (List.length outs) names) outs /\
       snd s' = Outcome.sorter_appends outs (snd s) /\
       forall b, FileSorter.get b (snd s') =
                 (FileSorter.get b (snd s) ++
                  Outcome.collect FileSorter.bucket_eqb b outs)%list).
Proof.
  split.
  - induction names as [|name names IH]; intros s s' e H; [discriminate H|].
    apply for_each_cons_raised in H. destruct H as [H|(s1 & H1 & Hrest)].
    + apply renamer_process_file_raises in H.
      exists []. cbn [List.length firstn]. split; [lia|].
      split; [constructor|]. split; [exact H|].
      intros b. rewrite H. cbn. now rewrite app_nil_r.
    + apply renamer_process_file_records in H1. destruct H1 as (o & Ho & Hs1).
      apply IH in Hrest. destruct Hrest as (outs & Hlen & Hrec & Hs' & _).
      exists (o :: outs). cbn [List.length firstn]. split; [lia|]. split.
      * constructor; [exact Ho|]. rewrite Hs1 in Hrec. exact Hrec.
      * assert (Hfinal : snd s' = Outcome.renamer_appends (o :: outs) (snd s))
          by (rewrite Hs', Hs1; reflexivity).
        split; [exact Hfinal|]. intros b.
        rewrite Hfinal. apply renamer_get_appends.
  - induction names as [|name names IH]; intros s s' e H; [discriminate H|].
    apply for_each_cons_raised in H. destruct H as [H|(s1 & H1 & Hrest)].
    + apply sorter_process_file_raises in H.
      exists []. cbn [List.length firstn]. split; [lia|].
      split; [constructor|]. split; [exact H|].
      intros b. rewrite H. cbn. now rewrite app_nil_r.
    + apply sorter_process_file_records in H1. destruct H1 as (o & Ho & Hs1).
      apply IH in Hrest. destruct Hrest as (outs & Hlen & Hrec & Hs' & _).
      exists (o :: outs). cbn [List.length firstn]. split; [lia|]. split.
      * constructor; [exact Ho|]. rewrite Hs1 in Hrec. exact Hrec.
      * assert (Hfinal : snd s' = Outcome.sorter_appends (o :: outs) (snd s))
          by (rewrite Hs', Hs1; reflexivity).
        split; [exact Hfinal|]. intros b.
        rewrite Hfinal. apply sorter_get_appends.
Qed.

Lemma records_survive_exception_witness :
  let w := Sim.world Demo.pics [] in
  let self := Demo.renamer_of Demo.pics in
  exists s',
    for_each ["notes.txt"; "gone.jpg"; "photo1.jpg"]
      (PictureRenamer.process_file 1) (w, self) =
      Raised (Sim.file_not_found (Sim.quoted "C:\pics\gone.jpg")) s' /\
    FileRenamer.skipped_different_extension (snd s') = ["C:\pics\notes.txt"] /\
    exists outs,
      List.length outs < 3 /\
      snd s' = Outcome.renamer_appends outs self.
Proof.
  intros w self. eexists. split; [vm_compute; reflexivity|].
  split; [reflexivity|].
  match goal with
  | |- exists outs, _ /\ snd ?s' = _ =>
      destruct (proj1 (records_survive_exception 1
                         ["notes.txt"; "gone.jpg"; "photo1.jpg"])
                  (w, self) s'
                  (Sim.file_not_found (Sim.quoted "C:\pics\gone.jpg")))
        as (outs & Hlen & _ & Hs' & _)
  end.
  - vm_compute. reflexivity.
  - exists outs. split; [exact Hlen|exact Hs'].
Defined.

(** ** A second path *)

(** X22. When the first path cannot be listed, the operator answers [Y]
    and gives a path that can, the program goes on with that path: it
    becomes the object's path, its listing becomes the files to process,
    the two prompts are what was printed, and the file system and the
    outcome lists are as before. *)
Theorem new_path_is_adopted {FS : Type} {os : OS FS}
    (fuel : nat) (w : World FS) (renamer : FileRenamer.t) (sorter : FileSorter.t)
    (answer new_path : string) (rest listing : list string)
    (strerror text strerror' text' : string) :
  listdir (w_fs w) (FileRenamer.path renamer) = inl (WindowsError strerror text) ->
  listdir (w_fs w) (FileSorter.input_path sorter) =
    inl (WindowsError strerror' text') ->
  w_stdin w = answer :: new_path :: rest ->
  PyStr.upper answer = "Y" ->
  listdir (w_fs w) new_path = inr listing ->
  PictureRenamer.get_files (S (S fuel)) (w, renamer) =
    Returned tt
      (Build_World (w_fs w) rest
         (w_stdout w ++
          [FileRenamer.not_found_prompt (FileRenamer.path renamer);
           "Please enter a new path:"]),
       FileRenamer.set_files listing (FileRenamer.set_path new_path renamer)) /\
  PictureSorter.get_files (S (S fuel)) (w, sorter) =
    Returned tt
      (Build_World (w_fs w) rest
         (w_stdout w ++
          [FileRenamer.not_found_prompt (FileSorter.input_path sorter);
           "Please enter a new path:"]),
       FileSorter.set_files listing (FileSorter.set_input_path new_path sorter)) /\
  (let renamer' :=
     FileRenamer.set_files listing (FileRenamer.set_path new_path renamer) in
   FileRenamer.path renamer' = new_path /\
   FileRenamer.files renamer' = listing /\
   forall b, FileRenamer.get b renamer' = FileRenamer.get b renamer) /\
  (let sorter' :=
     FileSorter.set_files listing (FileSorter.set_input_path new_path sorter) in
   FileSorter.input_path sorter' = new_path /\
   FileSorter.files sorter' = listing /\
   FileSorter.base_path sorter' = FileSorter.base_path sorter /\
   forall b, FileSorter.get b sorter' = FileSorter.get b sorter).
Proof.
  intros Hr Hs Hin HY Hl.
  split; [|split; [|split; [repeat split; now intros []
                           |repeat split; now intros []]]].
  - unfold PictureRenamer.get_files.
    cbn [FileRenamer.get_files]. run. rewrite Hr. unfold input.
    cbn [fst snd w_fs w_stdin w_stdout]. rewrite Hin, HY.
    cbn [String.eqb Ascii.eqb Bool.eqb fst snd w_fs w_stdin w_stdout
         FileRenamer.path FileRenamer.set_path].
    rewrite Hl. now rewrite <- app_assoc.
  - unfold PictureSorter.get_files.
    cbn [FileSorter.get_files]. run. rewrite Hs. unfold input.
    cbn [fst snd w_fs w_stdin w_stdout]. rewrite Hin, HY.
    cbn [String.eqb Ascii.eqb Bool.eqb fst snd w_fs w_stdin w_stdout
         FileSorter.input_path FileSorter.set_input_path].
    rewrite Hl. now rewrite <- app_assoc.
Qed.

Lemma new_path_is_adopted_witness :
  let w := Sim.world Demo.pics ["y"; "C:\pics"] in
  let renamer := FileRenamer.fresh Demo.pics (Some "C:\nowhere") in
  let sorter := FileSorter.fresh "C:\nowhere" Demo.sorted_dir in
  PyStr.upper "y" = "Y" /\
  listdir (w_fs w) "C:\pics" = inr ["photo1.jpg"; "notes.txt"] /\
  PictureRenamer.get_files 2 (w, renamer) =
    Returned tt
      (Build_World Demo.pics []
         [FileRenamer.not_found_prompt "C:\nowhere"; "Please enter a new path:"],
       FileRenamer.set_files ["photo1.jpg"; "notes.txt"]
         (FileRenamer.set_path "C:\pics" renamer)) /\
  exists renamer',
    PictureRenamer.get_files 2 (w, renamer) =
      Returned tt
        (Build_World Demo.pics []
           [FileRenamer.not_found_prompt "C:\nowhere";
            "Please enter a new path:"], renamer') /\
    FileRenamer.path renamer' = "C:\pics" /\
    FileRenamer.files renamer' = ["photo1.jpg"; "notes.txt"].
Proof.
  intros w renamer sorter. split; [reflexivity|]. split; [reflexivity|].
  assert (Hr : listdir (w_fs w) (FileRenamer.path renamer) =
               inl (WindowsError "The system cannot find the path specified"
                      (exn_text (Sim.path_not_found (Sim.quoted "C:\nowhere")))))
    by reflexivity.
  assert (Hs : listdir (w_fs w) (FileSorter.input_path sorter) =
               inl (WindowsError "The system cannot find the path specified"
                      (exn_text (Sim.path_not_found (Sim.quoted "C:\nowhere")))))
    by reflexivity.
  destruct (new_path_is_adopted 0 w renamer sorter "y" "C:\pics" []
              ["photo1.jpg"; "notes.txt"] _ _ _ _
              Hr Hs eq_refl eq_refl eq_refl)
    as (Hrun & _ & (Hpath & Hfiles & _) & _).
  split; [exact Hrun|].
  eexists. split; [exact Hrun|]. split; [exact Hpath|exact Hfiles].
Defined.
